(** * astro-maplibre-template: the materialization engine of [src/lib/utils.ts]

    A shallow embedding of the content-tree transformer
    ([transformMixedTagToHTMLObject], [parseLegend], [parseShorthand]), the
    renderer ([renderHTMLObject], [renderHTMLObjects]) and the layer
    materializer ([loadMapLayers]) together with the properties the
    specification states about them. *)

From Stdlib Require Import ZArith QArith_base.
From stdpp Require Import base option list strings gmap.
From Equations Require Import Equations.

Local Open Scope string_scope.
Local Open Scope list_scope.

(** ** Thrown errors

    A JavaScript function either returns or throws.  [TypeError] is what the
    engine raises on a property read of [undefined]; [Error msg] is a
    [throw new Error(msg)] of the source. *)

Inductive Exn : Type :=
| TypeError
| Error (msg : string).

Inductive result (A : Type) : Type :=
| Ok (a : A)
| Throw (e : Exn).
Arguments Ok {A} a.
Arguments Throw {A} e.

#[global] Instance result_ret : MRet result := fun A a => Ok a.
#[global] Instance result_bind : MBind result := fun A B k r =>
  match r with
  | Ok a => k a
  | Throw e => Throw e
  end.

Definition isOk {A : Type} (r : result A) : bool :=
  match r with Ok _ => true | Throw _ => false end.

(** ** JavaScript truthiness of the values the code tests

    A string is truthy unless it is empty; [undefined] is falsy; an object or
    an array (even an empty one) is truthy. *)

Definition truthy_str (s : string) : bool :=
  match s with EmptyString => false | String _ _ => true end.

(** The value of an optional string when it passes an [if (x)] test. *)
Definition truthy (a : option string) : option string :=
  match a with
  | Some s => if truthy_str s then Some s else None
  | None => None
  end.

(** [a || b] on optional strings, [b] being a string. *)
Definition or_str (a : option string) (b : string) : string :=
  match a with
  | Some s => if truthy_str s then s else b
  | None => b
  end.

(** [a || b] where [a] is an optional object or array. *)
Definition or_obj {A : Type} (a : option A) (b : A) : A :=
  match a with Some x => x | None => b end.

(** ** Values read by a computed key

    [obj[name]] on a plain object finds the object's own entry, and where it
    has none goes on to [Object.prototype].  A value read that way is a string
    of the object, or the member the object inherits under that name: a
    function, or the prototype itself under [__proto__]. *)

Inductive JsValue : Type :=
| Str (s : string)
| Inherited (name : string).

(** The names every plain object inherits from [Object.prototype]. *)
Definition objectPrototype : list string :=
  ["constructor"; "hasOwnProperty"; "isPrototypeOf"; "propertyIsEnumerable";
   "toLocaleString"; "toString"; "valueOf"; "__proto__"; "__defineGetter__";
   "__defineSetter__"; "__lookupGetter__"; "__lookupSetter__"].

(** [obj[name]] for an object whose own entries are [obj]; [None] is
    [undefined]. *)
Definition getProperty (obj : gmap string string) (name : string)
    : option JsValue :=
  match obj !! name with
  | Some v => Some (Str v)
  | None =>
      if bool_decide (name ∈ objectPrototype) then Some (Inherited name)
      else None
  end.

(** [a || b] where [a] is an optional value: a function and an object are
    truthy. *)
Definition or_val (a : option JsValue) (b : string) : JsValue :=
  match a with
  | Some (Str s) => if truthy_str s then Str s else Str b
  | Some (Inherited name) => Inherited name
  | None => Str b
  end.

(** The string a value becomes in a template literal.  The text of a native
    function is fixed by the language up to white space; it is given here as
    V8 prints it. *)
Definition toText (v : JsValue) : string :=
  match v with
  | Str s => s
  | Inherited name =>
      if bool_decide (name = "__proto__") then "[object Object]"
      else "function "
             +:+ (if bool_decide (name = "constructor") then "Object" else name)
             +:+ "() { [native code] }"
  end.

(** ** Content model ([src/types.ts])

    A [ContentBlock] is the record form of an item of a tag's array; the
    fields are those the transformer reads ([text], [id] are carried along,
    the nested [children] field is never read by the code below).  [class]
    holds the class list handed on to the [HTMLObject]. *)

Record ContentBlock : Type := mkContentBlock {
  cb_property : option string;
  cb_else : option string;
  cb_str : option string;
  cb_href : option string;
  cb_text : option string;
  cb_src : option string;
  cb_alt : option string;
  cb_class : option (list string);
  cb_id : option string
}.

(** An item of a tag's array: a raw string, or a record
    ([typeof child === "object"]). *)
Inductive ContentItem : Type :=
| ItemString (s : string)
| ItemObject (b : ContentBlock).

(** The value under a tag name: a plain string, or an array of items. *)
Inductive TagValue : Type :=
| TagString (s : string)
| TagArray (items : list ContentItem).

(** A [ContentTag] is a JavaScript object; it is represented by its own
    enumerable entries in [Object.keys] order. *)
Definition ContentTag : Type := list (string * TagValue).

(** The event context: [e.features[0].properties] is a string-keyed map. *)
Record Feature : Type := mkFeature {
  properties : gmap string string
}.

Definition LngLat : Type := (Q * Q)%type.

Record MapLayerMouseEvent : Type := mkEvent {
  lngLat : LngLat;
  features : option (list Feature)
}.

(** The normalized render tree ([HTMLObject]).  Every field is optional at
    run time: the object literals of the transformer set different subsets.
    [content] holds what [resolveContent] returned. *)
Unset Elimination Schemes.
Inductive HTMLObject : Type := mkHTMLObject {
  h_tag : option string;
  h_content : option JsValue;
  h_class : option (list string);
  h_style : option (list (string * string));
  h_props : option (list (list (string * string)));
  h_id : option string;
  h_key : option string;
  h_children : option (list HTMLObject)
}.
Set Elimination Schemes.

(** ** Tree transformer *)

(** Field reads on an item; a raw string has none of the fields. *)
Definition item_field {A : Type} (f : ContentBlock -> option A)
    (i : ContentItem) : option A :=
  match i with
  | ItemString _ => None
  | ItemObject b => f b
  end.

(** [e?.features?.[0]?.properties] *)
Definition first_properties (e : option MapLayerMouseEvent)
    : option (gmap string string) :=
  match e with
  | None => None
  | Some ev =>
      match features ev with
      | None => None
      | Some fs =>
          match fs with
          | [] => None
          | f :: _ => Some (properties f)
          end
      end
  end.

(** [resolveContent] (utils.ts 383-395), on a defined content block.  The
    property is read by name off the first feature's [properties], a plain
    object. *)
Definition resolveContent (e : option MapLayerMouseEvent)
    (contentBlock : ContentItem) : JsValue :=
  match truthy (item_field cb_str contentBlock) with
  | Some s => Str s
  | None =>
      match truthy (item_field cb_property contentBlock), first_properties e with
      | Some p, Some props =>
          or_val (getProperty props p)
                 (or_str (item_field cb_else contentBlock) "")
      | _, _ => Str (or_str (item_field cb_else contentBlock) "")
      end
  end.

(** The array length of the value under the first key: the quantity that
    decreases along the recursive call of the transformer. *)
Definition tag_size (tag : ContentTag) : nat :=
  match tag with
  | (_, TagArray items) :: _ => length items
  | _ => 0
  end.

Definition is_standalone (tagName : string) : bool :=
  bool_decide (tagName = "img") || bool_decide (tagName = "iframe").

(** [transformMixedTagToHTMLObject] (utils.ts 364-442).  [tagName] is
    [Object.keys(tag)[0]] and [tagContent] the value under it.  Reading
    [tagContent[0].src], or resolving [tagContent[0]], on an empty array is a
    property read of [undefined] and throws. *)
Equations? transformMixedTagToHTMLObject (tag : ContentTag)
    (e : option MapLayerMouseEvent) : result HTMLObject
    by wf (tag_size tag) lt :=
  transformMixedTagToHTMLObject [] e :=
    Ok {| h_tag := None; h_content := Some (Str ""); h_class := Some [];
          h_style := None; h_props := Some []; h_id := None; h_key := None;
          h_children := Some [] |};
  transformMixedTagToHTMLObject ((tagName, TagString _) :: _) e :=
    Ok {| h_tag := Some tagName; h_content := Some (Str ""); h_class := Some [];
          h_style := None; h_props := Some []; h_id := None; h_key := None;
          h_children := Some [] |};
  transformMixedTagToHTMLObject ((tagName, TagArray (first :: second :: rest)) :: _) e :=
    children ← mapM (fun child =>
        match child with
        | ItemObject _ =>
            transformMixedTagToHTMLObject [(tagName, TagArray [child])] e
        | ItemString _ =>
            Ok {| h_tag := Some "span";
                  h_content := Some (resolveContent e child);
                  h_class := None; h_style := None; h_props := None;
                  h_id := None; h_key := None; h_children := None |}
        end) (first :: second :: rest);
    Ok {| h_tag := Some tagName; h_content := None;
          h_class := Some (or_obj (item_field cb_class first) []);
          h_style := None;
          h_props := Some (match truthy (item_field cb_href first) with
                           | Some href => [[("href", href)]]
                           | None => []
                           end);
          h_id := None; h_key := None;
          h_children := Some children |};
  transformMixedTagToHTMLObject ((tagName, TagArray [first]) :: _) e :=
    if is_standalone tagName then
      Ok {| h_tag := Some tagName; h_content := Some (Str "");
            h_class := Some (or_obj (item_field cb_class first) []);
            h_style := None;
            h_props := Some [[("src", or_str (item_field cb_src first) "")];
                             [("alt", or_str (item_field cb_alt first) "")]];
            h_id := None; h_key := None; h_children := None |}
    else
      Ok {| h_tag := Some tagName;
            h_content := Some (resolveContent e first);
            h_class := Some (or_obj (item_field cb_class first) []);
            h_style := None; h_props := None; h_id := None; h_key := None;
            h_children := Some [] |};
  transformMixedTagToHTMLObject ((tagName, TagArray []) :: _) e :=
    Throw TypeError.
Proof. simpl. lia. Qed.

(** [transformMixedBlockToHTMLObject] (utils.ts 444-449). *)
Definition transformMixedBlockToHTMLObject (content : list ContentTag)
    (e : option MapLayerMouseEvent) : result (list HTMLObject) :=
  mapM (fun tag => transformMixedTagToHTMLObject tag e) content.

(** ** Renderer *)

(** [Array.prototype.join] on strings. *)
Definition join (sep : string) (l : list string) : string := String.concat sep l.

(** [clsx] (external package) on an array of strings: the truthy entries,
    separated by single spaces. *)
Definition clsx (classes : list string) : string :=
  join " " (filter (fun c => truthy_str c = true) classes).

(** One entry of [data.props]: [`${Object.keys(value)}=${Object.values(value)}`];
    an array in a template literal is its elements joined by commas. *)
Definition renderProp (value : list (string * string)) : string :=
  join "," (map fst value) +:+ "=" +:+ join "," (map snd value).

Definition renderStyle (style : list (string * string)) : string :=
  join ";" (map (fun kv => fst kv +:+ ": " +:+ snd kv) style).

(** The double quote character of the attribute templates. *)
Definition quote : string := String (Ascii.ascii_of_nat 34) EmptyString.

(** [renderHTMLObject] (utils.ts 499-521). *)
Fixpoint renderHTMLObject (data : HTMLObject) : string :=
  match truthy (h_tag data) with
  | None => ""
  | Some tag =>
      let children :=
        join "" (match h_children data with
                 | Some cs => map renderHTMLObject cs
                 | None => []
                 end) in
      let props := join " " (map renderProp (or_obj (h_props data) [])) in
      let classes := clsx (or_obj (h_class data) []) in
      let id := match truthy (h_id data) with
                | Some i => "id=" +:+ quote +:+ i +:+ quote
                | None => ""
                end in
      let key := match truthy (h_key data) with
                 | Some k => "key=" +:+ quote +:+ k +:+ quote
                 | None => ""
                 end in
      let classList := if truthy_str classes
                       then "class=" +:+ quote +:+ classes +:+ quote else "" in
      let styleList := match h_style data with
                       | Some st => "style=" +:+ quote +:+ renderStyle st +:+ quote
                       | None => ""
                       end in
      "<" +:+ tag +:+ " " +:+ classList +:+ " " +:+ styleList +:+ " " +:+ id
          +:+ " " +:+ key +:+ " " +:+ props +:+ ">"
          +:+ toText (or_val (h_content data) "") +:+ children
          +:+ "</" +:+ tag +:+ ">"
  end.

(** [renderHTMLObjects] (utils.ts 523-525). *)
Definition renderHTMLObjects (data : list HTMLObject) : string :=
  join "" (map renderHTMLObject data).

(** ** Legend shorthand *)

Record LegendItem : Type := mkLegendItem {
  li_color : string;
  li_label : string
}.

(** [lg_items] is [None] when the legend has no [items] or when [items] is
    not an array. *)
Record Legend : Type := mkLegend {
  lg_title : option string;
  lg_items : option (list LegendItem)
}.

(** What [parseShorthand] may find under a key of its untyped argument. *)
Inductive ShorthandValue : Type :=
| SNull
| SString (s : string)
| SLegend (l : Legend).

Definition truthy_value (v : ShorthandValue) : bool :=
  match v with
  | SNull => false
  | SString s => truthy_str s
  | SLegend _ => true
  end.

Definition legendEntry (item : LegendItem) : HTMLObject :=
  {| h_tag := Some "li"; h_content := None; h_class := None; h_style := None;
     h_props := None; h_id := None; h_key := None;
     h_children := Some [
       {| h_tag := Some "span"; h_content := None;
          h_class := Some ["legend-color"];
          h_style := Some [("background-color", li_color item)];
          h_props := None; h_id := None; h_key := None; h_children := None |};
       {| h_tag := Some "span"; h_content := Some (Str (li_label item));
          h_class := Some ["legend-label"]; h_style := None;
          h_props := None; h_id := None; h_key := None; h_children := None |}
     ] |}.

(** [parseLegend] (utils.ts 451-488). *)
Definition parseLegend (legend : ShorthandValue) : result HTMLObject :=
  match legend with
  | SLegend l =>
      match lg_items l with
      | Some items =>
          Ok {| h_tag := Some "div"; h_content := None;
                h_class := Some ["menu-item"]; h_style := None;
                h_props := None; h_id := None; h_key := None;
                h_children := Some (
                  (match truthy (lg_title l) with
                   | Some title =>
                       [{| h_tag := Some "h3"; h_content := Some (Str title);
                           h_class := None; h_style := None; h_props := None;
                           h_id := None; h_key := None; h_children := None |}]
                   | None => []
                   end) ++
                  [{| h_tag := Some "ul"; h_content := None; h_class := None;
                      h_style := None; h_props := None; h_id := None;
                      h_key := None;
                      h_children := Some (map legendEntry items) |}]) |}
      | None => Throw (Error "Invalid legend format: must include 'items'.")
      end
  | _ => Throw (Error "Invalid legend format: must include 'items'.")
  end.

(** [parseShorthand] (utils.ts 491-497); [data] is the untyped object. *)
Definition parseShorthand (data : gmap string ShorthandValue)
    : result (list HTMLObject) :=
  match data !! "legend" with
  | Some legend =>
      if truthy_value legend
      then (node ← parseLegend legend; Ok [node])
      else Throw (Error "Unsupported shorthand format")
  | None => Throw (Error "Unsupported shorthand format")
  end.

(** ** Layer specifications ([src/types.ts]) *)

Inductive DataType : Type := geojson | raster | image | vector.
Inductive EventType : Type := click | mousemove | mouseenter | mouseleave.
Inductive Visibility : Type := visible | none.

#[global] Instance DataType_eq_dec : EqDecision DataType.
Proof. solve_decision. Defined.
#[global] Instance EventType_eq_dec : EqDecision EventType.
Proof. solve_decision. Defined.
#[global] Instance Visibility_eq_dec : EqDecision Visibility.
Proof. solve_decision. Defined.

Record MapEvent : Type := mkMapEvent {
  me_type : EventType;
  me_content : list ContentTag
}.

(** A paint object is handed to the engine as it is. *)
Definition Paint : Type := list (string * string).

(** The four interfaces of [MapLayer] share one record here: the code reads
    [paint], [url], [tileSize] ... off the layer whatever its [data-type]. *)
Record MapLayer : Type := mkMapLayer {
  ml_data_type : DataType;
  ml_id : string;
  ml_label : option string;
  ml_url : option string;
  ml_toggle : option bool;
  ml_visible : option bool;
  ml_layer_type : option string;
  ml_paint : option Paint;
  ml_tileSize : option Z;
  ml_coordinates : option (list (Q * Q));
  ml_minzoom : option Z;
  ml_maxzoom : option Z;
  ml_source_layer : option string;
  ml_mouseEvent : option (list MapEvent)
}.

(** [Object.values(layers)]: the layer specifications in order. *)
Definition LayerGroup : Type := list MapLayer.

Definition truthy_bool (b : option bool) : bool :=
  match b with Some true => true | _ => false end.

(** [n || d] on an optional number: [0] is falsy. *)
Definition or_num (n : option Z) (d : Z) : Z :=
  match n with
  | Some z => if Z.eqb z 0 then d else z
  | None => d
  end.

(** ** Fetched GeoJSON *)

(** A coordinate is a number of the document, or [Number(v)] of a property
    value; the coercion itself is not evaluated. *)
Inductive JsNumber : Type :=
| NumLit (q : Q)
| NumberOf (v : option string).

Record Geometry : Type := mkGeometry {
  g_type : string;
  g_coordinates : list JsNumber
}.

Record GeoFeature : Type := mkGeoFeature {
  gf_geometry : option Geometry;
  gf_properties : gmap string string
}.

Definition FeatureCollection : Type := list GeoFeature.

(** ** The map engine and the page

    The engine (maplibre-gl) and the DOM are collaborators of the code.  Their
    state is the part the code reads and writes: the sources and layers
    registered on the map, the delegated listeners, the popups created, the
    children of the menu element [`${map._container.id}-menu`] (absent when
    the page has no such element) and the fetches in flight. *)

Inductive SourceSpecification : Type :=
| GeoJSONSource (data : FeatureCollection)
| RasterSource (tiles : list string) (tileSize : Z)
| ImageSource (url : string) (coordinates : list (Q * Q))
| VectorSource (tiles : list string) (minzoom maxzoom : Z).

Record LayerSpecification : Type := mkLayerSpecification {
  l_id : string;
  l_type : option string;
  l_source : string;
  l_source_layer : option string;
  l_paint : Paint;
  l_visibility : option Visibility
}.

(** A listener closure: the popup handler of an event binding (it captures
    the popup and the binding), or the popup-removing handler. *)
Inductive Listener : Type :=
| ShowPopup (popup : nat) (event : MapEvent)
| RemovePopup (popup : nat).

(** The anchor created for a toggle; [tb_layer] is the [layer.id] its
    [onclick] closure captured. *)
Record ToggleButton : Type := mkToggleButton {
  tb_textContent : string;
  tb_className : string;
  tb_layer : string
}.

Record World : Type := mkWorld {
  w_sources : list (string * SourceSpecification);
  w_layers : list LayerSpecification;
  w_listeners : list (EventType * string * Listener);
  w_popups : list (option (LngLat * string));
  w_menu : option (list ToggleButton);
  w_fetches : list (MapLayer * bool)
}.

Definition set_sources (f : list (string * SourceSpecification) ->
    list (string * SourceSpecification)) (w : World) : World :=
  mkWorld (f (w_sources w)) (w_layers w) (w_listeners w) (w_popups w)
          (w_menu w) (w_fetches w).
Definition set_layers (f : list LayerSpecification -> list LayerSpecification)
    (w : World) : World :=
  mkWorld (w_sources w) (f (w_layers w)) (w_listeners w) (w_popups w)
          (w_menu w) (w_fetches w).
Definition set_listeners (f : list (EventType * string * Listener) ->
    list (EventType * string * Listener)) (w : World) : World :=
  mkWorld (w_sources w) (w_layers w) (f (w_listeners w)) (w_popups w)
          (w_menu w) (w_fetches w).
Definition set_popups (f : list (option (LngLat * string)) ->
    list (option (LngLat * string))) (w : World) : World :=
  mkWorld (w_sources w) (w_layers w) (w_listeners w) (f (w_popups w))
          (w_menu w) (w_fetches w).
Definition set_menu (f : option (list ToggleButton) ->
    option (list ToggleButton)) (w : World) : World :=
  mkWorld (w_sources w) (w_layers w) (w_listeners w) (w_popups w)
          (f (w_menu w)) (w_fetches w).
Definition set_fetches (f : list (MapLayer * bool) -> list (MapLayer * bool))
    (w : World) : World :=
  mkWorld (w_sources w) (w_layers w) (w_listeners w) (w_popups w)
          (w_menu w) (f (w_fetches w)).

(** [map.getSource(id)] *)
Definition getSource (w : World) (id : string) : option SourceSpecification :=
  snd <$> find (fun p => bool_decide (fst p = id)) (w_sources w).

(** [map.addSource(id, source)]: the engine refuses an id already in use. *)
Definition addSource (id : string) (source : SourceSpecification) (w : World)
    : result World :=
  match getSource w id with
  | Some _ => Throw (Error "Source already exists")
  | None => Ok (set_sources (fun l => l ++ [(id, source)]) w)
  end.

(** [map.getLayer(id)] *)
Definition getLayer (w : World) (id : string) : option LayerSpecification :=
  find (fun l => bool_decide (l_id l = id)) (w_layers w).

(** [map.addLayer(layer)]: the engine refuses an id already in use. *)
Definition addLayer (layer : LayerSpecification) (w : World) : result World :=
  match getLayer w (l_id layer) with
  | Some _ => Throw (Error "Layer already exists")
  | None => Ok (set_layers (fun l => l ++ [layer]) w)
  end.

(** [map.getLayoutProperty(id, "visibility")]; [undefined] for an unknown
    layer. *)
Definition getLayoutProperty (w : World) (id : string) : option Visibility :=
  getLayer w id ≫= l_visibility.

(** [map.setLayoutProperty(id, "visibility", v)]; nothing changes for an
    unknown layer. *)
Definition setLayoutProperty (id : string) (v : Visibility) (w : World) : World :=
  set_layers (map (fun l =>
    if bool_decide (l_id l = id)
    then mkLayerSpecification (l_id l) (l_type l) (l_source l)
           (l_source_layer l) (l_paint l) (Some v)
    else l)) w.

(** [map.on(type, layerId, listener)] *)
Definition on (type : EventType) (layerId : string) (listener : Listener)
    (w : World) : World :=
  set_listeners (fun l => l ++ [(type, layerId, listener)]) w.

(** [new maplibregl.Popup(...)]: the new popup is not shown; its handle is its
    index. *)
Definition newPopup (w : World) : nat * World :=
  (length (w_popups w), set_popups (fun l => l ++ [None]) w).

(** [popup.setLngLat(..).setHTML(..).addTo(map)] and [popup.remove()] *)
Definition showPopup (popup : nat) (at_ : LngLat) (html : string) (w : World)
    : World :=
  set_popups (fun l => <[popup := Some (at_, html)]> l) w.
Definition removePopup (popup : nat) (w : World) : World :=
  set_popups (fun l => <[popup := None]> l) w.

(** ** Layer materializer *)

(** A [forEach] whose body may throw. *)
Fixpoint forEachM {A S : Type} (body : A -> S -> result S) (l : list A) (s : S)
    : result S :=
  match l with
  | [] => Ok s
  | x :: xs => s1 ← body x s; forEachM body xs s1
  end.

(** First [forEach] of [loadMapLayers] (utils.ts 58-79): the toggle button of
    one layer. *)
Definition addToggle (layer : MapLayer) (w : World) : World :=
  if truthy_bool (ml_toggle layer) then
    let toggleButton :=
      {| tb_textContent := default (ml_id layer) (ml_label layer);
         tb_className := if bool_decide (ml_visible layer = Some true)
                         then "active" else "";
         tb_layer := ml_id layer |} in
    set_menu (fmap (fun children => children ++ [toggleButton])) w
  else w.

(** [toggleButton.onclick] of the [i]-th child of the menu (utils.ts 66-74). *)
Definition clickToggle (i : nat) (w : World) : World :=
  match w_menu w with
  | Some children =>
      match children !! i with
      | Some toggleButton =>
          let id := tb_layer toggleButton in
          if bool_decide (getLayoutProperty w id = Some visible) then
            set_menu (fun _ => Some (<[i :=
                mkToggleButton (tb_textContent toggleButton) "" id]> children))
              (setLayoutProperty id none w)
          else
            set_menu (fun _ => Some (<[i :=
                mkToggleButton (tb_textContent toggleButton) "active" id]> children))
              (setLayoutProperty id visible w)
      | None => w
      end
  | None => w
  end.

(** The geometry repair of the fetch callback (utils.ts 86-108). *)
Definition repairGeometry (feature : GeoFeature) : GeoFeature :=
  match gf_geometry feature with
  | Some _ => feature
  | None =>
      {| gf_geometry := Some
           {| g_type := "Point";
              g_coordinates :=
                [NumberOf (gf_properties feature !! "longitude");
                 NumberOf (gf_properties feature !! "latitude")] |};
         gf_properties := gf_properties feature |}
  end.

(** The [.then((data) => ...)] callback of a geojson layer
    (utils.ts 85-136). *)
Definition geojsonLoaded (layer : MapLayer) (visibility : bool)
    (data : FeatureCollection) (w : World) : result World :=
  let data := map repairGeometry data in
  w1 ← (match getSource w (ml_id layer) with
        | None => addSource (ml_id layer) (GeoJSONSource data) w
        | Some _ => Ok w
        end);
  match getLayer w1 (ml_id layer) with
  | None =>
      addLayer {| l_id := ml_id layer;
                  l_type := ml_layer_type layer;
                  l_source := ml_id layer;
                  l_source_layer := None;
                  l_paint := or_obj (ml_paint layer) [];
                  l_visibility := Some (if visibility then visible
                                        else if truthy_bool (ml_visible layer)
                                             then visible else none) |} w1
  | Some _ => Ok w1
  end.

(** Source and layer registration of one layer (utils.ts 82-220).  A geojson
    layer only starts its fetch. *)
Definition registerLayer (layer : MapLayer) (visibility : bool) (w : World)
    : result World :=
  match ml_data_type layer with
  | geojson => Ok (set_fetches (fun l => l ++ [(layer, visibility)]) w)
  | raster =>
      w1 ← (match getSource w (ml_id layer) with
            | None =>
                addSource (ml_id layer)
                  (RasterSource [or_str (ml_url layer) ""]
                                (or_num (ml_tileSize layer) 256)) w
            | Some _ => Ok w
            end);
      match getLayer w1 (ml_id layer) with
      | None =>
          addLayer {| l_id := ml_id layer;
                      l_type := Some "raster";
                      l_source := ml_id layer;
                      l_source_layer := None;
                      l_paint := or_obj (ml_paint layer) [];
                      l_visibility := Some (if visibility then visible
                                            else if truthy_bool (ml_visible layer)
                                                 then visible else none) |} w1
      | Some _ => Ok w1
      end
  | image =>
      w1 ← (match getSource w (ml_id layer) with
            | None =>
                addSource (ml_id layer)
                  (ImageSource (or_str (ml_url layer) "")
                               (or_obj (ml_coordinates layer) [])) w
            | Some _ => Ok w
            end);
      match getLayer w1 (ml_id layer) with
      | None =>
          addLayer {| l_id := ml_id layer;
                      l_type := Some "raster";
                      l_source := ml_id layer;
                      l_source_layer := None;
                      l_paint := or_obj (ml_paint layer) [];
                      l_visibility := Some (if visibility then visible
                                            else if truthy_bool (ml_visible layer)
                                                 then visible else none) |} w1
      | Some _ => Ok w1
      end
  | vector =>
      w1 ← (match getSource w (ml_id layer) with
            | None =>
                addSource (ml_id layer)
                  (VectorSource [or_str (ml_url layer) ""]
                                (or_num (ml_minzoom layer) 0)
                                (or_num (ml_maxzoom layer) 22)) w
            | Some _ => Ok w
            end);
      match getLayer w1 (ml_id layer) with
      | None =>
          addLayer {| l_id := ml_id layer;
                      l_type := ml_layer_type layer;
                      l_source := ml_id layer;
                      l_source_layer :=
                        Some (default (ml_id layer) (ml_source_layer layer));
                      l_paint := or_obj (ml_paint layer) [];
                      l_visibility := Some (if visibility then visible
                                            else if truthy_bool (ml_visible layer)
                                                 then visible else none) |} w1
      | Some _ => Ok w1
      end
  end.

(** Event wiring of one layer (utils.ts 222-248): only [map.on] runs now, the
    listener bodies run when the engine dispatches an event. *)
Definition wireEvents (layer : MapLayer) (w : World) : World :=
  match ml_mouseEvent layer with
  | Some events =>
      let (popup, w1) := newPopup w in
      foldl (fun w event => on (me_type event) (ml_id layer)
                               (ShowPopup popup event) w) w1 events
  | None => w
  end.

(** [loadMapLayers] (utils.ts 51-251). *)
Definition loadMapLayers (layers : LayerGroup) (visibility : bool) (w : World)
    : result World :=
  let w1 := foldl (fun w layer => addToggle layer w) w layers in
  forEachM (fun layer w =>
      w2 ← registerLayer layer visibility w;
      Ok (wireEvents layer w2)) layers w1.

(** A fetch in flight resolves with [data]: its callback runs. *)
Definition fetchResolved (k : nat) (data : FeatureCollection) (w : World)
    : result World :=
  match w_fetches w !! k with
  | Some (layer, visibility) =>
      geojsonLoaded layer visibility data
        (set_fetches (fun l => delete k l) w)
  | None => Ok w
  end.

(** The body of a listener, run for an event on layer [id]
    (utils.ts 226-246).  Every entry of [content] is an object here, so
    [isContentTag] holds of it. *)
Definition runListener (id : string) (e : MapLayerMouseEvent) (l : Listener)
    (w : World) : result World :=
  match l with
  | ShowPopup popup event =>
      parts ← mapM (fun tag =>
                 node ← transformMixedTagToHTMLObject tag (Some e);
                 Ok (renderHTMLObject node)) (me_content event);
      let w1 := showPopup popup (lngLat e) (join "" parts) w in
      Ok (if bool_decide (me_type event = mousemove)
          then on mouseleave id (RemovePopup popup) w1
          else w1)
  | RemovePopup popup => Ok (removePopup popup w)
  end.

(** The engine dispatches an event of [type] on layer [id]: the listeners
    registered for it at that moment run in registration order. *)
Definition fire (type : EventType) (id : string) (e : MapLayerMouseEvent)
    (w : World) : result World :=
  forEachM (fun reg w => runListener id e (snd reg) w)
    (filter (fun reg => fst reg = (type, id)) (w_listeners w)) w.

(** * Statements of the specification

    Definitions used to state the properties below: the rules of the
    specification in its own words, and the data of its examples. *)

(** The resolution rule in the words of the specification, a field that
    holds the empty string counting as a field that is not there. *)
Inductive resolves (e : option MapLayerMouseEvent) (item : ContentItem)
    : string -> Prop :=
| resolves_str s :
    item_field cb_str item = Some s -> s <> "" ->
    resolves e item s
| resolves_property p props v :
    truthy (item_field cb_str item) = None ->
    item_field cb_property item = Some p -> p <> "" ->
    first_properties e = Some props ->
    props !! p = Some v -> v <> "" ->
    resolves e item v
| resolves_else_property_missing p props :
    truthy (item_field cb_str item) = None ->
    item_field cb_property item = Some p -> p <> "" ->
    first_properties e = Some props ->
    truthy (props !! p) = None ->
    resolves e item (default "" (item_field cb_else item))
| resolves_else_no_context :
    truthy (item_field cb_str item) = None ->
    first_properties e = None ->
    resolves e item (default "" (item_field cb_else item))
| resolves_else_no_property :
    truthy (item_field cb_str item) = None ->
    truthy (item_field cb_property item) = None ->
    resolves e item (default "" (item_field cb_else item)).

(** The item's property has no entry in the feature's property map and names
    a member of [Object.prototype]: the lookup ends at the inherited member. *)
Definition reads_inherited_member (e : option MapLayerMouseEvent)
    (item : ContentItem) : Prop :=
  exists p props,
    truthy (item_field cb_str item) = None /\
    item_field cb_property item = Some p /\
    first_properties e = Some props /\
    props !! p = None /\ p ∈ objectPrototype.

Definition ex_lake : MapLayerMouseEvent :=
  mkEvent (0%Q, 0%Q) (Some [mkFeature {[ "name" := "Lake Park" ]}]).

Definition ex_name_item : ContentItem :=
  ItemObject (mkContentBlock (Some "name") (Some "Unknown") None None None
                             None None None None).

(** [{a: [{class: ["link"], href: "https://x"}, {str: "click here"}]}] *)
Definition ex_link : ContentTag :=
  [("a", TagArray
     [ItemObject (mkContentBlock None None None (Some "https://x") None None
                                 None (Some ["link"]) None);
      ItemObject (mkContentBlock None None (Some "click here") None None None
                                 None None None)])].

Definition span (content : JsValue) : HTMLObject :=
  {| h_tag := Some "span"; h_content := Some content; h_class := None;
     h_style := None; h_props := None; h_id := None; h_key := None;
     h_children := None |}.

(** The node a tag with exactly one item transforms to. *)
Definition singleNode (tagName : string) (e : option MapLayerMouseEvent)
    (item : ContentItem) : HTMLObject :=
  if is_standalone tagName then
    {| h_tag := Some tagName; h_content := Some (Str "");
       h_class := Some (or_obj (item_field cb_class item) []);
       h_style := None;
       h_props := Some [[("src", or_str (item_field cb_src item) "")];
                        [("alt", or_str (item_field cb_alt item) "")]];
       h_id := None; h_key := None; h_children := None |}
  else
    {| h_tag := Some tagName; h_content := Some (resolveContent e item);
       h_class := Some (or_obj (item_field cb_class item) []);
       h_style := None; h_props := None; h_id := None; h_key := None;
       h_children := Some [] |}.

(** The child a composite node has for one item of the sequence: a record
    item is transformed as the only item of a tag of the same name, any other
    item becomes a [span]. *)
Definition compositeChild (tagName : string) (e : option MapLayerMouseEvent)
    (item : ContentItem) : HTMLObject :=
  match item with
  | ItemObject _ => singleNode tagName e item
  | ItemString _ => span (resolveContent e item)
  end.

(** [e.features?.[0]] *)
Definition first_feature (ev : MapLayerMouseEvent) : option Feature :=
  features ev ≫= head.

(** The attributes of the opening tag as [renderHTMLObject] builds them. *)
Definition classAttr (data : HTMLObject) : string :=
  let classes := clsx (or_obj (h_class data) []) in
  if truthy_str classes then "class=" +:+ quote +:+ classes +:+ quote else "".

Definition styleAttr (data : HTMLObject) : string :=
  match h_style data with
  | Some st => "style=" +:+ quote +:+ renderStyle st +:+ quote
  | None => ""
  end.

Definition idAttr (data : HTMLObject) : string :=
  match truthy (h_id data) with
  | Some i => "id=" +:+ quote +:+ i +:+ quote
  | None => ""
  end.

Definition keyAttr (data : HTMLObject) : string :=
  match truthy (h_key data) with
  | Some k => "key=" +:+ quote +:+ k +:+ quote
  | None => ""
  end.

Definition propsAttr (data : HTMLObject) : string :=
  join " " (map renderProp (or_obj (h_props data) [])).

(** The parts of a rendered element, each written out on its own: the
    [class] attribute holds the non-empty class names separated by spaces and
    is left out when there is none; the [style] attribute holds one
    [name: value] per declaration, separated by semicolons; [id] and [key] are
    left out when empty; every prop is written [name=value], unquoted, the
    props separated by spaces (the names, and the values, of a prop with
    several entries separated by commas); the content is the text of the
    [content] value.  [dquote] is the double quote that encloses the value of
    [class], [style], [id] and [key]. *)
Definition dquote : string := String (Ascii.ascii_of_nat 34) "".

Definition classText (data : HTMLObject) : string :=
  match filter (fun c => c <> "") (default [] (h_class data)) with
  | [] => ""
  | classes => "class=" +:+ dquote +:+ String.concat " " classes +:+ dquote
  end.

Definition styleText (data : HTMLObject) : string :=
  match h_style data with
  | Some declarations =>
      "style=" +:+ dquote
        +:+ String.concat ";"
              (map (fun d => fst d +:+ ": " +:+ snd d) declarations)
        +:+ dquote
  | None => ""
  end.

Definition idText (data : HTMLObject) : string :=
  match h_id data with
  | Some i => if decide (i = "") then "" else "id=" +:+ dquote +:+ i +:+ dquote
  | None => ""
  end.

Definition keyText (data : HTMLObject) : string :=
  match h_key data with
  | Some k => if decide (k = "") then "" else "key=" +:+ dquote +:+ k +:+ dquote
  | None => ""
  end.

Definition propsText (data : HTMLObject) : string :=
  String.concat " "
    (map (fun prop => String.concat "," (map fst prop) +:+ "="
                        +:+ String.concat "," (map snd prop))
         (default [] (h_props data))).

Definition contentText (data : HTMLObject) : string :=
  match h_content data with
  | Some (Str s) => s
  | Some (Inherited name) => toText (Inherited name)
  | None => ""
  end.

(** [{tag: "a", content: "go", class: ["link"], style: {color: "red"},
      id: "home", key: "k1", props: [{href: "https://x"}, {target: "_blank"}],
      children: [span x, span y]}] *)
Definition ex_anchor : HTMLObject :=
  {| h_tag := Some "a"; h_content := Some (Str "go"); h_class := Some ["link"];
     h_style := Some [("color", "red")];
     h_props := Some [[("href", "https://x")]; [("target", "_blank")]];
     h_id := Some "home"; h_key := Some "k1";
     h_children := Some [span (Str "x"); span (Str "y")] |}.

(** [{title: "Key", items: [{color: "#f00", label: "Fire"}]}] *)
Definition ex_legend : Legend :=
  mkLegend (Some "Key") (Some [mkLegendItem "#f00" "Fire"]).

(** The optional heading of a legend: there is one for a non-empty title. *)
Definition legendHeading (l : Legend) : list HTMLObject :=
  match lg_title l with
  | Some title =>
      if bool_decide (title = "") then []
      else [{| h_tag := Some "h3"; h_content := Some (Str title); h_class := None;
               h_style := None; h_props := None; h_id := None; h_key := None;
               h_children := None |}]
  | None => []
  end.

(** A legend value that lacks an [items] array. *)
Definition lacks_items (v : ShorthandValue) : Prop :=
  match v with
  | SLegend l => lg_items l = None
  | _ => True
  end.

(** ** The registry of the map *)

(** The sources, and the layers, registered under an id. *)
Definition sourcesUnder (w : World) (id : string)
    : list (string * SourceSpecification) :=
  filter (fun p => fst p = id) (w_sources w).

Definition layersUnder (w : World) (id : string) : list LayerSpecification :=
  filter (fun l => l_id l = id) (w_layers w).

(** The engine never holds two sources, or two layers, under one id. *)
Definition ids_unique (w : World) : Prop :=
  forall id, length (sourcesUnder w id) <= 1 /\ length (layersUnder w id) <= 1.

(** The source and the layer the materializer hands to the engine for a layer
    specification ([data] is the fetched document of a geojson layer). *)
Definition sourceOf (layer : MapLayer) (data : FeatureCollection)
    : SourceSpecification :=
  match ml_data_type layer with
  | geojson => GeoJSONSource (map repairGeometry data)
  | raster => RasterSource [or_str (ml_url layer) ""]
                           (or_num (ml_tileSize layer) 256)
  | image => ImageSource (or_str (ml_url layer) "")
                         (or_obj (ml_coordinates layer) [])
  | vector => VectorSource [or_str (ml_url layer) ""]
                           (or_num (ml_minzoom layer) 0)
                           (or_num (ml_maxzoom layer) 22)
  end.

Definition layerOf (layer : MapLayer) (visibility : bool) : LayerSpecification :=
  {| l_id := ml_id layer;
     l_type := match ml_data_type layer with
               | geojson | vector => ml_layer_type layer
               | raster | image => Some "raster"
               end;
     l_source := ml_id layer;
     l_source_layer := match ml_data_type layer with
                       | vector => Some (default (ml_id layer)
                                                 (ml_source_layer layer))
                       | _ => None
                       end;
     l_paint := or_obj (ml_paint layer) [];
     l_visibility := Some (if visibility then visible
                           else if truthy_bool (ml_visible layer)
                                then visible else none) |}.

(** The layout and paint of a registered layer [l] as the specification
    gives them for the layer specification [layer] and the caller's
    [visibility] argument. *)
Definition initialLayout (visibility : bool) (layer : MapLayer)
    (l : LayerSpecification) : Prop :=
  l_id l = ml_id layer /\
  (visibility = true -> l_visibility l = Some visible) /\
  (visibility = false -> ml_visible layer = Some true ->
     l_visibility l = Some visible) /\
  (visibility = false -> ml_visible layer <> Some true ->
     l_visibility l = Some none) /\
  (forall paint, ml_paint layer = Some paint -> l_paint l = paint) /\
  (ml_paint layer = None -> l_paint l = []).

(** Registration under an id: each of the two is added only when the id is
    free. *)
Definition register (source : SourceSpecification) (layer : LayerSpecification)
    (w : World) : World :=
  let w1 := match getSource w (l_id layer) with
            | None => set_sources (fun l => l ++ [(l_id layer, source)]) w
            | Some _ => w
            end in
  match getLayer w1 (l_id layer) with
  | None => set_layers (fun l => l ++ [layer]) w1
  | Some _ => w1
  end.

(** What the second pass of [loadMapLayers] does for one layer. *)
Definition materializeOne (visibility : bool) (w : World) (layer : MapLayer)
    : World :=
  wireEvents layer
    (match ml_data_type layer with
     | geojson => set_fetches (fun l => l ++ [(layer, visibility)]) w
     | _ => register (sourceOf layer []) (layerOf layer visibility) w
     end).

(** The toggle button of a layer, and the buttons of a group. *)
Definition toggleOf (layer : MapLayer) : ToggleButton :=
  {| tb_textContent := default (ml_id layer) (ml_label layer);
     tb_className := if bool_decide (ml_visible layer = Some true)
                     then "active" else "";
     tb_layer := ml_id layer |}.

Definition togglesOf (layers : list MapLayer) : list ToggleButton :=
  map toggleOf (filter (fun layer => truthy_bool (ml_toggle layer) = true) layers).

(** The control is shown as active. *)
Definition active (b : ToggleButton) : Prop := tb_className b = "active".

(** A source and a layer are registered under the id. *)
Definition registered (w : World) (id : string) : Prop :=
  sourcesUnder w id <> [] /\ layersUnder w id <> [].

(** Exactly one source and exactly one layer are registered under the id. *)
Definition exactly_one (w : World) (id : string) : Prop :=
  length (sourcesUnder w id) = 1 /\ length (layersUnder w id) = 1.

(** The code path that registers a layer specification: the fetch callback
    of a geojson layer, the synchronous branch of the others. *)
Definition registration (layer : MapLayer) (visibility : bool)
    (data : FeatureCollection) (w : World) : result World :=
  match ml_data_type layer with
  | geojson => geojsonLoaded layer visibility data w
  | _ => registerLayer layer visibility w
  end.

(** Fetches in flight resolve one after the other, in any order: each entry
    of the schedule names the fetch that resolves next and its document. *)
Definition settle (schedule : list (nat * FeatureCollection)) (w : World)
    : result World :=
  forEachM (fun step w => fetchResolved (fst step) (snd step) w) schedule w.

(** Every geojson layer of the group is registered or still waits for its
    document. *)
Definition pending_or_registered (layers : LayerGroup) (w : World) : Prop :=
  forall layer, layer ∈ layers -> ml_data_type layer = geojson ->
    registered w (ml_id layer) \/
    exists visibility, (layer, visibility) ∈ w_fetches w.

(** A page with an empty menu and a map with nothing registered. *)
Definition ex_world : World := mkWorld [] [] [] [] (Some []) [].

Definition ex_raster : MapLayer :=
  mkMapLayer raster "relief" (Some "Relief") (Some "https://tiles/{z}/{x}/{y}.png")
    (Some true) (Some false) None None None None None None None
    (Some [mkMapEvent mousemove []]).

Definition ex_geojson : MapLayer :=
  mkMapLayer geojson "parks" None (Some "/parks.geojson") (Some true)
    (Some true) (Some "fill") (Some [("fill-color", "#0a0")]) None None None
    None None None.

(** The [i]-th control of the menu toggles the layer [id], and it is shown as
    active exactly when that layer's layout visibility is [visible]. *)
Definition agrees (w : World) (i : nat) (id : string) : Prop :=
  exists children b,
    w_menu w = Some children /\ children !! i = Some b /\ tb_layer b = id /\
    (active b <-> getLayoutProperty w id = Some visible).

(** [n] clicks on the [i]-th control of the menu. *)
Definition clicks (n i : nat) (w : World) : World :=
  Nat.iter n (clickToggle i) w.

(** The [mouseleave] listeners attached for a layer. *)
Definition mouseleaveListeners (w : World) (id : string)
    : list (EventType * string * Listener) :=
  filter (fun reg => fst reg = (mouseleave, id)) (w_listeners w).

(** The engine dispatches [n] [mousemove] events on a layer, one after the
    other. *)
Fixpoint mousemoves (n : nat) (id : string) (e : MapLayerMouseEvent)
    (w : World) : result World :=
  match n with
  | 0 => Ok w
  | S m => w1 ← fire mousemove id e w; mousemoves m id e w1
  end.

Definition ex_pointer : MapLayerMouseEvent :=
  mkEvent (1%Q, 2%Q) (Some [mkFeature {[ "name" := "Lake Park" ]}]).

(** A raster layer, not visible by default, with a toggle. *)
Definition ex_hidden : MapLayer :=
  mkMapLayer raster "relief" None (Some "https://tiles/{z}/{x}/{y}.png")
    (Some true) (Some false) None None None None None None None None.

(** A raster layer, visible by default, with a toggle. *)
Definition ex_shown : MapLayer :=
  mkMapLayer raster "relief" None (Some "https://tiles/{z}/{x}/{y}.png")
    (Some true) (Some true) None None None None None None None None.

(** * Further functions and statements *)

(** The value under the first key of the tag is an empty array. *)
Definition empty_items (tag : ContentTag) : Prop :=
  exists tagName others, tag = (tagName, TagArray []) :: others.

(** [Object.keys(tag)[0]] *)
Definition firstKey (tag : ContentTag) : option string := fst <$> head tag.

(** A node that has no children of its own. *)
Definition childless (node : HTMLObject) : Prop :=
  h_children node = None \/ h_children node = Some [].

(** A node that carries no [id], no [key] and no [style]. *)
Definition plain (node : HTMLObject) : Prop :=
  h_id node = None /\ h_key node = None /\ h_style node = None.

(** A node with a tag the renderer accepts. *)
Definition tagged (node : HTMLObject) : Prop := truthy (h_tag node) <> None.

#[global] Instance tagged_dec (node : HTMLObject) : Decision (tagged node).
Proof. unfold tagged. destruct (truthy (h_tag node)); [left|right]; congruence. Defined.

(** The tag with the text of every raw string blanked. *)
Definition blankItem (item : ContentItem) : ContentItem :=
  match item with
  | ItemString _ => ItemString ""
  | ItemObject b => ItemObject b
  end.

Definition blankValue (value : TagValue) : TagValue :=
  match value with
  | TagString _ => TagString ""
  | TagArray items => TagArray (map blankItem items)
  end.

Definition blankStrings (tag : ContentTag) : ContentTag :=
  map (fun entry => (fst entry, blankValue (snd entry))) tag.

(** The [class] attribute the renderer writes for a class list. *)
Definition classAttrOf (classes : list string) : string :=
  if truthy_str (clsx classes)
  then "class=" +:+ quote +:+ clsx classes +:+ quote else "".

(** The HTML of the node of a tag with one item. *)
Definition renderSingle (tagName : string) (e : option MapLayerMouseEvent)
    (item : ContentItem) : string :=
  if is_standalone tagName then
    "<" +:+ tagName +:+ " "
        +:+ classAttrOf (or_obj (item_field cb_class item) [])
        +:+ "    src=" +:+ or_str (item_field cb_src item) ""
        +:+ " alt=" +:+ or_str (item_field cb_alt item) ""
        +:+ "></" +:+ tagName +:+ ">"
  else
    "<" +:+ tagName +:+ " "
        +:+ classAttrOf (or_obj (item_field cb_class item) [])
        +:+ "    >" +:+ toText (resolveContent e item) +:+ "</" +:+ tagName
        +:+ ">".

(** The HTML of the child a composite node has for one item. *)
Definition renderItem (tagName : string) (e : option MapLayerMouseEvent)
    (item : ContentItem) : string :=
  match item with
  | ItemString _ => "<span     ></span>"
  | ItemObject _ => renderSingle tagName e item
  end.

(** The [href] attribute of a composite node. *)
Definition hrefAttrOf (first : ContentItem) : string :=
  match truthy (item_field cb_href first) with
  | Some href => "href=" +:+ href
  | None => ""
  end.

(** The HTML of one legend entry, and of the optional legend heading. *)
Definition renderLegendEntry (item : LegendItem) : string :=
  "<li     ><span class=" +:+ quote +:+ "legend-color" +:+ quote
    +:+ " style=" +:+ quote +:+ "background-color: " +:+ li_color item
    +:+ quote +:+ "   ></span><span class=" +:+ quote +:+ "legend-label"
    +:+ quote +:+ "    >" +:+ li_label item +:+ "</span></li>".

Definition renderLegendHeading (l : Legend) : string :=
  match truthy (lg_title l) with
  | Some title => "<h3     >" +:+ title +:+ "</h3>"
  | None => ""
  end.

(** ** Untyped YAML data ([parseYAMLBlock], utils.ts 326-361)

    The argument of [parseYAMLBlock] is untyped.  It is [null], a scalar, an
    array, an object with the keys of an [HTMLObject] ([h_tag] is [None] when
    it has no [tag] key), or an object with the keys [type] and [content]
    ([content] is [None] when it is missing or not an array). *)
Inductive YamlData : Type :=
| YNull
| YScalar (s : string)
| YArray (elements : list HTMLObject)
| YNode (node : HTMLObject)
| YBlock (type : option string) (content : option (list ContentTag)).

(** [isHTMLObjectBlock] (utils.ts 336-338): [typeof data === "object" &&
    "tag" in data]; [null] is an object, and [in] throws on it. *)
Definition isHTMLObjectBlock (data : YamlData) : result bool :=
  match data with
  | YNull => Throw TypeError
  | YScalar _ => Ok false
  | YArray _ => Ok false
  | YNode node => Ok (match h_tag node with Some _ => true | None => false end)
  | YBlock _ _ => Ok false
  end.

(** [isMixedBlock] (utils.ts 327-333). *)
Definition isMixedBlock (data : YamlData) : result bool :=
  match data with
  | YNull => Throw TypeError
  | YScalar _ => Ok false
  | YArray _ => Ok false
  | YNode _ => Ok false
  | YBlock type content =>
      Ok (bool_decide (type = Some "content") &&
          match content with Some _ => true | None => false end)
  end.

(** [Array.isArray(data) ? data : [data as HTMLObject]], for the objects that
    pass [isHTMLObjectBlock]. *)
Definition asHTMLObjects (data : YamlData) : list HTMLObject :=
  match data with
  | YArray elements => elements
  | YNode node => [node]
  | _ => []
  end.

(** [data.content] of a block that passed [isMixedBlock]. *)
Definition blockContent (data : YamlData) : list ContentTag :=
  match data with
  | YBlock _ (Some content) => content
  | _ => []
  end.

(** [parseYAMLBlock] (utils.ts 349-361). *)
Definition parseYAMLBlock (data : YamlData) : result (list HTMLObject) :=
  html ← isHTMLObjectBlock data;
  if html : bool then Ok (asHTMLObjects data)
  else
    mixed ← isMixedBlock data;
    if mixed : bool then
      mapM (fun tag => transformMixedTagToHTMLObject tag None)
           (blockContent data)
    else
      Throw (Error
        "Invalid YAML structure: must match HTMLObject or MixedBlock schema").

(** ** [parseMixedContent] (utils.ts 253-324)

    The function reads [classList] off the first item besides the fields of
    a [ContentBlock]; its items are records with that extra key, or raw
    strings. *)
Inductive MixedContentItem : Type :=
| MixedString (s : string)
| MixedObject (fields : ContentBlock) (classList : option string).

Inductive MixedValue : Type :=
| MixedText (s : string)
| MixedArray (items : list MixedContentItem).

Definition MixedTag : Type := list (string * MixedValue).

(** The text of one item of a tag's array; [in] throws on a raw string. *)
Definition mixedItem (tagName : string) (item : MixedContentItem)
    : result string :=
  match item with
  | MixedString _ => Throw TypeError
  | MixedObject b _ =>
      match cb_str b with
      | Some s => Ok s
      | None =>
          match bool_decide (tagName = "a"), cb_href b, cb_text b with
          | true, Some href, Some text =>
              Ok ("<a href=" +:+ quote +:+ href +:+ quote +:+ " target="
                    +:+ quote +:+ "_blank" +:+ quote +:+ ">" +:+ text
                    +:+ "</a>")
          | _, _, _ =>
              match bool_decide (tagName = "img"), cb_src b with
              | true, Some src =>
                  Ok ("<img src=" +:+ quote +:+ src +:+ quote +:+ " alt="
                        +:+ quote +:+ or_str (cb_alt b) "" +:+ quote +:+ " />")
              | _, _ => Ok ""
              end
          end
      end
  end.

(** The first item of the array under the tag, when it is a record. *)
Definition firstRecord (value : MixedValue)
    : option (ContentBlock * option string) :=
  match value with
  | MixedArray (MixedObject b classList :: _) => Some (b, classList)
  | _ => None
  end.

(** The callback of [block.map] for one tag. *)
Definition parseMixedTag (tag : list (string * MixedValue)) : result string :=
  match tag with
  | [] => Ok "<undefined  >undefined</undefined>"
  | (tagName, value) :: _ =>
      let classList :=
        match firstRecord value with
        | Some (_, Some c) => "class=" +:+ quote +:+ c +:+ quote
        | _ => ""
        end in
      let id :=
        match firstRecord value with
        | Some (b, _) =>
            match cb_id b with
            | Some i => "id=" +:+ quote +:+ i +:+ quote
            | None => ""
            end
        | None => ""
        end in
      if bool_decide (tagName = "iframe") then
        Ok (match firstRecord value with
            | Some (b, _) => default "" (cb_src b)
            | None => ""
            end)
      else
        text ← match value with
               | MixedArray items =>
                   parts ← mapM (mixedItem tagName) items; Ok (join " " parts)
               | MixedText s => Ok s
               end;
        Ok ("<" +:+ tagName +:+ " " +:+ classList +:+ " " +:+ id +:+ ">"
              +:+ text +:+ "</" +:+ tagName +:+ ">")
  end.

(** [parseMixedContent]; [block] is [None] when the argument is missing. *)
Definition parseMixedContent (block : option (list (list (string * MixedValue))))
    : result string :=
  match block with
  | Some tags => parts ← mapM parseMixedTag tags; Ok (join " " parts)
  | None => Ok "not yet"
  end.

(** A tag on which [parseMixedContent] fails: an array, under a first key
    other than [iframe], with a raw string among its items. *)
Definition has_raw_item (tag : list (string * MixedValue)) : Prop :=
  exists tagName items others,
    tag = (tagName, MixedArray items) :: others /\
    tagName <> "iframe" /\ exists s, MixedString s ∈ items.

(** The fields [parseMixedContent] never reads, cleared. *)
Definition clearUnread (item : MixedContentItem) : MixedContentItem :=
  match item with
  | MixedString s => MixedString s
  | MixedObject b classList =>
      MixedObject (mkContentBlock None None (cb_str b) (cb_href b) (cb_text b)
                                  (cb_src b) (cb_alt b) None (cb_id b))
                  classList
  end.

Definition clearUnreadTag (tag : list (string * MixedValue))
    : list (string * MixedValue) :=
  map (fun entry =>
         (fst entry,
          match snd entry with
          | MixedText s => MixedText s
          | MixedArray items => MixedArray (map clearUnread items)
          end)) tag.

(** ** Statements about the materializer *)

(** The listeners [loadMapLayers] attaches for a group: one per event binding
    of each layer, in order, the bindings of a layer sharing the popup created
    for it ([popup] is the handle of the next popup). *)
Fixpoint listenersOf (popup : nat) (layers : list MapLayer)
    : list (EventType * string * Listener) :=
  match layers with
  | [] => []
  | layer :: rest =>
      match ml_mouseEvent layer with
      | Some events =>
          map (fun event => (me_type event, ml_id layer, ShowPopup popup event))
              events ++ listenersOf (S popup) rest
      | None => listenersOf popup rest
      end
  end.

(** The layers of a group that get a popup. *)
Definition withEvents (layers : list MapLayer) : list MapLayer :=
  filter (fun layer => is_Some (ml_mouseEvent layer)) layers.

(** The specifications of a group that are registered without a fetch. *)
Definition withoutFetch (layers : list MapLayer) : list MapLayer :=
  filter (fun layer => ml_data_type layer <> geojson) layers.

(** A raster layer with no tile size, a vector layer with zoom bounds 0. *)
Definition ex_tiles : MapLayer :=
  mkMapLayer raster "tiles" None None None None None None (Some 0%Z) None None
    None None None.

Definition ex_vector : MapLayer :=
  mkMapLayer vector "roads" None (Some "https://v/{z}/{x}/{y}.pbf") None None
    (Some "line") None None None (Some 0%Z) (Some 0%Z) None None.

(** A feature without a geometry, and one with a geometry. *)
Definition ex_bare : GeoFeature :=
  mkGeoFeature None {[ "longitude" := "-87.6"; "latitude" := "41.8" ]}.

Definition ex_located : GeoFeature :=
  mkGeoFeature (Some (mkGeometry "Point" [NumLit 1%Q; NumLit 2%Q])) ∅.

(** A raster layer with one [click] binding. *)
Definition ex_clickable : MapLayer :=
  mkMapLayer raster "relief" None None None None None None None None None None
    None (Some [mkMapEvent click [[("p", TagArray [ex_name_item])]]]).

(** A raster layer with one [mousemove] binding. *)
Definition ex_hover : MapLayer :=
  mkMapLayer raster "relief" None None None None None None None None None None
    None (Some [mkMapEvent mousemove [[("p", TagArray [ex_name_item])]]]).

(** * Properties *)

(** ** Truthiness *)

Lemma truthy_Some (a : option string) (s : string) :
  truthy a = Some s <-> a = Some s /\ s <> "".
Proof.
  destruct a as [[|c t]|]; simpl; split; intros H.
  all: try discriminate H; try (destruct H; congruence).
  inversion H; subst. split; [reflexivity | discriminate].
Qed.

Lemma or_str_empty (a : option string) : or_str a "" = default "" a.
Proof. destruct a as [[|c t]|]; reflexivity. Qed.

(** ** Property resolution *)

Lemma objectPrototype_nonempty (p : string) : p ∈ objectPrototype -> p <> "".
Proof.
  intros Hin ->. revert Hin.
  apply (proj1 (bool_decide_eq_false ("" ∈ objectPrototype))). reflexivity.
Qed.

Lemma getProperty_own props p v :
  props !! p = Some v -> getProperty props p = Some (Str v).
Proof. unfold getProperty. by intros ->. Qed.

Lemma getProperty_missing props p :
  props !! p = None -> p ∉ objectPrototype -> getProperty props p = None.
Proof.
  unfold getProperty. intros -> Hnot. by rewrite bool_decide_false.
Qed.

Lemma getProperty_inherited props p :
  props !! p = None -> p ∈ objectPrototype ->
  getProperty props p = Some (Inherited p).
Proof.
  unfold getProperty. intros -> Hin. by rewrite bool_decide_true.
Qed.

(** X26.  The property is read through the prototype chain.  When the item
    has no non-empty [str], and its property has no entry in the first
    feature's property map and names a member of [Object.prototype],
    [resolveContent] returns that inherited member, which is no string; the
    [else] value of the item is passed over. *)
Theorem resolveContent_inherited_member (e : option MapLayerMouseEvent)
    (item : ContentItem) :
  reads_inherited_member e item ->
  exists p, item_field cb_property item = Some p /\
            resolveContent e item = Inherited p /\
            forall s, resolveContent e item <> Str s.
Proof.
  intros (p & props & Hs & Hp & He & Hnone & Hin).
  exists p. split; [exact Hp|].
  assert (resolveContent e item = Inherited p) as ->; [|by split].
  unfold resolveContent. rewrite Hs.
  assert (truthy (item_field cb_property item) = Some p) as ->.
  { apply truthy_Some. split; [exact Hp|]. by apply objectPrototype_nonempty. }
  rewrite He. by rewrite (getProperty_inherited props p Hnone Hin).
Qed.

Lemma resolveContent_reads_prototype_chain :
  let item := ItemObject (mkContentBlock (Some "toString") (Some "Unknown") None
                            None None None None None None) in
  let e := Some (mkEvent (0%Q, 0%Q) (Some [mkFeature ∅])) in
  reads_inherited_member e item /\
  resolveContent e item = Inherited "toString" /\
  resolveContent e item <> Str "Unknown".
Proof.
  intros item e.
  assert (reads_inherited_member e item) as Hreads.
  { exists "toString", ∅. repeat split.
    apply (proj1 (bool_decide_eq_true ("toString" ∈ objectPrototype))).
    reflexivity. }
  split; [exact Hreads|].
  destruct (resolveContent_inherited_member e item Hreads)
    as (p & Hp & Hmember & Hstring).
  injection Hp as <-. split; [exact Hmember | apply Hstring].
Defined.

Lemma resolveContent_resolves e item :
  ~ reads_inherited_member e item ->
  exists s, resolveContent e item = Str s /\ resolves e item s.
Proof.
  intros Hown. unfold resolveContent.
  destruct (truthy (item_field cb_str item)) as [s|] eqn:Hs.
  { exists s. split; [reflexivity|].
    apply truthy_Some in Hs as [Hs Hne]. by apply resolves_str. }
  destruct (truthy (item_field cb_property item)) as [p|] eqn:Hp.
  - apply truthy_Some in Hp as [Hp Hpne].
    destruct (first_properties e) as [props|] eqn:He.
    + destruct (props !! p) as [v|] eqn:Hv.
      * rewrite (getProperty_own props p v Hv). simpl.
        destruct (truthy_str v) eqn:Hv'.
        -- exists v. split; [reflexivity|].
           eapply resolves_property; eauto. by intros ->.
        -- eexists. split; [reflexivity|]. rewrite or_str_empty.
           eapply resolves_else_property_missing; eauto.
           rewrite Hv. simpl. by rewrite Hv'.
      * rewrite getProperty_missing; [|exact Hv|].
        -- eexists. split; [reflexivity|]. rewrite or_str_empty.
           eapply resolves_else_property_missing; eauto. by rewrite Hv.
        -- intros Hin. apply Hown. by exists p, props.
    + eexists. split; [reflexivity|]. rewrite or_str_empty.
      by apply resolves_else_no_context.
  - eexists. split; [reflexivity|]. rewrite or_str_empty.
    by apply resolves_else_no_property.
Qed.

Lemma resolves_functional e item s :
  ~ reads_inherited_member e item ->
  resolves e item s -> resolveContent e item = Str s.
Proof.
  intros Hown. unfold resolveContent.
  destruct 1 as [s Hs Hne | p props v Hs Hp Hpne He Hv Hvne
                | p props Hs Hp Hpne He Hv | Hs He | Hs Hp].
  - assert (truthy (item_field cb_str item) = Some s) as ->
      by by apply truthy_Some.
    reflexivity.
  - rewrite Hs.
    assert (truthy (item_field cb_property item) = Some p) as ->
      by by apply truthy_Some.
    rewrite He, (getProperty_own props p v Hv). simpl.
    by destruct v.
  - rewrite Hs.
    assert (truthy (item_field cb_property item) = Some p) as ->
      by by apply truthy_Some.
    rewrite He. destruct (props !! p) as [v|] eqn:Hlookup.
    + rewrite (getProperty_own props p v Hlookup). simpl.
      destruct v; [|discriminate Hv]. simpl. by rewrite or_str_empty.
    + rewrite getProperty_missing; [|exact Hlookup|].
      * simpl. by rewrite or_str_empty.
      * intros Hin. apply Hown. by exists p, props.
  - rewrite Hs, He.
    destruct (truthy (item_field cb_property item)); by rewrite or_str_empty.
  - rewrite Hs, Hp. by rewrite or_str_empty.
Qed.

(** C1, as amended.  Where the lookup of the item's property does not end at
    a member inherited from [Object.prototype], resolution returns a string,
    and it follows the rule of the specification with truthiness in place of
    presence: a non-empty [str] is returned verbatim and wins over
    [property]; otherwise a non-empty [property], with an event context that
    has a first feature, yields that feature's value of the property when it
    is present and non-empty, else the item's [else] value when present, else
    the empty string; without such a context, or without a property, the
    [else] value when present, else the empty string. *)
Theorem resolveContent_rule (e : option MapLayerMouseEvent) (item : ContentItem)
    (s : string) :
  ~ reads_inherited_member e item ->
  (resolves e item s <-> resolveContent e item = Str s) /\
  (exists s', resolveContent e item = Str s').
Proof.
  intros Hown.
  destruct (resolveContent_resolves e item Hown) as (s' & Hs' & Hrule).
  split; [split|].
  - by apply resolves_functional.
  - intros Heq. rewrite Hs' in Heq. by injection Heq as <-.
  - by exists s'.
Qed.

Lemma resolveContent_rule_witness :
  ~ reads_inherited_member (Some ex_lake) ex_name_item /\
  resolveContent (Some ex_lake) ex_name_item = Str "Lake Park".
Proof.
  assert (~ reads_inherited_member (Some ex_lake) ex_name_item) as Hown.
  { intros (p & props & _ & Hp & Hprops & Hnone & _).
    injection Hp as <-. injection Hprops as <-. discriminate Hnone. }
  split; [exact Hown|].
  apply (proj1 (proj1 (resolveContent_rule (Some ex_lake) ex_name_item
                         "Lake Park" Hown))).
  apply (resolves_property _ _ "name" {[ "name" := "Lake Park" ]} "Lake Park");
    [reflexivity | reflexivity | discriminate | reflexivity
    | reflexivity | discriminate].
Defined.

(** C1 as stated fails on empty strings: an item that carries the literal
    [str] [""] resolves to its [else] value, and a property that is present
    with the value [""] is passed over for [else] as well. *)
Lemma resolveContent_empty_string_is_absent :
  let item := ItemObject (mkContentBlock None (Some "fallback") (Some "")
                            None None None None None None) in
  let item' := ItemObject (mkContentBlock (Some "name") (Some "Unknown") None
                             None None None None None None) in
  let e := Some (mkEvent (0%Q, 0%Q) (Some [mkFeature {[ "name" := "" ]}])) in
  (item_field cb_str item = Some "" /\
   resolveContent None item = Str "fallback" /\
   resolveContent None item <> Str "") /\
  (first_properties e ≫= (fun props => props !! "name") = Some "" /\
   resolveContent e item' = Str "Unknown" /\
   resolveContent e item' <> Str "").
Proof. vm_compute. repeat split; discriminate. Qed.

(** ** Tree transformer *)

Lemma mapM_Ok_map {A B : Type} (f : A -> result B) (g : A -> B) (l : list A) :
  (forall x, x ∈ l -> f x = Ok (g x)) -> mapM f l = Ok (map g l).
Proof.
  induction l as [|x l IH]; intros Hf; [reflexivity|].
  simpl. rewrite (Hf x) by left. simpl.
  rewrite IH by (intros y Hy; apply Hf; by right). reflexivity.
Qed.

Lemma transform_single tagName item others e :
  transformMixedTagToHTMLObject ((tagName, TagArray [item]) :: others) e =
  Ok (singleNode tagName e item).
Proof.
  simp transformMixedTagToHTMLObject. unfold singleNode.
  by destruct (is_standalone tagName).
Qed.

Lemma transform_child tagName e child :
  match child with
  | ItemObject _ =>
      transformMixedTagToHTMLObject [(tagName, TagArray [child])] e
  | ItemString _ => Ok (span (resolveContent e child))
  end = Ok (compositeChild tagName e child).
Proof. destruct child; [reflexivity | apply transform_single]. Qed.

Lemma transform_many tagName first second rest others e :
  transformMixedTagToHTMLObject
    ((tagName, TagArray (first :: second :: rest)) :: others) e =
  Ok {| h_tag := Some tagName; h_content := None;
        h_class := Some (or_obj (item_field cb_class first) []);
        h_style := None;
        h_props := Some (match truthy (item_field cb_href first) with
                         | Some href => [[("href", href)]]
                         | None => []
                         end);
        h_id := None; h_key := None;
        h_children :=
          Some (map (compositeChild tagName e) (first :: second :: rest)) |}.
Proof.
  simp transformMixedTagToHTMLObject.
  rewrite (mapM_Ok_map _ (compositeChild tagName e)).
  - reflexivity.
  - intros child _. apply transform_child.
Qed.

(** C2, as amended.  A tag whose item sequence has more than one entry
    transforms to a composite node: [class] and the optional [href] prop come
    from the first item, and there is one child per item of the sequence, the
    first item included, in order.  A record item is transformed recursively
    as the only item of a tag of the same name: its child carries the
    parent's tag name and the item's class, and for [img] and [iframe] the
    [src] and [alt] props of the item and empty content, for every other tag
    the resolved content of the item.  Any other item becomes a [span] whose
    content is the property resolution of that item.  For
    [{a: [{class: ["link"], href: "https://x"}, {str: "click here"}]}] the
    node has tag [a], class [["link"]], the one prop [href] and two children,
    both with tag [a]: the first with class [["link"]] and empty content, the
    second with content ["click here"]. *)
Theorem transform_composite (tagName : string) (first second : ContentItem)
    (rest : list ContentItem) (others : ContentTag)
    (e : option MapLayerMouseEvent) :
  let items := first :: second :: rest in
  (exists children,
     transformMixedTagToHTMLObject ((tagName, TagArray items) :: others) e =
       Ok {| h_tag := Some tagName; h_content := None;
             h_class := Some (default [] (item_field cb_class first));
             h_style := None;
             h_props := Some (match item_field cb_href first with
                              | Some href =>
                                  if decide (href = "") then []
                                  else [[("href", href)]]
                              | None => []
                              end);
             h_id := None; h_key := None;
             h_children := Some children |} /\
     length children = length items /\
     Forall2 (fun item child =>
       match item with
       | ItemObject b =>
           transformMixedTagToHTMLObject [(tagName, TagArray [item])] e =
             Ok child /\
           (tagName = "img" \/ tagName = "iframe" ->
              child =
                {| h_tag := Some tagName; h_content := Some (Str "");
                   h_class := Some (default [] (cb_class b));
                   h_style := None;
                   h_props := Some [[("src", default "" (cb_src b))];
                                    [("alt", default "" (cb_alt b))]];
                   h_id := None; h_key := None; h_children := None |}) /\
           (tagName <> "img" -> tagName <> "iframe" ->
              child =
                {| h_tag := Some tagName;
                   h_content := Some (resolveContent e item);
                   h_class := Some (default [] (cb_class b));
                   h_style := None; h_props := None; h_id := None;
                   h_key := None; h_children := Some [] |})
       | ItemString _ => child = span (resolveContent e item)
       end) items children) /\
  transformMixedTagToHTMLObject ex_link None =
    Ok {| h_tag := Some "a"; h_content := None; h_class := Some ["link"];
          h_style := None; h_props := Some [[("href", "https://x")]];
          h_id := None; h_key := None;
          h_children := Some
            [ {| h_tag := Some "a"; h_content := Some (Str "");
                 h_class := Some ["link"]; h_style := None; h_props := None;
                 h_id := None; h_key := None; h_children := Some [] |};
              {| h_tag := Some "a"; h_content := Some (Str "click here");
                 h_class := Some []; h_style := None; h_props := None;
                 h_id := None; h_key := None; h_children := Some [] |} ] |}.
Proof.
  intros items. split; [|reflexivity].
  exists (map (compositeChild tagName e) items). split; [|split].
  - unfold items. rewrite transform_many. do 3 f_equal.
    destruct (item_field cb_href first) as [href|]; [|reflexivity].
    simpl. by destruct href.
  - apply length_map.
  - apply Forall2_fmap_r, Forall_Forall2_diag, Forall_forall.
    intros [s|b] _.
    + reflexivity.
    + split; [apply transform_single|]. simpl. unfold singleNode, is_standalone.
      split.
      * intros [->| ->]; simpl; by rewrite !or_str_empty.
      * intros Himg Hiframe. by rewrite !bool_decide_false.
Qed.

Lemma transform_composite_witness :
  let bang := ItemObject (mkContentBlock None None (Some "!") None None None
                            None (Some ["em"]) None) in
  let logo := ItemObject (mkContentBlock None None None None None
                            (Some "/a.png") (Some "A") None None) in
  (exists children,
     transformMixedTagToHTMLObject
       [("p", TagArray [ex_name_item; ItemString "raw"; bang])] (Some ex_lake) =
       Ok {| h_tag := Some "p"; h_content := None; h_class := Some [];
             h_style := None; h_props := Some []; h_id := None; h_key := None;
             h_children := Some children |} /\
     children =
       [ {| h_tag := Some "p"; h_content := Some (Str "Lake Park");
            h_class := Some []; h_style := None; h_props := None;
            h_id := None; h_key := None; h_children := Some [] |};
         span (Str "");
         {| h_tag := Some "p"; h_content := Some (Str "!");
            h_class := Some ["em"]; h_style := None; h_props := None;
            h_id := None; h_key := None; h_children := Some [] |} ]) /\
  (exists children,
     transformMixedTagToHTMLObject [("img", TagArray [logo; logo])] None =
       Ok {| h_tag := Some "img"; h_content := None; h_class := Some [];
             h_style := None; h_props := Some []; h_id := None; h_key := None;
             h_children := Some children |} /\
     children =
       [ {| h_tag := Some "img"; h_content := Some (Str "");
            h_class := Some []; h_style := None;
            h_props := Some [[("src", "/a.png")]; [("alt", "A")]];
            h_id := None; h_key := None; h_children := None |};
         {| h_tag := Some "img"; h_content := Some (Str "");
            h_class := Some []; h_style := None;
            h_props := Some [[("src", "/a.png")]; [("alt", "A")]];
            h_id := None; h_key := None; h_children := None |} ]).
Proof.
  intros bang logo. split.
  - destruct (proj1 (transform_composite "p" ex_name_item (ItemString "raw")
                       [bang] [] (Some ex_lake)))
      as (children & Hnode & _ & Hall).
    exists children. split; [exact Hnode|].
    apply Forall2_cons_inv_l in Hall as (c1 & k1 & H1 & Hall & ->).
    apply Forall2_cons_inv_l in Hall as (c2 & k2 & H2 & Hall & ->).
    apply Forall2_cons_inv_l in Hall as (c3 & k3 & H3 & Hall & ->).
    apply Forall2_nil_inv_l in Hall as ->.
    unfold ex_name_item in H1. destruct H1 as (_ & _ & H1).
    unfold bang in H3. destruct H3 as (_ & _ & H3).
    rewrite (H1 ltac:(done) ltac:(done)), H2, (H3 ltac:(done) ltac:(done)).
    reflexivity.
  - destruct (proj1 (transform_composite "img" logo logo [] [] None))
      as (children & Hnode & _ & Hall).
    exists children. split; [exact Hnode|].
    apply Forall2_cons_inv_l in Hall as (c1 & k1 & H1 & Hall & ->).
    apply Forall2_cons_inv_l in Hall as (c2 & k2 & H2 & Hall & ->).
    apply Forall2_nil_inv_l in Hall as ->.
    unfold logo in H1, H2.
    destruct H1 as (_ & H1 & _). destruct H2 as (_ & H2 & _).
    rewrite (H1 ltac:(by left)), (H2 ltac:(by left)).
    reflexivity.
Defined.

(** C2 as stated fails on its own example: the node has no single [span]
    child with content ["click here"]; the first item is a child too, and
    neither child is a [span]. *)
Lemma composite_example_has_two_children :
  (~ exists node child,
       transformMixedTagToHTMLObject ex_link None = Ok node /\
       h_children node = Some [child] /\
       h_tag child = Some "span" /\
       h_content child = Some (Str "click here")) /\
  (exists node c1 c2,
       transformMixedTagToHTMLObject ex_link None = Ok node /\
       h_children node = Some [c1; c2] /\
       h_tag c1 = Some "a" /\ h_tag c2 = Some "a").
Proof.
  split.
  - intros (node & child & Hnode & Hchildren & _).
    vm_compute in Hnode. inversion Hnode; subst node.
    simpl in Hchildren. discriminate Hchildren.
  - do 3 eexists. split; [vm_compute; reflexivity|]. repeat split.
Qed.

(** ** The event context is read through its first feature only *)

Lemma first_properties_first_feature ev :
  first_properties (Some ev) = properties <$> first_feature ev.
Proof.
  unfold first_properties, first_feature.
  destruct (features ev) as [[|f fs]|]; reflexivity.
Qed.

Lemma resolveContent_ext e1 e2 item :
  first_properties e1 = first_properties e2 ->
  resolveContent e1 item = resolveContent e2 item.
Proof. unfold resolveContent. by intros ->. Qed.

Lemma compositeChild_ext tagName e1 e2 item :
  first_properties e1 = first_properties e2 ->
  compositeChild tagName e1 item = compositeChild tagName e2 item.
Proof.
  intros He. unfold compositeChild, singleNode.
  by rewrite (resolveContent_ext e1 e2 item He).
Qed.

Lemma transform_ext tag e1 e2 :
  first_properties e1 = first_properties e2 ->
  transformMixedTagToHTMLObject tag e1 = transformMixedTagToHTMLObject tag e2.
Proof.
  intros He.
  destruct tag as [|[tagName [s|[|first [|second rest]]]] others].
  - by simp transformMixedTagToHTMLObject.
  - by simp transformMixedTagToHTMLObject.
  - by simp transformMixedTagToHTMLObject.
  - rewrite !transform_single. unfold singleNode.
    by rewrite (resolveContent_ext e1 e2 first He).
  - rewrite !transform_many. do 3 f_equal.
    apply map_ext. intros item. by apply compositeChild_ext.
Qed.

(** C10.  Property interpolation reads the first feature of the event
    context only: two event contexts whose feature lists have equal first
    elements give the same result for every content tag, whatever the
    features at index 1 and beyond are. *)
Theorem transform_reads_first_feature_only (tag : ContentTag)
    (e1 e2 : MapLayerMouseEvent) :
  first_feature e1 = first_feature e2 ->
  transformMixedTagToHTMLObject tag (Some e1) =
  transformMixedTagToHTMLObject tag (Some e2).
Proof.
  intros Hfirst. apply transform_ext.
  by rewrite !first_properties_first_feature, Hfirst.
Qed.

Lemma transform_reads_first_feature_only_witness :
  let f := mkFeature {[ "name" := "Lake Park" ]} in
  let g := mkFeature {[ "name" := "Harbour" ]} in
  let h := mkFeature {[ "name" := "Mill" ; "kind" := "ruin" ]} in
  let tag := [("p", TagArray [ex_name_item])] in
  transformMixedTagToHTMLObject tag (Some (mkEvent (0%Q, 0%Q) (Some [f; g]))) =
  transformMixedTagToHTMLObject tag (Some (mkEvent (1%Q, 2%Q) (Some [f; h; g]))).
Proof.
  intros f g h tag.
  apply (transform_reads_first_feature_only tag
           (mkEvent (0%Q, 0%Q) (Some [f; g]))
           (mkEvent (1%Q, 2%Q) (Some [f; h; g]))).
  reflexivity.
Defined.

(** ** Renderer *)

Lemma append_empty_r (s : string) : s +:+ "" = s.
Proof.
  induction s as [|c s IH]; [reflexivity|].
  change (String c (s +:+ "") = String c s). by f_equal.
Qed.

Lemma append_assoc (s t u : string) : (s +:+ t) +:+ u = s +:+ t +:+ u.
Proof.
  induction s as [|c s IH]; [reflexivity|].
  change (String c ((s +:+ t) +:+ u) = String c (s +:+ t +:+ u)). by f_equal.
Qed.

Lemma join_empty_cons (x : string) (xs : list string) :
  join "" (x :: xs) = x +:+ join "" xs.
Proof.
  unfold join. destruct xs as [|y ys].
  - symmetry. apply append_empty_r.
  - reflexivity.
Qed.

Lemma join_empty_app (l1 l2 : list string) :
  join "" (l1 ++ l2) = join "" l1 +:+ join "" l2.
Proof.
  induction l1 as [|x l1 IH]; [reflexivity|].
  rewrite <- app_comm_cons, !join_empty_cons, IH.
  by rewrite append_assoc.
Qed.

Lemma renderHTMLObjects_app (l1 l2 : list HTMLObject) :
  renderHTMLObjects (l1 ++ l2) = renderHTMLObjects l1 +:+ renderHTMLObjects l2.
Proof. unfold renderHTMLObjects. by rewrite map_app, join_empty_app. Qed.

Lemma renderHTMLObjects_cons (x : HTMLObject) (l : list HTMLObject) :
  renderHTMLObjects (x :: l) = renderHTMLObject x +:+ renderHTMLObjects l.
Proof. unfold renderHTMLObjects. simpl map. apply join_empty_cons. Qed.

Lemma renderHTMLObject_unfold (data : HTMLObject) :
  renderHTMLObject data =
  match truthy (h_tag data) with
  | None => ""
  | Some tag =>
      "<" +:+ tag +:+ " " +:+ classAttr data +:+ " " +:+ styleAttr data
          +:+ " " +:+ idAttr data +:+ " " +:+ keyAttr data
          +:+ " " +:+ propsAttr data +:+ ">"
          +:+ toText (or_val (h_content data) "")
          +:+ renderHTMLObjects (or_obj (h_children data) [])
          +:+ "</" +:+ tag +:+ ">"
  end.
Proof.
  destruct data as [tag content class style props id key children].
  unfold renderHTMLObjects. destruct children as [cs|]; reflexivity.
Qed.

(** The attributes the code builds are the ones the specification lists. *)

Lemma truthy_str_true (s : string) : truthy_str s = true <-> s <> "".
Proof. destruct s; simpl; split; (done || discriminate). Qed.

Lemma concat_truthy (sep x : string) (xs : list string) :
  x <> "" -> truthy_str (String.concat sep (x :: xs)) = true.
Proof.
  intros Hx. destruct x as [|c x]; [done|].
  simpl. by destruct xs.
Qed.

Lemma classAttr_classText (data : HTMLObject) : classAttr data = classText data.
Proof.
  unfold classAttr, classText, clsx, join.
  change (or_obj (h_class data) []) with (default [] (h_class data)).
  rewrite (list_filter_iff (fun c => truthy_str c = true) (fun c => c <> ""))
    by (intros c; apply truthy_str_true).
  destruct (filter (fun c => c <> "") (default [] (h_class data)))
    as [|c classes] eqn:Hfilter; [reflexivity|].
  assert (c ∈ filter (fun c => c <> "") (default [] (h_class data))) as Hin
    by (rewrite Hfilter; left).
  apply list_elem_of_filter in Hin as [Hc _].
  by rewrite (concat_truthy " " c classes Hc).
Qed.

Lemma styleAttr_styleText (data : HTMLObject) : styleAttr data = styleText data.
Proof. reflexivity. Qed.

Lemma idAttr_idText (data : HTMLObject) : idAttr data = idText data.
Proof.
  unfold idAttr, idText.
  destruct (h_id data) as [[|c i]|]; simpl; repeat case_decide;
    try congruence; reflexivity.
Qed.

Lemma keyAttr_keyText (data : HTMLObject) : keyAttr data = keyText data.
Proof.
  unfold keyAttr, keyText.
  destruct (h_key data) as [[|c k]|]; simpl; repeat case_decide;
    try congruence; reflexivity.
Qed.

Lemma propsAttr_propsText (data : HTMLObject) : propsAttr data = propsText data.
Proof. reflexivity. Qed.

Lemma content_contentText (data : HTMLObject) :
  toText (or_val (h_content data) "") = contentText data.
Proof.
  unfold contentText. destruct (h_content data) as [[[|c s]|name]|]; reflexivity.
Qed.

Lemma concat_empty_cons (x : string) (xs : list string) :
  String.concat "" (x :: xs) = x +:+ String.concat "" xs.
Proof. apply join_empty_cons. Qed.

Lemma concat_empty_app (l1 l2 : list string) :
  String.concat "" (l1 ++ l2) = String.concat "" l1 +:+ String.concat "" l2.
Proof. apply join_empty_app. Qed.

(** C5, as amended.  A node without a tag, or with the empty string as its
    tag, renders as the empty string.  A node with a non-empty tag renders as
    its opening tag, carrying the attributes in the order class, style, id,
    key, other props, then its content, then its rendered children, then its
    closing tag; every prop is written out, the content is part of the output
    as it is, and the children are rendered recursively, every one of them,
    in order. *)
Theorem render_shape (data : HTMLObject) :
  (h_tag data = None \/ h_tag data = Some "" -> renderHTMLObject data = "") /\
  (forall tag, h_tag data = Some tag -> tag <> "" ->
     renderHTMLObject data =
       "<" +:+ tag +:+ " " +:+ classText data +:+ " " +:+ styleText data
           +:+ " " +:+ idText data +:+ " " +:+ keyText data
           +:+ " " +:+ propsText data +:+ ">"
           +:+ contentText data
           +:+ String.concat ""
                 (map renderHTMLObject (default [] (h_children data)))
           +:+ "</" +:+ tag +:+ ">") /\
  (forall content, h_content data = Some (Str content) ->
     contentText data = content) /\
  (forall before child after,
     h_children data = Some (before ++ child :: after) ->
     String.concat "" (map renderHTMLObject (default [] (h_children data))) =
       String.concat "" (map renderHTMLObject before)
         +:+ renderHTMLObject child
         +:+ String.concat "" (map renderHTMLObject after)).
Proof.
  split; [|split; [|split]].
  - rewrite renderHTMLObject_unfold. by intros [-> | ->].
  - intros tag Htag Hne. rewrite renderHTMLObject_unfold.
    assert (truthy (h_tag data) = Some tag) as -> by by apply truthy_Some.
    rewrite classAttr_classText, styleAttr_styleText, idAttr_idText,
      keyAttr_keyText, propsAttr_propsText, content_contentText.
    reflexivity.
  - unfold contentText. by intros content ->.
  - intros before child after ->. simpl default.
    by rewrite map_app, concat_empty_app, map_cons, concat_empty_cons.
Qed.

Lemma render_shape_witness :
  renderHTMLObject ex_anchor =
    "<a class=" +:+ dquote +:+ "link" +:+ dquote
      +:+ " style=" +:+ dquote +:+ "color: red" +:+ dquote
      +:+ " id=" +:+ dquote +:+ "home" +:+ dquote
      +:+ " key=" +:+ dquote +:+ "k1" +:+ dquote
      +:+ " href=https://x target=_blank>go"
      +:+ "<span     >x</span><span     >y</span></a>" /\
  renderHTMLObject (span (Str "x")) = "<span     >x</span>".
Proof.
  split.
  - rewrite (proj1 (proj2 (render_shape ex_anchor)) "a" eq_refl
               ltac:(discriminate)).
    rewrite (proj2 (proj2 (proj2 (render_shape ex_anchor)))
               [span (Str "x")] (span (Str "y")) [] eq_refl).
    reflexivity.
  - rewrite (proj1 (proj2 (render_shape (span (Str "x")))) "span" eq_refl
               ltac:(discriminate)).
    reflexivity.
Defined.

(** C5 as stated fails for a node whose tag is present and is the empty
    string.  The transformer returns such nodes for a tag keyed by the empty
    string; they render as the empty string, so that the content ["hello"] of
    the first and the two children of the second are dropped and no opening
    or closing tag is written. *)
Lemma render_drops_node_with_empty_tag :
  let item := ItemObject (mkContentBlock None None (Some "hello") None None
                            None None None None) in
  exists leaf composite children,
    transformMixedTagToHTMLObject [("", TagArray [item])] None = Ok leaf /\
    h_tag leaf = Some "" /\ h_content leaf = Some (Str "hello") /\
    renderHTMLObject leaf = "" /\
    transformMixedTagToHTMLObject [("", TagArray [item; item])] None =
      Ok composite /\
    h_tag composite = Some "" /\ h_children composite = Some children /\
    length children = 2 /\
    renderHTMLObject composite = "".
Proof.
  intros item. do 3 eexists.
  split; [vm_compute; reflexivity|]. split; [reflexivity|].
  split; [reflexivity|]. split; [reflexivity|].
  split; [vm_compute; reflexivity|]. split; [reflexivity|].
  split; [reflexivity|]. split; reflexivity.
Qed.

(** ** Legend shorthand *)

(** C8, as amended.  A legend with an [items] array transforms to a [div]
    with class [menu-item] whose children are an [h3] holding the title,
    present exactly when the legend has a non-empty title, followed by a [ul]
    with one [li] per legend item; each [li] has exactly two [span] children,
    a color swatch whose inline style sets [background-color] to the item's
    color and a label whose content is the item's label. *)
Theorem parseLegend_shape (l : Legend) (items : list LegendItem) :
  lg_items l = Some items ->
  exists entries,
    parseLegend (SLegend l) =
      Ok {| h_tag := Some "div"; h_content := None;
            h_class := Some ["menu-item"]; h_style := None; h_props := None;
            h_id := None; h_key := None;
            h_children := Some (legendHeading l ++
              [{| h_tag := Some "ul"; h_content := None; h_class := None;
                  h_style := None; h_props := None; h_id := None;
                  h_key := None; h_children := Some entries |}]) |} /\
    Forall2 (fun item entry =>
      h_tag entry = Some "li" /\
      exists swatch label,
        h_children entry = Some [swatch; label] /\
        h_tag swatch = Some "span" /\
        h_style swatch = Some [("background-color", li_color item)] /\
        h_tag label = Some "span" /\
        h_content label = Some (Str (li_label item))) items entries.
Proof.
  intros Hitems. exists (map legendEntry items). split.
  - unfold parseLegend, legendHeading. rewrite Hitems.
    destruct (lg_title l) as [[|c t]|]; reflexivity.
  - apply Forall2_fmap_r, Forall_Forall2_diag, Forall_forall.
    intros item _. split; [reflexivity|].
    do 2 eexists. repeat split.
Qed.

Lemma parseLegend_shape_witness :
  exists entries,
    parseLegend (SLegend ex_legend) =
      Ok {| h_tag := Some "div"; h_content := None;
            h_class := Some ["menu-item"]; h_style := None; h_props := None;
            h_id := None; h_key := None;
            h_children := Some (
              [{| h_tag := Some "h3"; h_content := Some (Str "Key"); h_class := None;
                  h_style := None; h_props := None; h_id := None;
                  h_key := None; h_children := None |};
               {| h_tag := Some "ul"; h_content := None; h_class := None;
                  h_style := None; h_props := None; h_id := None;
                  h_key := None; h_children := Some entries |}]) |} /\
    length entries = 1.
Proof.
  destruct (parseLegend_shape ex_legend [mkLegendItem "#f00" "Fire"] eq_refl)
    as (entries & Hparse & Hentries).
  exists entries. split; [exact Hparse|].
  symmetry. exact (Forall2_length _ _ _ Hentries).
Defined.

(** C8 as stated fails for a legend whose title is the empty string: it has
    a title, and the node has no [h3]. *)
Lemma parseLegend_empty_title_no_heading :
  let l := mkLegend (Some "") (Some [mkLegendItem "#f00" "Fire"]) in
  lg_title l = Some "" /\
  exists node list_node,
    parseLegend (SLegend l) = Ok node /\
    h_children node = Some [list_node] /\
    h_tag list_node = Some "ul".
Proof. simpl. split; [reflexivity|]. do 2 eexists. repeat split. Qed.

(** C9.  A shorthand whose key is not [legend] is refused with an error, and
    so is a legend value that lacks an [items] array; in neither case is a
    node produced. *)
Theorem parseShorthand_errors (data : gmap string ShorthandValue) :
  (data !! "legend" = None ->
     parseShorthand data = Throw (Error "Unsupported shorthand format")) /\
  (forall legend, data !! "legend" = Some legend -> lacks_items legend ->
     (exists msg, parseShorthand data = Throw (Error msg)) /\
     parseLegend legend =
       Throw (Error "Invalid legend format: must include 'items'.")) /\
  (forall nodes, parseShorthand data = Ok nodes ->
     exists l items, data !! "legend" = Some (SLegend l) /\
                     lg_items l = Some items).
Proof.
  unfold parseShorthand. split; [|split].
  - by intros ->.
  - intros legend -> Hlacks. split.
    + destruct legend as [|s|l]; simpl in *.
      * by eexists.
      * destruct (truthy_str s); by eexists.
      * rewrite Hlacks. by eexists.
    + destruct legend as [|s|l]; simpl in *; [done..|]. by rewrite Hlacks.
  - intros nodes Hok.
    destruct (data !! "legend") as [[|s|l]|]; simpl in Hok; try discriminate.
    + destruct (truthy_str s); discriminate.
    + destruct (lg_items l) as [items|] eqn:Hitems; [by eauto | discriminate].
Qed.

Lemma parseShorthand_errors_witness :
  parseShorthand {[ "table" := SString "x" ]} =
    Throw (Error "Unsupported shorthand format") /\
  parseLegend (SLegend (mkLegend (Some "Key") None)) =
    Throw (Error "Invalid legend format: must include 'items'.").
Proof.
  split.
  - apply (proj1 (parseShorthand_errors {[ "table" := SString "x" ]})).
    reflexivity.
  - apply (proj1 (proj2 (parseShorthand_errors
             {[ "legend" := SLegend (mkLegend (Some "Key") None) ]}))
             (SLegend (mkLegend (Some "Key") None)));
      reflexivity.
Defined.

(** ** Layer materializer *)

(** *** The engine's registry *)

Lemma find_app {A : Type} (f : A -> bool) (l1 l2 : list A) :
  find f (l1 ++ l2) =
  match find f l1 with Some x => Some x | None => find f l2 end.
Proof.
  induction l1 as [|x l1 IH]; [reflexivity|].
  simpl. by destruct (f x).
Qed.

Lemma find_filter_nil {A : Type} (P : A -> Prop) `{forall x, Decision (P x)}
    (l : list A) :
  find (fun x => bool_decide (P x)) l = None <-> filter P l = [].
Proof.
  induction l as [|x l IH]; [done|].
  simpl. rewrite filter_cons. case_bool_decide; case_decide; try done.
Qed.

Lemma getSource_None w id : getSource w id = None <-> sourcesUnder w id = [].
Proof.
  unfold getSource, sourcesUnder. rewrite fmap_None.
  apply (find_filter_nil (fun p => fst p = id)).
Qed.

Lemma getLayer_None w id : getLayer w id = None <-> layersUnder w id = [].
Proof. apply (find_filter_nil (fun l => l_id l = id)). Qed.

(** The guarded calls of the source never reach the engine's refusal. *)
Lemma guarded_addSource id source w :
  match getSource w id with
  | None => addSource id source w
  | Some _ => Ok w
  end =
  Ok (match getSource w id with
      | None => set_sources (fun l => l ++ [(id, source)]) w
      | Some _ => w
      end).
Proof. unfold addSource. by destruct (getSource w id). Qed.

Lemma guarded_addLayer layer w :
  match getLayer w (l_id layer) with
  | None => addLayer layer w
  | Some _ => Ok w
  end =
  Ok (match getLayer w (l_id layer) with
      | None => set_layers (fun l => l ++ [layer]) w
      | Some _ => w
      end).
Proof. unfold addLayer. by destruct (getLayer w (l_id layer)). Qed.

Lemma registerLayer_register layer visibility w :
  ml_data_type layer <> geojson ->
  registerLayer layer visibility w =
  Ok (register (sourceOf layer []) (layerOf layer visibility) w).
Proof.
  intros Hsync. unfold registerLayer, register, sourceOf, layerOf.
  destruct (ml_data_type layer); [done|..]; simpl.
  all: rewrite guarded_addSource; simpl.
  all: match goal with
       | |- context [addLayer ?l ?w1] => apply (guarded_addLayer l w1)
       end.
Qed.

Lemma geojsonLoaded_register layer visibility data w :
  ml_data_type layer = geojson ->
  geojsonLoaded layer visibility data w =
  Ok (register (sourceOf layer data) (layerOf layer visibility) w).
Proof.
  intros Hgeo. unfold geojsonLoaded, register, sourceOf, layerOf.
  rewrite Hgeo. simpl. rewrite guarded_addSource. simpl.
  match goal with
  | |- context [addLayer ?l ?w1] => apply (guarded_addLayer l w1)
  end.
Qed.

Lemma register_sources source layer w :
  w_sources (register source layer w) =
  w_sources w ++ match sourcesUnder w (l_id layer) with
                 | [] => [(l_id layer, source)]
                 | _ => []
                 end.
Proof.
  unfold register.
  assert (forall w1, w_sources
            (match getLayer w1 (l_id layer) with
             | None => set_layers (fun l => l ++ [layer]) w1
             | Some _ => w1
             end) = w_sources w1) as -> by (intros w1; by destruct (getLayer _ _)).
  destruct (getSource w (l_id layer)) as [s|] eqn:Hget.
  - destruct (sourcesUnder w (l_id layer)) eqn:Hunder.
    + apply getSource_None in Hunder. congruence.
    + by rewrite app_nil_r.
  - apply getSource_None in Hget. by rewrite Hget.
Qed.

Lemma register_layers source layer w :
  w_layers (register source layer w) =
  w_layers w ++ match layersUnder w (l_id layer) with
                | [] => [layer]
                | _ => []
                end.
Proof.
  unfold register.
  assert (getLayer (match getSource w (l_id layer) with
                    | None => set_sources
                                (fun l => l ++ [(l_id layer, source)]) w
                    | Some _ => w
                    end) (l_id layer) = getLayer w (l_id layer)) as Hsame
    by by destruct (getSource _ _).
  rewrite Hsame.
  destruct (getLayer w (l_id layer)) as [l|] eqn:Hget.
  - destruct (layersUnder w (l_id layer)) eqn:Hunder.
    + apply getLayer_None in Hunder. congruence.
    + rewrite app_nil_r. by destruct (getSource _ _).
  - apply getLayer_None in Hget. rewrite Hget. by destruct (getSource _ _).
Qed.

Lemma register_rest source layer w :
  w_listeners (register source layer w) = w_listeners w /\
  w_popups (register source layer w) = w_popups w /\
  w_menu (register source layer w) = w_menu w /\
  w_fetches (register source layer w) = w_fetches w.
Proof.
  unfold register.
  destruct (getSource w (l_id layer)); destruct (getLayer _ _); done.
Qed.

Lemma sourcesUnder_register source layer w id :
  sourcesUnder (register source layer w) id =
  sourcesUnder w id ++
  (if decide (l_id layer = id)
   then match sourcesUnder w id with [] => [(id, source)] | _ => [] end
   else []).
Proof.
  unfold sourcesUnder at 1. rewrite register_sources, filter_app.
  fold (sourcesUnder w id). f_equal.
  case_decide as Hid.
  - subst id. destruct (sourcesUnder w (l_id layer)); [|done].
    rewrite filter_cons, decide_True by done. done.
  - destruct (sourcesUnder w (l_id layer)); [|done].
    rewrite filter_cons, decide_False by done. done.
Qed.

Lemma layersUnder_register source layer w id :
  layersUnder (register source layer w) id =
  layersUnder w id ++
  (if decide (l_id layer = id)
   then match layersUnder w id with [] => [layer] | _ => [] end
   else []).
Proof.
  unfold layersUnder at 1. rewrite register_layers, filter_app.
  fold (layersUnder w id). f_equal.
  case_decide as Hid.
  - subst id. destruct (layersUnder w (l_id layer)); [|done].
    rewrite filter_cons, decide_True by done. done.
  - destruct (layersUnder w (l_id layer)); [|done].
    rewrite filter_cons, decide_False by done. done.
Qed.

Lemma register_ids_unique source layer w :
  ids_unique w -> ids_unique (register source layer w).
Proof.
  intros Huniq id. destruct (Huniq id) as [Hs Hl].
  rewrite sourcesUnder_register, layersUnder_register, !length_app.
  case_decide; simpl; [|lia].
  destruct (sourcesUnder w id), (layersUnder w id); simpl in *; lia.
Qed.

Lemma register_present source layer w :
  sourcesUnder w (l_id layer) <> [] -> layersUnder w (l_id layer) <> [] ->
  w_sources (register source layer w) = w_sources w /\
  w_layers (register source layer w) = w_layers w.
Proof.
  intros Hs Hl. rewrite register_sources, register_layers.
  destruct (sourcesUnder w _), (layersUnder w _); try done.
  by rewrite !app_nil_r.
Qed.

(** *** The two passes of [loadMapLayers] *)

Lemma forEachM_Ok {A S : Type} (body : A -> S -> result S) (g : S -> A -> S)
    (l : list A) (s : S) :
  (forall x s, body x s = Ok (g s x)) -> forEachM body l s = Ok (foldl g s l).
Proof.
  intros Hbody. revert s. induction l as [|x l IH]; intros s; [reflexivity|].
  simpl. rewrite Hbody. simpl. apply IH.
Qed.

Lemma loadMapLayers_eq layers visibility w :
  loadMapLayers layers visibility w =
  Ok (foldl (materializeOne visibility)
            (foldl (fun w layer => addToggle layer w) w layers) layers).
Proof.
  unfold loadMapLayers. apply forEachM_Ok. intros layer w1.
  unfold materializeOne.
  destruct (ml_data_type layer) eqn:Htype.
  - unfold registerLayer. by rewrite Htype.
  - rewrite registerLayer_register by congruence. reflexivity.
  - rewrite registerLayer_register by congruence. reflexivity.
  - rewrite registerLayer_register by congruence. reflexivity.
Qed.

Lemma wire_frame popup id events w :
  let w' := foldl (fun w event => on (me_type event) id
                                     (ShowPopup popup event) w) w events in
  w_sources w' = w_sources w /\ w_layers w' = w_layers w /\
  w_menu w' = w_menu w /\ w_fetches w' = w_fetches w /\
  w_popups w' = w_popups w.
Proof.
  revert w. induction events as [|event events IH]; intros w; [done|].
  simpl. destruct (IH (on (me_type event) id (ShowPopup popup event) w))
    as (-> & -> & -> & -> & ->).
  done.
Qed.

Lemma wireEvents_frame layer w :
  w_sources (wireEvents layer w) = w_sources w /\
  w_layers (wireEvents layer w) = w_layers w /\
  w_menu (wireEvents layer w) = w_menu w /\
  w_fetches (wireEvents layer w) = w_fetches w.
Proof.
  unfold wireEvents. destruct (ml_mouseEvent layer) as [events|]; [|done].
  simpl.
  destruct (wire_frame (length (w_popups w)) (ml_id layer) events
              (set_popups (fun l => l ++ [None]) w)) as (-> & -> & -> & -> & _).
  done.
Qed.

Lemma addToggle_frame layer w :
  w_sources (addToggle layer w) = w_sources w /\
  w_layers (addToggle layer w) = w_layers w /\
  w_listeners (addToggle layer w) = w_listeners w /\
  w_popups (addToggle layer w) = w_popups w /\
  w_fetches (addToggle layer w) = w_fetches w.
Proof. unfold addToggle. by destruct (truthy_bool (ml_toggle layer)). Qed.

Lemma addToggles_frame layers w :
  let w' := foldl (fun w layer => addToggle layer w) w layers in
  w_sources w' = w_sources w /\ w_layers w' = w_layers w /\
  w_listeners w' = w_listeners w /\ w_popups w' = w_popups w /\
  w_fetches w' = w_fetches w.
Proof.
  revert w. induction layers as [|layer layers IH]; intros w; [done|].
  simpl. destruct (IH (addToggle layer w)) as (-> & -> & -> & -> & ->).
  apply addToggle_frame.
Qed.

(** The registry after the second pass has handled one layer. *)
Lemma materializeOne_registry visibility w layer :
  (ml_data_type layer = geojson ->
     w_sources (materializeOne visibility w layer) = w_sources w /\
     w_layers (materializeOne visibility w layer) = w_layers w) /\
  (ml_data_type layer <> geojson ->
     let w' := register (sourceOf layer []) (layerOf layer visibility) w in
     w_sources (materializeOne visibility w layer) = w_sources w' /\
     w_layers (materializeOne visibility w layer) = w_layers w').
Proof.
  unfold materializeOne. split; intros Htype.
  - rewrite Htype. destruct (wireEvents_frame layer
      (set_fetches (fun l => l ++ [(layer, visibility)]) w)) as (-> & -> & _).
    done.
  - destruct (ml_data_type layer); [done|..];
      match goal with
      | |- context [wireEvents layer ?w1] =>
          destruct (wireEvents_frame layer w1) as (-> & -> & _)
      end; done.
Qed.

Lemma materializeOne_menu visibility w layer :
  w_menu (materializeOne visibility w layer) = w_menu w.
Proof.
  unfold materializeOne.
  match goal with
  | |- context [wireEvents layer ?w1] =>
      destruct (wireEvents_frame layer w1) as (_ & _ & -> & _)
  end.
  destruct (ml_data_type layer); try done;
    apply (register_rest (sourceOf layer []) (layerOf layer visibility) w).
Qed.

(** *** Registration is idempotent *)

Lemma registered_exactly_one w id :
  ids_unique w -> registered w id -> exactly_one w id.
Proof.
  intros Huniq [Hs Hl]. destruct (Huniq id) as [Hs1 Hl1]. split.
  - destruct (sourcesUnder w id) as [|? [|? ?]]; simpl in *; [done|lia..].
  - destruct (layersUnder w id) as [|? [|? ?]]; simpl in *; [done|lia..].
Qed.

Lemma registry_ext w w' :
  w_sources w' = w_sources w -> w_layers w' = w_layers w ->
  (forall id, sourcesUnder w' id = sourcesUnder w id) /\
  (forall id, layersUnder w' id = layersUnder w id).
Proof. unfold sourcesUnder, layersUnder. by intros -> ->. Qed.

Lemma ids_unique_ext w w' :
  w_sources w' = w_sources w -> w_layers w' = w_layers w ->
  ids_unique w -> ids_unique w'.
Proof.
  intros Hs Hl Huniq id. destruct (registry_ext w w' Hs Hl) as [-> ->].
  apply Huniq.
Qed.

Lemma registered_ext w w' id :
  w_sources w' = w_sources w -> w_layers w' = w_layers w ->
  registered w id -> registered w' id.
Proof.
  intros Hs Hl. unfold registered.
  by destruct (registry_ext w w' Hs Hl) as [-> ->].
Qed.

Lemma register_registered source layer w :
  registered (register source layer w) (l_id layer).
Proof.
  unfold registered.
  rewrite sourcesUnder_register, layersUnder_register, !decide_True by done.
  destruct (sourcesUnder w _), (layersUnder w _); done.
Qed.

Lemma register_mono source layer w id :
  registered w id -> registered (register source layer w) id.
Proof.
  unfold registered. rewrite sourcesUnder_register, layersUnder_register.
  intros [Hs Hl]. split; intros Happ; apply app_eq_nil in Happ as [? _]; done.
Qed.

Lemma materializeOne_ids_unique visibility w layer :
  ids_unique w -> ids_unique (materializeOne visibility w layer).
Proof.
  intros Huniq.
  destruct (materializeOne_registry visibility w layer) as [Hgeo Hsync].
  destruct (decide (ml_data_type layer = geojson)) as [Htype|Htype].
  - destruct (Hgeo Htype) as [Hs Hl]. by apply (ids_unique_ext w).
  - destruct (Hsync Htype) as [Hs Hl].
    eapply ids_unique_ext; [exact Hs | exact Hl |].
    by apply register_ids_unique.
Qed.

Lemma materializeOne_mono visibility w layer id :
  registered w id -> registered (materializeOne visibility w layer) id.
Proof.
  intros Hreg.
  destruct (materializeOne_registry visibility w layer) as [Hgeo Hsync].
  destruct (decide (ml_data_type layer = geojson)) as [Htype|Htype].
  - destruct (Hgeo Htype) as [Hs Hl]. by apply (registered_ext w).
  - destruct (Hsync Htype) as [Hs Hl].
    eapply registered_ext; [exact Hs | exact Hl |].
    by apply register_mono.
Qed.

Lemma materializeOne_registers visibility w layer :
  ml_data_type layer <> geojson ->
  registered (materializeOne visibility w layer) (ml_id layer).
Proof.
  intros Htype.
  destruct (materializeOne_registry visibility w layer) as [_ Hsync].
  destruct (Hsync Htype) as [Hs Hl].
  eapply registered_ext; [exact Hs | exact Hl |].
  apply (register_registered (sourceOf layer []) (layerOf layer visibility)).
Qed.

Lemma materializeOne_present visibility w layer :
  (ml_data_type layer <> geojson -> registered w (ml_id layer)) ->
  w_sources (materializeOne visibility w layer) = w_sources w /\
  w_layers (materializeOne visibility w layer) = w_layers w.
Proof.
  intros Hreg.
  destruct (materializeOne_registry visibility w layer) as [Hgeo Hsync].
  destruct (decide (ml_data_type layer = geojson)) as [Htype|Htype].
  - by apply Hgeo.
  - destruct (Hsync Htype) as [-> ->]. destruct (Hreg Htype) as [Hs Hl].
    by apply (register_present (sourceOf layer []) (layerOf layer visibility)).
Qed.

Lemma materialize_ids_unique visibility layers w :
  ids_unique w -> ids_unique (foldl (materializeOne visibility) w layers).
Proof.
  revert w. induction layers as [|layer layers IH]; intros w Huniq; [done|].
  simpl. by apply IH, materializeOne_ids_unique.
Qed.

Lemma materialize_mono visibility layers w id :
  registered w id -> registered (foldl (materializeOne visibility) w layers) id.
Proof.
  revert w. induction layers as [|layer layers IH]; intros w Hreg; [done|].
  simpl. by apply IH, materializeOne_mono.
Qed.

Lemma materialize_registers visibility layers w layer :
  layer ∈ layers -> ml_data_type layer <> geojson ->
  registered (foldl (materializeOne visibility) w layers) (ml_id layer).
Proof.
  intros Hin Htype. revert w.
  induction layers as [|other layers IH]; intros w; [by inversion Hin|].
  simpl. apply elem_of_cons in Hin as [<-|Hin].
  - by apply materialize_mono, materializeOne_registers.
  - by apply IH.
Qed.

Lemma materialize_present visibility layers w :
  (forall layer, layer ∈ layers -> ml_data_type layer <> geojson ->
     registered w (ml_id layer)) ->
  w_sources (foldl (materializeOne visibility) w layers) = w_sources w /\
  w_layers (foldl (materializeOne visibility) w layers) = w_layers w.
Proof.
  revert w. induction layers as [|layer layers IH]; intros w Hreg; [done|].
  simpl.
  destruct (materializeOne_present visibility w layer) as [Hs Hl].
  { intros Htype. apply Hreg; [left | done]. }
  destruct (IH (materializeOne visibility w layer)) as [-> ->]; [|done].
  intros other Hin Htype.
  eapply registered_ext; [exact Hs | exact Hl |].
  apply Hreg; [by right | done].
Qed.

(** *** Fetch callbacks *)

Lemma geojsonLoaded_Ok (layer : MapLayer) (visibility : bool) data w :
  exists l, l_id l = ml_id layer /\
    l_visibility l = Some (if visibility then visible
                           else if truthy_bool (ml_visible layer)
                                then visible else none) /\
    l_paint l = or_obj (ml_paint layer) [] /\
    geojsonLoaded layer visibility data w =
      Ok (register (GeoJSONSource (map repairGeometry data)) l w).
Proof.
  exists {| l_id := ml_id layer; l_type := ml_layer_type layer;
            l_source := ml_id layer; l_source_layer := None;
            l_paint := or_obj (ml_paint layer) [];
            l_visibility := Some (if visibility then visible
                                  else if truthy_bool (ml_visible layer)
                                       then visible else none) |}.
  split; [reflexivity|]. split; [reflexivity|]. split; [reflexivity|].
  unfold geojsonLoaded, register. simpl. rewrite guarded_addSource. simpl.
  match goal with
  | |- context [addLayer ?l ?w1] => apply (guarded_addLayer l w1)
  end.
Qed.

Lemma materializeOne_fetches visibility w layer :
  w_fetches (materializeOne visibility w layer) =
  w_fetches w ++ (if decide (ml_data_type layer = geojson)
                  then [(layer, visibility)] else []).
Proof.
  unfold materializeOne.
  match goal with
  | |- context [wireEvents layer ?w1] =>
      destruct (wireEvents_frame layer w1) as (_ & _ & _ & ->)
  end.
  destruct (ml_data_type layer); simpl; try done.
  all: rewrite app_nil_r;
    apply (register_rest (sourceOf layer []) (layerOf layer visibility) w).
Qed.

Lemma materialize_fetches_mono visibility layers w entry :
  entry ∈ w_fetches w ->
  entry ∈ w_fetches (foldl (materializeOne visibility) w layers).
Proof.
  revert w. induction layers as [|layer layers IH]; intros w Hin; [done|].
  simpl. apply IH. rewrite materializeOne_fetches. apply elem_of_app. by left.
Qed.

Lemma materialize_fetches visibility layers w layer :
  layer ∈ layers -> ml_data_type layer = geojson ->
  (layer, visibility) ∈ w_fetches (foldl (materializeOne visibility) w layers).
Proof.
  intros Hin Htype. revert w.
  induction layers as [|other layers IH]; intros w; [by inversion Hin|].
  simpl. apply elem_of_cons in Hin as [<-|Hin].
  - apply materialize_fetches_mono. rewrite materializeOne_fetches.
    rewrite decide_True by done. apply elem_of_app. right. by left.
  - by apply IH.
Qed.

Lemma elem_of_delete_other {A : Type} (l : list A) (j k : nat) (x : A) :
  l !! j = Some x -> j <> k -> x ∈ delete k l.
Proof.
  intros Hj Hne. apply list_elem_of_lookup.
  destruct (decide (j < k)) as [Hlt|Hge].
  - exists j. by rewrite list_lookup_delete_lt.
  - exists (pred j). rewrite list_lookup_delete_ge by lia.
    by replace (S (pred j)) with j by lia.
Qed.

Lemma fetchResolved_step layers k data w :
  exists w',
    fetchResolved k data w = Ok w' /\
    (ids_unique w -> ids_unique w') /\
    (forall id, registered w id -> registered w' id) /\
    (pending_or_registered layers w -> pending_or_registered layers w').
Proof.
  unfold fetchResolved.
  destruct (w_fetches w !! k) as [[layer visibility]|] eqn:Hk;
    [|by exists w].
  destruct (geojsonLoaded_Ok layer visibility data
              (set_fetches (fun l => delete k l) w))
    as (l & Hid & _ & _ & ->).
  eexists. split; [reflexivity|]. split; [|split].
  - intros Huniq. apply register_ids_unique.
    by apply (ids_unique_ext w).
  - intros id Hreg. apply register_mono. by apply (registered_ext w).
  - intros Hpending other Hin Htype.
    destruct (Hpending other Hin Htype) as [Hreg|[vis Hfetch]].
    + left. apply register_mono. by apply (registered_ext w).
    + apply list_elem_of_lookup in Hfetch as [j Hj].
      destruct (decide (j = k)) as [->|Hne].
      * left. rewrite Hk in Hj. injection Hj as <- <-.
        rewrite <- Hid. apply register_registered.
      * right. exists vis.
        destruct (register_rest (GeoJSONSource (map repairGeometry data)) l
                    (set_fetches (fun l => delete k l) w)) as (_ & _ & _ & ->).
        simpl. by eapply elem_of_delete_other.
Qed.

Lemma settle_steps layers schedule w :
  exists w',
    settle schedule w = Ok w' /\
    (ids_unique w -> ids_unique w') /\
    (forall id, registered w id -> registered w' id) /\
    (pending_or_registered layers w -> pending_or_registered layers w').
Proof.
  unfold settle. revert w.
  induction schedule as [|[k data] schedule IH]; intros w; [by exists w|].
  simpl.
  destruct (fetchResolved_step layers k data w) as (w1 & -> & Hu1 & Hr1 & Hp1).
  destruct (IH w1) as (w' & Hsettle & Hu & Hr & Hp).
  exists w'. split; [exact Hsettle|]. split; [|split].
  - intros Huniq. by apply Hu, Hu1.
  - intros id Hreg. by apply Hr, Hr1.
  - intros Hpending. by apply Hp, Hp1.
Qed.

Lemma registration_register layer visibility data w :
  registration layer visibility data w =
  Ok (register (sourceOf layer data) (layerOf layer visibility) w).
Proof.
  unfold registration.
  destruct (ml_data_type layer) eqn:Htype.
  - by apply geojsonLoaded_register.
  - rewrite registerLayer_register by congruence.
    unfold sourceOf. by rewrite Htype.
  - rewrite registerLayer_register by congruence.
    unfold sourceOf. by rewrite Htype.
  - rewrite registerLayer_register by congruence.
    unfold sourceOf. by rewrite Htype.
Qed.

Lemma loadMapLayers_registry layers visibility w :
  exists w',
    loadMapLayers layers visibility w = Ok w' /\
    (ids_unique w -> ids_unique w') /\
    (forall id, registered w id -> registered w' id) /\
    (forall layer, layer ∈ layers -> ml_data_type layer <> geojson ->
       registered w' (ml_id layer)) /\
    (forall layer, layer ∈ layers -> ml_data_type layer = geojson ->
       (layer, visibility) ∈ w_fetches w') /\
    ((forall layer, layer ∈ layers -> ml_data_type layer <> geojson ->
        registered w (ml_id layer)) ->
     w_sources w' = w_sources w /\ w_layers w' = w_layers w).
Proof.
  eexists. split; [apply loadMapLayers_eq|].
  destruct (addToggles_frame layers w) as (Hs & Hl & _).
  set (w1 := foldl (fun w layer => addToggle layer w) w layers) in *.
  split; [|split; [|split; [|split]]].
  - intros Huniq. apply materialize_ids_unique. by apply (ids_unique_ext w).
  - intros id Hreg. apply materialize_mono. by apply (registered_ext w).
  - intros layer Hin Htype. by apply materialize_registers.
  - intros layer Hin Htype. by apply materialize_fetches.
  - intros Hreg. rewrite <- Hs, <- Hl. apply materialize_present.
    intros layer Hin Htype. apply (registered_ext w); auto.
Qed.

(** C3, as amended.  The materializer registers a source, and a layer, under
    a specification's id only when the id is free: on an id already in use
    the registration changes nothing and does not fail.  Materializing the
    same group twice on one map never fails, the second call leaves the
    registry as the first left it, and there is exactly one source and one
    layer under the id of every raster, image and vector specification at
    once, and under the id of every geojson specification once the fetches
    have all resolved, in whatever order the callbacks run. *)
Theorem registration_idempotent (w : World) (layers : LayerGroup)
    (visibility visibility' : bool) :
  ids_unique w ->
  (forall layer data w0,
     exists w', registration layer visibility data w0 = Ok w' /\
       (is_Some (getSource w0 (ml_id layer)) -> w_sources w' = w_sources w0) /\
       (getSource w0 (ml_id layer) = None ->
          w_sources w' = w_sources w0 ++ [(ml_id layer, sourceOf layer data)]) /\
       (is_Some (getLayer w0 (ml_id layer)) -> w_layers w' = w_layers w0) /\
       (getLayer w0 (ml_id layer) = None ->
          w_layers w' = w_layers w0 ++ [layerOf layer visibility])) /\
  exists w1 w2,
    loadMapLayers layers visibility w = Ok w1 /\
    loadMapLayers layers visibility' w1 = Ok w2 /\
    w_sources w2 = w_sources w1 /\ w_layers w2 = w_layers w1 /\
    ids_unique w2 /\
    (forall layer, layer ∈ layers -> ml_data_type layer <> geojson ->
       exactly_one w2 (ml_id layer)) /\
    (forall schedule, exists w3,
       settle schedule w2 = Ok w3 /\ ids_unique w3 /\
       (forall layer, layer ∈ layers -> ml_data_type layer <> geojson ->
          exactly_one w3 (ml_id layer)) /\
       (w_fetches w3 = [] ->
        forall layer, layer ∈ layers -> exactly_one w3 (ml_id layer))).
Proof.
  intros Huniq. split.
  { intros layer data w0. eexists. split; [apply registration_register|].
    rewrite register_sources, register_layers. simpl.
    split; [|split; [|split]].
    - intros [s Hs]. destruct (sourcesUnder w0 (ml_id layer)) eqn:Hunder.
      + apply getSource_None in Hunder. congruence.
      + apply app_nil_r.
    - intros Hs. apply getSource_None in Hs. by rewrite Hs.
    - intros [l Hl]. destruct (layersUnder w0 (ml_id layer)) eqn:Hunder.
      + apply getLayer_None in Hunder. congruence.
      + apply app_nil_r.
    - intros Hl. apply getLayer_None in Hl. by rewrite Hl. }
  destruct (loadMapLayers_registry layers visibility w)
    as (w1 & Hload1 & Hu1 & _ & Hreg1 & _ & _).
  destruct (loadMapLayers_registry layers visibility' w1)
    as (w2 & Hload2 & Hu2 & Hmono2 & Hreg2 & Hfetch2 & Hsame2).
  exists w1, w2. split; [exact Hload1|]. split; [exact Hload2|].
  destruct (Hsame2 Hreg1) as [Hs Hl].
  split; [exact Hs|]. split; [exact Hl|].
  assert (ids_unique w2) as Huniq2 by auto.
  split; [exact Huniq2|]. split.
  { intros layer Hin Htype. apply registered_exactly_one; auto. }
  intros schedule.
  destruct (settle_steps layers schedule w2) as (w3 & Hsettle & Hu3 & Hr3 & Hp3).
  exists w3. split; [exact Hsettle|]. split; [auto|]. split.
  { intros layer Hin Htype. apply registered_exactly_one; auto. }
  intros Hdone layer Hin. apply registered_exactly_one; [auto|].
  destruct (decide (ml_data_type layer = geojson)) as [Htype|Htype]; [|auto].
  assert (pending_or_registered layers w2) as Hp2.
  { intros other Hother Hgeo. right. exists visibility'. auto. }
  destruct (Hp3 Hp2 layer Hin Htype) as [Hreg|[vis Hfetch]]; [done|].
  rewrite Hdone in Hfetch. by inversion Hfetch.
Qed.

Lemma registration_idempotent_witness :
  exists w1 w2 w3,
    loadMapLayers [ex_raster; ex_geojson] false ex_world = Ok w1 /\
    loadMapLayers [ex_raster; ex_geojson] true w1 = Ok w2 /\
    settle [(1, []); (0, [])] w2 = Ok w3 /\
    exactly_one w2 "relief" /\ exactly_one w3 "relief" /\
    exactly_one w3 "parks".
Proof.
  assert (ids_unique ex_world) as Huniq by (intros id; split; simpl; lia).
  destruct (registration_idempotent ex_world [ex_raster; ex_geojson]
              false true Huniq)
    as (_ & w1 & w2 & Hload1 & Hload2 & _ & _ & _ & Hsync & Hsettle).
  destruct (Hsettle [(1, []); (0, [])]) as (w3 & Hw3 & _ & Hsync3 & Hall).
  exists w1, w2, w3. split; [exact Hload1|]. split; [exact Hload2|].
  split; [exact Hw3|].
  assert (ex_raster ∈ [ex_raster; ex_geojson]) as Hr by left.
  assert (ex_geojson ∈ [ex_raster; ex_geojson]) as Hg by (right; left).
  split; [by apply (Hsync ex_raster)|].
  split; [by apply (Hsync3 ex_raster)|].
  apply (Hall) with (layer := ex_geojson); [|exact Hg].
  vm_compute in Hload1. injection Hload1 as <-.
  vm_compute in Hload2. injection Hload2 as <-.
  vm_compute in Hw3. injection Hw3 as <-. reflexivity.
Defined.

(** C3 as stated fails for a geojson specification: its source and its layer
    are registered by the callback of its fetch, so when the second call
    returns there is no source and no layer under its id, while both fetches
    are still in flight. *)
Lemma geojson_not_registered_after_two_calls :
  exists w1 w2,
    loadMapLayers [ex_raster; ex_geojson] false ex_world = Ok w1 /\
    loadMapLayers [ex_raster; ex_geojson] false w1 = Ok w2 /\
    ex_geojson ∈ [ex_raster; ex_geojson] /\
    sourcesUnder w2 (ml_id ex_geojson) = [] /\
    layersUnder w2 (ml_id ex_geojson) = [] /\
    length (w_fetches w2) = 2 /\
    ~ exactly_one w2 (ml_id ex_geojson).
Proof.
  do 2 eexists. split; [vm_compute; reflexivity|].
  split; [vm_compute; reflexivity|].
  split; [right; left|]. split; [reflexivity|]. split; [reflexivity|].
  split; [reflexivity|]. intros [Hsources _]. discriminate Hsources.
Qed.

(** ** Toggle controls *)

Lemma find_map_preserved {A : Type} (f : A -> bool) (g : A -> A) (l : list A) :
  (forall x, f (g x) = f x) -> find f (map g l) = g <$> find f l.
Proof.
  intros Hfg. induction l as [|x l IH]; [reflexivity|].
  simpl. rewrite Hfg. by destruct (f x).
Qed.

Lemma getLayer_setLayoutProperty id v w id' :
  getLayer (setLayoutProperty id v w) id' =
  (fun l => if bool_decide (l_id l = id)
            then mkLayerSpecification (l_id l) (l_type l) (l_source l)
                   (l_source_layer l) (l_paint l) (Some v)
            else l) <$> getLayer w id'.
Proof.
  unfold getLayer, setLayoutProperty. simpl.
  apply find_map_preserved. intros l.
  by destruct (bool_decide (l_id l = id)).
Qed.

Lemma getLayoutProperty_setLayoutProperty id v w :
  is_Some (getLayer w id) ->
  getLayoutProperty (setLayoutProperty id v w) id = Some v.
Proof.
  intros [l Hl]. unfold getLayoutProperty.
  rewrite getLayer_setLayoutProperty, Hl. simpl.
  pose proof (find_some _ _ Hl) as [_ Hid].
  apply bool_decide_eq_true in Hid. by rewrite bool_decide_true.
Qed.

Lemma getLayer_set_menu f w id : getLayer (set_menu f w) id = getLayer w id.
Proof. reflexivity. Qed.

(** One click: the control and the layer are set together. *)
Lemma clickToggle_agrees w i children b :
  w_menu w = Some children -> children !! i = Some b ->
  is_Some (getLayer w (tb_layer b)) ->
  exists b',
    w_menu (clickToggle i w) = Some (<[i := b']> children) /\
    tb_layer b' = tb_layer b /\
    is_Some (getLayer (clickToggle i w) (tb_layer b)) /\
    (active b' <-> getLayoutProperty (clickToggle i w) (tb_layer b) = Some visible).
Proof.
  intros Hmenu Hb Hlayer. unfold clickToggle. rewrite Hmenu, Hb.
  case_bool_decide as Hvisible.
  - eexists. split; [reflexivity|]. split; [reflexivity|]. split.
    + rewrite getLayer_set_menu, getLayer_setLayoutProperty.
      by apply fmap_is_Some.
    + unfold active, getLayoutProperty. rewrite getLayer_set_menu.
      fold (getLayoutProperty (setLayoutProperty (tb_layer b) none w) (tb_layer b)).
      rewrite getLayoutProperty_setLayoutProperty by done. simpl. split; done.
  - eexists. split; [reflexivity|]. split; [reflexivity|]. split.
    + rewrite getLayer_set_menu, getLayer_setLayoutProperty.
      by apply fmap_is_Some.
    + unfold active, getLayoutProperty. rewrite getLayer_set_menu.
      fold (getLayoutProperty (setLayoutProperty (tb_layer b) visible w) (tb_layer b)).
      rewrite getLayoutProperty_setLayoutProperty by done. simpl. split; done.
Qed.

Lemma clicks_agree n w i children b :
  w_menu w = Some children -> children !! i = Some b ->
  is_Some (getLayer w (tb_layer b)) ->
  0 < n \/ (active b <-> getLayoutProperty w (tb_layer b) = Some visible) ->
  agrees (clicks n i w) i (tb_layer b) /\
  is_Some (getLayer (clicks n i w) (tb_layer b)).
Proof.
  intros Hmenu Hb Hlayer Hstart.
  induction n as [|n IH].
  - destruct Hstart as [?|Hstart]; [lia|].
    split; [|done]. by exists children, b.
  - assert (agrees (clicks n i w) i (tb_layer b) /\
            is_Some (getLayer (clicks n i w) (tb_layer b)) \/
            n = 0) as [[Hagree Hsome]|Hzero].
    { destruct n; [by right|]. left. apply IH. left. lia. }
    + destruct Hagree as (children' & b' & Hmenu' & Hb' & Hid & _).
      unfold clicks in *. simpl.
      rewrite <- Hid in Hsome.
      destruct (clickToggle_agrees _ i children' b' Hmenu' Hb' Hsome)
        as (b'' & Hmenu'' & Hid'' & Hsome'' & Hagree'').
      rewrite Hid in *. split; [|done].
      exists (<[i := b'']> children'), b''. split; [done|]. split.
      { apply list_lookup_insert_eq. by eapply lookup_lt_Some. }
      split; [congruence | done].
    + subst n. unfold clicks. simpl.
      destruct (clickToggle_agrees w i children b Hmenu Hb Hlayer)
        as (b' & Hmenu' & Hid' & Hsome' & Hagree').
      split; [|done].
      exists (<[i := b']> children), b'. split; [done|]. split.
      { apply list_lookup_insert_eq. by eapply lookup_lt_Some. }
      done.
Qed.

(** *** The controls and the layers after [loadMapLayers] *)

Lemma togglesOf_single layer :
  togglesOf [layer] =
  if truthy_bool (ml_toggle layer) then [toggleOf layer] else [].
Proof.
  unfold togglesOf. rewrite filter_cons, filter_nil.
  destruct (truthy_bool (ml_toggle layer)).
  - by rewrite decide_True.
  - by rewrite decide_False.
Qed.

Lemma addToggle_menu layer w :
  w_menu (addToggle layer w) =
  (fun children => children ++ togglesOf [layer]) <$> w_menu w.
Proof.
  pose proof (togglesOf_single layer) as Hsingle.
  unfold addToggle.
  destruct (truthy_bool (ml_toggle layer)), w as [? ? ? ? [children|] ?];
    simpl; rewrite ?Hsingle; try done.
  by rewrite app_nil_r.
Qed.

Lemma togglesOf_app layers layers' :
  togglesOf (layers ++ layers') = togglesOf layers ++ togglesOf layers'.
Proof. unfold togglesOf. by rewrite filter_app, map_app. Qed.

Lemma addToggles_menu layers w :
  w_menu (foldl (fun w layer => addToggle layer w) w layers) =
  (fun children => children ++ togglesOf layers) <$> w_menu w.
Proof.
  revert w. induction layers as [|layer layers IH]; intros w; simpl.
  - destruct (w_menu w); simpl; [|done]. by rewrite app_nil_r.
  - rewrite IH, addToggle_menu.
    change (layer :: layers) with ([layer] ++ layers).
    rewrite togglesOf_app.
    destruct (w_menu w); simpl; [|done]. by rewrite app_assoc.
Qed.

Lemma materialize_menu visibility layers w :
  w_menu (foldl (materializeOne visibility) w layers) = w_menu w.
Proof.
  revert w. induction layers as [|layer layers IH]; intros w; [done|].
  simpl. rewrite IH. apply materializeOne_menu.
Qed.

Lemma getLayer_ext w w' id :
  w_layers w' = w_layers w -> getLayer w' id = getLayer w id.
Proof. unfold getLayer. by intros ->. Qed.

Lemma getLayer_register source layer w id :
  getLayer (register source layer w) id =
  match getLayer w id with
  | Some l => Some l
  | None => if decide (l_id layer = id) then Some layer else None
  end.
Proof.
  unfold getLayer at 1. rewrite register_layers, find_app.
  fold (getLayer w id). destruct (getLayer w id) as [l|] eqn:Hget; [done|].
  case_decide as Hid.
  - subst id. apply getLayer_None in Hget. rewrite Hget. simpl.
    by rewrite bool_decide_true.
  - destruct (layersUnder w (l_id layer)); simpl; [|done].
    by rewrite bool_decide_false.
Qed.

Lemma getLayer_materializeOne visibility w layer id :
  getLayer (materializeOne visibility w layer) id =
  match getLayer w id with
  | Some l => Some l
  | None => if decide (ml_data_type layer <> geojson /\ ml_id layer = id)
            then Some (layerOf layer visibility) else None
  end.
Proof.
  destruct (materializeOne_registry visibility w layer) as [Hgeo Hsync].
  destruct (decide (ml_data_type layer = geojson)) as [Htype|Htype].
  - destruct (Hgeo Htype) as [_ Hl]. rewrite (getLayer_ext _ _ _ Hl).
    destruct (getLayer w id); [done|].
    rewrite decide_False; [done|]. intros [? _]. done.
  - destruct (Hsync Htype) as [_ Hl]. rewrite (getLayer_ext _ _ _ Hl).
    rewrite getLayer_register. destruct (getLayer w id); [done|]. simpl.
    destruct (decide (ml_id layer = id)).
    + by rewrite decide_True.
    + rewrite decide_False; [done|]. intros [_ ?]. done.
Qed.

Lemma getLayer_materialize_other visibility layers w id :
  (forall layer, layer ∈ layers -> ml_id layer <> id) ->
  getLayer (foldl (materializeOne visibility) w layers) id = getLayer w id.
Proof.
  revert w. induction layers as [|layer layers IH]; intros w Hother; [done|].
  simpl. rewrite IH by (intros other Hin; apply Hother; by right).
  rewrite getLayer_materializeOne. destruct (getLayer w id); [done|].
  rewrite decide_False; [done|]. intros [_ Hid].
  by apply (Hother layer); [left|].
Qed.

Lemma getLayer_materialize_kept visibility layers w id l :
  getLayer w id = Some l ->
  getLayer (foldl (materializeOne visibility) w layers) id = Some l.
Proof.
  revert w. induction layers as [|layer layers IH]; intros w Hget; [done|].
  simpl. apply IH. by rewrite getLayer_materializeOne, Hget.
Qed.

(** The state right after [loadMapLayers], seen from one toggled layer of
    the group that is registered by this call. *)
Lemma loadMapLayers_toggle before layer after visibility w children :
  w_menu w = Some children ->
  truthy_bool (ml_toggle layer) = true ->
  ml_data_type layer <> geojson ->
  getLayer w (ml_id layer) = None ->
  (forall other, other ∈ before -> ml_id other <> ml_id layer) ->
  exists w' children',
    loadMapLayers (before ++ layer :: after) visibility w = Ok w' /\
    w_menu w' = Some children' /\
    children' !! (length children + length (togglesOf before)) =
      Some (toggleOf layer) /\
    getLayer w' (ml_id layer) = Some (layerOf layer visibility).
Proof.
  intros Hmenu Htoggle Htype Hfree Hbefore.
  eexists. exists (children ++ togglesOf (before ++ layer :: after)).
  split; [apply loadMapLayers_eq|]. split; [|split].
  - by rewrite materialize_menu, addToggles_menu, Hmenu.
  - rewrite togglesOf_app.
    change (layer :: after) with ([layer] ++ after). rewrite togglesOf_app.
    rewrite app_assoc, <- length_app, lookup_app_r by lia.
    rewrite Nat.sub_diag. unfold togglesOf at 1.
    rewrite filter_cons, decide_True by done. reflexivity.
  - destruct (addToggles_frame (before ++ layer :: after) w) as (_ & Hl & _).
    set (w1 := foldl (fun w layer => addToggle layer w) w
                     (before ++ layer :: after)) in *.
    rewrite foldl_app. simpl. apply getLayer_materialize_kept.
    rewrite getLayer_materializeOne, getLayer_materialize_other by done.
    rewrite (getLayer_ext _ _ _ Hl), Hfree. by rewrite decide_True.
Qed.

(** C4, as amended.  For a specification with [toggle = true]: from any
    state in which its layer is registered, after every non-empty sequence of
    clicks on its control the control is shown active exactly when the layer's
    layout visibility is [visible]; and when the specification is a raster,
    image or vector one whose id is free when [loadMapLayers] runs, and the
    [visibility] argument is false or the specification's [visible] field is
    true, the same holds right after [loadMapLayers] and after every sequence
    of clicks on the control from there. *)
Theorem toggle_agrees_with_layer :
  (forall w i children b n,
     w_menu w = Some children -> children !! i = Some b ->
     is_Some (getLayer w (tb_layer b)) -> 0 < n ->
     agrees (clicks n i w) i (tb_layer b)) /\
  (forall before layer after visibility w children n,
     w_menu w = Some children ->
     ml_toggle layer = Some true ->
     ml_data_type layer <> geojson ->
     getLayer w (ml_id layer) = None ->
     (forall other, other ∈ before -> ml_id other <> ml_id layer) ->
     visibility = false \/ ml_visible layer = Some true ->
     exists w',
       loadMapLayers (before ++ layer :: after) visibility w = Ok w' /\
       agrees (clicks n (length children + length (togglesOf before)) w')
              (length children + length (togglesOf before)) (ml_id layer)).
Proof.
  split.
  - intros w i children b n Hmenu Hb Hlayer Hn.
    apply (clicks_agree n w i children b); auto.
  - intros before layer after visibility w children n
           Hmenu Htoggle Htype Hfree Hbefore Hvis.
    destruct (loadMapLayers_toggle before layer after visibility w children)
      as (w' & children' & Hload & Hmenu' & Hb & Hlayer); auto.
    { by rewrite Htoggle. }
    exists w'. split; [exact Hload|].
    assert (is_Some (getLayer w' (tb_layer (toggleOf layer)))) as Hsome.
    { simpl. by rewrite Hlayer. }
    assert (active (toggleOf layer) <->
            getLayoutProperty w' (tb_layer (toggleOf layer)) = Some visible)
      as Hstart.
    { unfold active, getLayoutProperty. simpl. rewrite Hlayer. simpl.
      destruct Hvis as [->| ->]; [|by destruct visibility].
      destruct (ml_visible layer) as [[|]|]; simpl; split; done. }
    apply (clicks_agree n w' _ children' (toggleOf layer) Hmenu' Hb Hsome).
    by right.
Qed.

Lemma toggle_agrees_with_layer_witness :
  exists w',
    loadMapLayers [ex_shown] false ex_world = Ok w' /\
    agrees (clicks 3 0 w') 0 "relief".
Proof.
  destruct (proj2 toggle_agrees_with_layer [] ex_shown [] false ex_world [] 3)
    as (w' & Hload & Hagree).
  - reflexivity.
  - reflexivity.
  - discriminate.
  - reflexivity.
  - intros other Hin. inversion Hin.
  - by left.
  - exists w'. split; [exact Hload | exact Hagree].
Defined.

(** C4 as stated fails in states the code reaches by design.  While the
    document of a geojson layer is being fetched the control is shown active
    and there is no layer yet, before and after a click; and when
    [loadMapLayers] runs again on a map whose layer was toggled off, the
    layer is kept as it is and the new control is shown active. *)
Lemma toggle_disagrees_with_layer :
  (exists w',
     loadMapLayers [ex_geojson] false ex_world = Ok w' /\
     w_menu w' = Some [mkToggleButton "parks" "active" "parks"] /\
     getLayoutProperty w' "parks" = None /\
     w_menu (clickToggle 0 w') = Some [mkToggleButton "parks" "active" "parks"] /\
     getLayoutProperty (clickToggle 0 w') "parks" = None /\
     ~ agrees w' 0 "parks" /\ ~ agrees (clickToggle 0 w') 0 "parks") /\
  (exists w1 w2,
     loadMapLayers [ex_shown] false ex_world = Ok w1 /\
     loadMapLayers [ex_shown] false (clickToggle 0 w1) = Ok w2 /\
     w_menu w2 = Some [mkToggleButton "relief" "" "relief";
                       mkToggleButton "relief" "active" "relief"] /\
     getLayoutProperty w2 "relief" = Some none /\
     ~ agrees w2 1 "relief").
Proof.
  split.
  - eexists. split; [vm_compute; reflexivity|].
    repeat split; try reflexivity.
    + intros (children & b & Hmenu & Hb & _ & Hagree).
      vm_compute in Hmenu. injection Hmenu as <-.
      vm_compute in Hb. injection Hb as <-.
      pose proof (proj1 Hagree eq_refl) as Hvisible.
      vm_compute in Hvisible. discriminate Hvisible.
    + intros (children & b & Hmenu & Hb & _ & Hagree).
      vm_compute in Hmenu. injection Hmenu as <-.
      vm_compute in Hb. injection Hb as <-.
      pose proof (proj1 Hagree eq_refl) as Hvisible.
      vm_compute in Hvisible. discriminate Hvisible.
  - do 2 eexists. split; [vm_compute; reflexivity|].
    split; [vm_compute; reflexivity|].
    repeat split; try reflexivity.
    intros (children & b & Hmenu & Hb & _ & Hagree).
    vm_compute in Hmenu. injection Hmenu as <-.
    vm_compute in Hb. injection Hb as <-.
    pose proof (proj1 Hagree eq_refl) as Hvisible.
    vm_compute in Hvisible. discriminate Hvisible.
Qed.

(** The case the amended C4 leaves out: with the [visibility] argument true
    and a specification that is not visible by default, the layer is
    registered visible and its control is not shown active. *)
Lemma toggle_initial_class_ignores_override :
  exists w',
    loadMapLayers [ex_hidden] true ex_world = Ok w' /\
    w_menu w' = Some [mkToggleButton "relief" "" "relief"] /\
    getLayoutProperty w' "relief" = Some visible /\
    agrees (clickToggle 0 w') 0 "relief".
Proof.
  eexists. split; [vm_compute; reflexivity|].
  repeat split; try reflexivity.
  eexists _, _. split; [vm_compute; reflexivity|].
  split; [reflexivity|]. split; [reflexivity|].
  vm_compute. split; intros H; discriminate H.
Qed.

(** ** Event wiring *)

Lemma mapM_isOk {A B : Type} (f : A -> result B) (l : list A) :
  Forall (fun x => isOk (f x) = true) l -> exists ys, mapM f l = Ok ys.
Proof.
  induction 1 as [|x l Hx _ [ys IH]]; [by exists []|].
  simpl. destruct (f x) as [y|]; [|done]. simpl. rewrite IH. simpl.
  by eexists.
Qed.

Lemma filter_replicate_True {A : Type} (P : A -> Prop)
    `{forall x, Decision (P x)} (n : nat) (x : A) :
  P x -> filter P (replicate n x) = replicate n x.
Proof.
  intros HP. induction n as [|n IH]; [done|].
  simpl. rewrite filter_cons, decide_True by done. by rewrite IH.
Qed.

Lemma filter_replicate_False {A : Type} (P : A -> Prop)
    `{forall x, Decision (P x)} (n : nat) (x : A) :
  ~ P x -> filter P (replicate n x) = [].
Proof.
  intros HP. induction n as [|n IH]; [done|].
  simpl. by rewrite filter_cons, decide_False.
Qed.

Lemma replicate_snoc {A : Type} (n : nat) (x : A) :
  replicate n x ++ [x] = replicate (S n) x.
Proof. induction n as [|n IH]; [done|]. simpl. by rewrite IH. Qed.

(** One [mousemove] on a layer whose only [mousemove] listener is the popup
    handler of a [mousemove] binding: one more [mouseleave] listener. *)
Lemma fire_mousemove_attaches id popup event e k w :
  me_type event = mousemove ->
  Forall (fun tag => isOk (transformMixedTagToHTMLObject tag (Some e)) = true)
         (me_content event) ->
  w_listeners w = (mousemove, id, ShowPopup popup event)
                    :: replicate k (mouseleave, id, RemovePopup popup) ->
  exists w',
    fire mousemove id e w = Ok w' /\
    w_listeners w' = (mousemove, id, ShowPopup popup event)
                       :: replicate (S k) (mouseleave, id, RemovePopup popup).
Proof.
  intros Htype Hcontent Hlisteners. unfold fire. rewrite Hlisteners.
  rewrite filter_cons, decide_True by done.
  rewrite filter_replicate_False by (simpl; congruence).
  simpl.
  destruct (mapM_isOk
              (fun tag => node ← transformMixedTagToHTMLObject tag (Some e);
                          Ok (renderHTMLObject node)) (me_content event))
    as [parts Hparts].
  { eapply Forall_impl; [exact Hcontent|]. intros tag Hok. simpl in *.
    by destruct (transformMixedTagToHTMLObject tag (Some e)). }
  rewrite Hparts. simpl. rewrite Htype, bool_decide_true by done.
  eexists. split; [reflexivity|]. simpl. rewrite Hlisteners.
  simpl. f_equal. apply (replicate_snoc k).
Qed.

Lemma mousemoves_attach n id popup event e k w :
  me_type event = mousemove ->
  Forall (fun tag => isOk (transformMixedTagToHTMLObject tag (Some e)) = true)
         (me_content event) ->
  w_listeners w = (mousemove, id, ShowPopup popup event)
                    :: replicate k (mouseleave, id, RemovePopup popup) ->
  exists w',
    mousemoves n id e w = Ok w' /\
    w_listeners w' = (mousemove, id, ShowPopup popup event)
                       :: replicate (k + n) (mouseleave, id, RemovePopup popup).
Proof.
  intros Htype Hcontent. revert k w.
  induction n as [|n IH]; intros k w Hlisteners.
  - exists w. split; [reflexivity|]. by rewrite Nat.add_0_r.
  - destruct (fire_mousemove_attaches id popup event e k w)
      as (w1 & Hfire & Hlisteners1); auto.
    destruct (IH (S k) w1 Hlisteners1) as (w' & Hrest & Hlisteners').
    exists w'. split.
    + simpl. rewrite Hfire. exact Hrest.
    + rewrite Hlisteners'. do 2 f_equal. lia.
Qed.

(** C6, what the code does.  For a layer with one [mousemove] binding,
    [loadMapLayers] attaches no [mouseleave] listener; the popup handler
    attaches one each time it runs, so that after [n] [mousemove] events
    there are [n] of them. *)
Theorem mouseleave_listeners_accumulate (layer : MapLayer) (event : MapEvent)
    (e : MapLayerMouseEvent) (visibility : bool) (w : World) :
  ml_mouseEvent layer = Some [event] ->
  me_type event = mousemove ->
  Forall (fun tag => isOk (transformMixedTagToHTMLObject tag (Some e)) = true)
         (me_content event) ->
  w_listeners w = [] ->
  exists w1,
    loadMapLayers [layer] visibility w = Ok w1 /\
    mouseleaveListeners w1 (ml_id layer) = [] /\
    forall n, exists w',
      mousemoves n (ml_id layer) e w1 = Ok w' /\
      length (mouseleaveListeners w' (ml_id layer)) = n.
Proof.
  intros Hevents Htype Hcontent Hnone.
  eexists. split; [apply loadMapLayers_eq|]. simpl.
  set (w0 := addToggle layer w).
  assert (w_listeners (materializeOne visibility w0 layer) =
          [(mousemove, ml_id layer, ShowPopup (length (w_popups w)) event)])
    as Hlisteners.
  { destruct (addToggle_frame layer w) as (_ & _ & Hl & Hp & _).
    fold w0 in Hl, Hp.
    unfold materializeOne, wireEvents. rewrite Hevents. simpl.
    rewrite Htype.
    destruct (ml_data_type layer); simpl; rewrite ?Hl, ?Hp, ?Hnone; try done.
    all: destruct (register_rest (sourceOf layer [])
                     (layerOf layer visibility) w0) as (-> & -> & _);
      by rewrite Hl, Hp, Hnone. }
  split.
  - unfold mouseleaveListeners. rewrite Hlisteners.
    by rewrite filter_cons, decide_False.
  - intros n.
    destruct (mousemoves_attach n (ml_id layer) (length (w_popups w)) event e 0
                (materializeOne visibility w0 layer))
      as (w' & Hmoves & Hlisteners'); auto.
    exists w'. split; [exact Hmoves|].
    unfold mouseleaveListeners. rewrite Hlisteners'.
    rewrite filter_cons, decide_False by done.
    rewrite filter_replicate_True by done.
    by rewrite length_replicate.
Qed.

Lemma mouseleave_listeners_accumulate_witness :
  exists w1 w',
    loadMapLayers [ex_raster] false ex_world = Ok w1 /\
    mouseleaveListeners w1 "relief" = [] /\
    mousemoves 3 "relief" ex_pointer w1 = Ok w' /\
    length (mouseleaveListeners w' "relief") = 3.
Proof.
  destruct (mouseleave_listeners_accumulate ex_raster (mkMapEvent mousemove [])
              ex_pointer false ex_world)
    as (w1 & Hload & Hnone & Hgrow).
  - reflexivity.
  - reflexivity.
  - constructor.
  - reflexivity.
  - destruct (Hgrow 3) as (w' & Hmoves & Hcount).
    exists w1, w'. repeat split; assumption.
Defined.

(** * Further properties *)

(** ** Tree transformer: errors and shape *)

Lemma empty_items_dec (tag : ContentTag) : empty_items tag \/ ~ empty_items tag.
Proof.
  destruct tag as [|[tagName [s|[|first rest]]] others].
  - right. intros (? & ? & ?). discriminate.
  - right. intros (? & ? & ?). discriminate.
  - left. by exists tagName, others.
  - right. intros (? & ? & ?). discriminate.
Qed.

Lemma transform_cases tag e :
  (empty_items tag /\ transformMixedTagToHTMLObject tag e = Throw TypeError) \/
  (~ empty_items tag /\
   exists node, transformMixedTagToHTMLObject tag e = Ok node /\
     h_tag node = firstKey tag /\ plain node /\
     match h_children node with
     | Some children => Forall (fun c => childless c /\ plain c) children
     | None => True
     end).
Proof.
  destruct tag as [|[tagName [s|[|first [|second rest]]]] others].
  - right. split; [intros (? & ? & ?); discriminate|].
    eexists. split; [by simp transformMixedTagToHTMLObject|].
    repeat split. by constructor.
  - right. split; [intros (? & ? & ?); discriminate|].
    eexists. split; [by simp transformMixedTagToHTMLObject|].
    repeat split. by constructor.
  - left. split; [by exists tagName, others|].
    by simp transformMixedTagToHTMLObject.
  - right. split; [intros (? & ? & ?); discriminate|].
    eexists. split; [apply transform_single|].
    unfold singleNode. destruct (is_standalone tagName); repeat split.
    by constructor.
  - right. split; [intros (? & ? & ?); discriminate|].
    eexists. split; [apply transform_many|].
    assert (Forall (fun c => childless c /\ plain c)
              (map (compositeChild tagName e) (first :: second :: rest)))
      as Hchildren.
    { apply Forall_fmap, Forall_forall. intros item _.
      destruct item as [s|b]; simpl.
      - split; [by left | done].
      - unfold singleNode. destruct (is_standalone tagName); simpl.
        + split; [by left | done].
        + split; [by right | done]. }
    repeat split. exact Hchildren.
Qed.

(** X1.  The transformer throws exactly when the value under the first key is
    an empty array, and what it throws is a [TypeError]; on every other tag it
    returns a node whose tag is the first key of the input. *)
Theorem transform_throws_iff (tag : ContentTag) (e : option MapLayerMouseEvent) :
  (empty_items tag <-> transformMixedTagToHTMLObject tag e = Throw TypeError) /\
  (~ empty_items tag <->
   exists node, transformMixedTagToHTMLObject tag e = Ok node /\
                h_tag node = firstKey tag) /\
  (forall err, transformMixedTagToHTMLObject tag e = Throw err -> err = TypeError).
Proof.
  destruct (transform_cases tag e)
    as [[Hempty Hthrow]|[Hfull (node & Hnode & Htag & _)]].
  - split; [|split].
    + by split.
    + split; [done|]. intros (node & Hnode & _). congruence.
    + intros err Herr. congruence.
  - split; [|split].
    + split; [done|]. intros Hthrow. congruence.
    + split; [|done]. intros _. by exists node.
    + intros err Herr. congruence.
Qed.

Lemma transform_throws_iff_witness :
  transformMixedTagToHTMLObject [("p", TagArray [])] (Some ex_lake) =
    Throw TypeError /\
  exists node,
    transformMixedTagToHTMLObject [("p", TagArray [ex_name_item])] (Some ex_lake)
      = Ok node /\ h_tag node = Some "p".
Proof.
  split.
  - apply (proj1 (proj1 (transform_throws_iff [("p", TagArray [])]
                           (Some ex_lake)))).
    by exists "p", [].
  - apply (proj1 (proj1 (proj2 (transform_throws_iff
             [("p", TagArray [ex_name_item])] (Some ex_lake))))).
    intros (? & ? & ?). discriminate.
Defined.

Lemma mapM_result_Forall2 {A B : Type} (f : A -> result B) (l : list A)
    (k : list B) :
  mapM f l = Ok k <-> Forall2 (fun x y => f x = Ok y) l k.
Proof.
  revert k. induction l as [|x l IH]; intros k; simpl.
  - split.
    + intros [= <-]. constructor.
    + by inversion 1.
  - split.
    + destruct (f x) as [y|] eqn:Hy; simpl; [|done].
      destruct (mapM f l) as [ys|] eqn:Hys; simpl; [|done].
      intros [= <-]. constructor; [done|]. by apply IH.
    + inversion 1 as [|? y ? ys Hy Hys]; subst. rewrite Hy. simpl.
      apply IH in Hys. rewrite Hys. reflexivity.
Qed.

Lemma mapM_result_Throw {A B : Type} (f : A -> result B) (l : list A) err :
  mapM f l = Throw err -> exists x, x ∈ l /\ f x = Throw err.
Proof.
  induction l as [|x l IH]; simpl; [done|].
  destruct (f x) as [y|err'] eqn:Hy; simpl.
  - destruct (mapM f l) as [ys|err''] eqn:Hys; simpl; [done|].
    intros [= ->]. destruct IH as (x' & Hin & Hx'); [done|].
    exists x'. split; [by right | done].
  - intros [= ->]. exists x. split; [by left | done].
Qed.

(** X2.  A block transforms tag by tag, in order: when no tag of the block
    has an empty array under its first key the result has one node per tag,
    each the transform of the tag at the same position; when some tag has,
    the whole block throws a [TypeError] and no node is returned. *)
Theorem transformMixedBlock_all_or_nothing (content : list ContentTag)
    (e : option MapLayerMouseEvent) :
  (Forall (fun tag => ~ empty_items tag) content ->
   exists nodes,
     transformMixedBlockToHTMLObject content e = Ok nodes /\
     length nodes = length content /\
     forall i tag, content !! i = Some tag ->
       exists node, nodes !! i = Some node /\
                    transformMixedTagToHTMLObject tag e = Ok node) /\
  (Exists empty_items content ->
   transformMixedBlockToHTMLObject content e = Throw TypeError).
Proof.
  unfold transformMixedBlockToHTMLObject. split.
  - intros Hfull.
    assert (exists nodes, Forall2
              (fun tag node => transformMixedTagToHTMLObject tag e = Ok node)
              content nodes) as [nodes Hnodes].
    { induction Hfull as [|tag content Htag _ [nodes IH]]; [by exists []|].
      destruct (transform_cases tag e) as [[? _]|[_ (node & Hnode & _)]];
        [done|].
      exists (node :: nodes). by constructor. }
    exists nodes. split; [by apply mapM_result_Forall2|]. split.
    + symmetry. by eapply Forall2_length.
    + intros i tag Hi.
      destruct (Forall2_lookup_l _ _ _ _ _ Hnodes Hi) as (node & Hnode & Hok).
      by exists node.
  - intros Hsome.
    destruct (mapM (fun tag => transformMixedTagToHTMLObject tag e) content)
      as [nodes|err] eqn:Hmap.
    + apply mapM_result_Forall2 in Hmap.
      apply Exists_exists in Hsome as (tag & Hin & Hempty).
      apply list_elem_of_lookup in Hin as [i Hi].
      destruct (Forall2_lookup_l _ _ _ _ _ Hmap Hi) as (node & _ & Hok).
      destruct (transform_cases tag e) as [[_ Hthrow]|[Hfull _]];
        [congruence | done].
    + apply mapM_result_Throw in Hmap as (tag & _ & Hthrow).
      destruct (transform_cases tag e) as [[_ Hthrow']|[_ (node & Hnode & _)]];
        congruence.
Qed.

Lemma transformMixedBlock_all_or_nothing_witness :
  (exists nodes,
     transformMixedBlockToHTMLObject [ex_link; [("p", TagString "x")]] None
       = Ok nodes /\ length nodes = 2) /\
  transformMixedBlockToHTMLObject [ex_link; [("p", TagArray [])]] None
    = Throw TypeError.
Proof.
  split.
  - destruct (proj1 (transformMixedBlock_all_or_nothing
                       [ex_link; [("p", TagString "x")]] None))
      as (nodes & Hnodes & Hlen & _).
    + repeat constructor; intros (? & ? & ?); discriminate.
    + by exists nodes.
  - apply (proj2 (transformMixedBlock_all_or_nothing
                    [ex_link; [("p", TagArray [])]] None)).
    right. left. by exists "p", [].
Defined.

(** X3.  The transformer never builds more than two levels and never sets an
    [id], a [key] or a [style]: the node it returns carries none of the three,
    and each of its children carries none of them and has no children of its
    own.  An [id] on an item is therefore not handed on. *)
Theorem transform_two_levels_plain (tag : ContentTag)
    (e : option MapLayerMouseEvent) (node : HTMLObject) :
  transformMixedTagToHTMLObject tag e = Ok node ->
  plain node /\
  forall children child,
    h_children node = Some children -> child ∈ children ->
    childless child /\ plain child.
Proof.
  intros Hnode.
  destruct (transform_cases tag e)
    as [[_ Hthrow]|[_ (node' & Hnode' & _ & Hplain & Hchildren)]];
    [congruence|].
  assert (node' = node) as -> by congruence.
  split; [done|]. intros children child Hsome Hin.
  rewrite Hsome in Hchildren.
  by apply (proj1 (Forall_forall _ _) Hchildren).
Qed.

Lemma transform_two_levels_plain_witness :
  exists node,
    transformMixedTagToHTMLObject
      [("p", TagArray [ItemObject (mkContentBlock None None (Some "hello") None
                                     None None None None (Some "intro"));
                       ex_name_item])] (Some ex_lake) = Ok node /\
    h_id node = None /\
    forall children child,
      h_children node = Some children -> child ∈ children ->
      childless child /\ plain child.
Proof.
  eexists. split; [vm_compute; reflexivity|].
  split; [reflexivity|].
  apply (transform_two_levels_plain
           [("p", TagArray [ItemObject (mkContentBlock None None (Some "hello")
                                          None None None None None (Some "intro"));
                            ex_name_item])] (Some ex_lake)).
  vm_compute. reflexivity.
Defined.

Lemma resolveContent_raw_string e s :
  resolveContent e (ItemString s) = Str "".
Proof. reflexivity. Qed.

Lemma compositeChild_blank tagName e item :
  compositeChild tagName e (blankItem item) = compositeChild tagName e item.
Proof. by destruct item. Qed.

(** X4.  Only the first entry of a tag is read, and the text of a raw string
    is never output: the result is the same when every other entry is
    dropped and every plain string value and raw string item is replaced by
    the empty string. *)
Theorem transform_reads_first_entry_no_raw_text (tag : ContentTag)
    (e : option MapLayerMouseEvent) :
  transformMixedTagToHTMLObject tag e =
  transformMixedTagToHTMLObject (take 1 (blankStrings tag)) e.
Proof.
  destruct tag as [|[tagName [s|[|first [|second rest]]]] others]; simpl.
  - reflexivity.
  - by simp transformMixedTagToHTMLObject.
  - by simp transformMixedTagToHTMLObject.
  - rewrite !transform_single. unfold singleNode.
    destruct first as [s|b]; reflexivity.
  - rewrite !transform_many. do 2 f_equal.
    + by destruct first.
    + by destruct first.
    + f_equal. simpl. rewrite !compositeChild_blank. do 2 f_equal.
      rewrite map_map. apply map_ext. intros item.
      symmetry. apply compositeChild_blank.
Qed.

(** ** Transform, then render *)

Lemma truthy_nonempty (s : string) : s <> "" -> truthy (Some s) = Some s.
Proof. intros Hne. by apply truthy_Some. Qed.

Lemma or_str_Some_empty (s : string) : or_str (Some s) "" = s.
Proof. by destruct s. Qed.

Lemma or_val_Some_empty (v : JsValue) : toText (or_val (Some v) "") = toText v.
Proof. by destruct v as [[|c s]|name]. Qed.

(** X5.  The HTML of a tag with one item (any tag name but [img] and
    [iframe]): the element, its class attribute when the item has a class,
    and between the tags the resolved content of the item, verbatim. *)
Theorem render_transform_leaf (tagName : string) (item : ContentItem)
    (others : ContentTag) (e : option MapLayerMouseEvent) :
  tagName <> "" -> is_standalone tagName = false ->
  exists node,
    transformMixedTagToHTMLObject ((tagName, TagArray [item]) :: others) e
      = Ok node /\
    renderHTMLObject node =
      "<" +:+ tagName +:+ " "
          +:+ classAttrOf (or_obj (item_field cb_class item) [])
          +:+ "    >" +:+ toText (resolveContent e item) +:+ "</" +:+ tagName
          +:+ ">".
Proof.
  intros Hname Hleaf. eexists. split; [apply transform_single|].
  rewrite renderHTMLObject_unfold. unfold singleNode. rewrite Hleaf.
  cbn [h_tag]. rewrite (truthy_nonempty _ Hname).
  unfold classAttr, styleAttr, idAttr, keyAttr, propsAttr, classAttrOf.
  cbn [h_class h_style h_id h_key h_props h_content h_children or_obj truthy].
  rewrite or_val_Some_empty. reflexivity.
Qed.

Lemma render_transform_leaf_witness :
  exists node,
    transformMixedTagToHTMLObject [("p", TagArray [ex_name_item])]
      (Some ex_lake) = Ok node /\
    renderHTMLObject node = "<p     >Lake Park</p>".
Proof.
  destruct (render_transform_leaf "p" ex_name_item [] (Some ex_lake))
    as (node & Hnode & Hrender).
  - discriminate.
  - reflexivity.
  - exists node. split; [exact Hnode|]. rewrite Hrender. reflexivity.
Defined.

(** X6.  The HTML of an [img] or [iframe] tag with one item: the element with
    its class attribute, then [src] and [alt] as unquoted attributes (empty
    when the item has none), no content, and a closing tag; the event
    context plays no part. *)
Theorem render_transform_standalone (tagName : string) (item : ContentItem)
    (others : ContentTag) (e : option MapLayerMouseEvent) :
  is_standalone tagName = true ->
  exists node,
    transformMixedTagToHTMLObject ((tagName, TagArray [item]) :: others) e
      = Ok node /\
    renderHTMLObject node =
      "<" +:+ tagName +:+ " "
          +:+ classAttrOf (or_obj (item_field cb_class item) [])
          +:+ "    src=" +:+ or_str (item_field cb_src item) ""
          +:+ " alt=" +:+ or_str (item_field cb_alt item) ""
          +:+ "></" +:+ tagName +:+ ">".
Proof.
  intros Hstandalone.
  assert (tagName <> "") as Hname.
  { intros ->. discriminate Hstandalone. }
  eexists. split; [apply transform_single|].
  rewrite renderHTMLObject_unfold. unfold singleNode. rewrite Hstandalone.
  cbn [h_tag]. rewrite (truthy_nonempty _ Hname).
  unfold classAttr, styleAttr, idAttr, keyAttr, propsAttr, classAttrOf,
    renderProp, join.
  cbn [h_class h_style h_id h_key h_props h_content h_children or_obj truthy
       or_str truthy_str map fst snd String.concat].
  rewrite !append_assoc. reflexivity.
Qed.

Lemma render_transform_standalone_witness :
  exists node,
    transformMixedTagToHTMLObject
      [("img", TagArray [ItemObject (mkContentBlock None None None None None
                                       (Some "/a.png") (Some "A") None None)])]
      None = Ok node /\
    renderHTMLObject node = "<img     src=/a.png alt=A></img>".
Proof.
  destruct (render_transform_standalone "img"
              (ItemObject (mkContentBlock None None None None None
                             (Some "/a.png") (Some "A") None None)) [] None)
    as (node & Hnode & Hrender); [reflexivity|].
  exists node. split; [exact Hnode|]. rewrite Hrender. reflexivity.
Defined.

Lemma render_singleNode tagName e item :
  tagName <> "" ->
  renderHTMLObject (singleNode tagName e item) = renderSingle tagName e item.
Proof.
  intros Hname. rewrite renderHTMLObject_unfold.
  unfold singleNode, renderSingle.
  destruct (is_standalone tagName); cbn [h_tag];
    rewrite (truthy_nonempty _ Hname);
    unfold classAttr, styleAttr, idAttr, keyAttr, propsAttr, classAttrOf,
      renderProp, join.
  - cbn [h_class h_style h_id h_key h_props h_content h_children or_obj truthy
         or_str truthy_str map fst snd String.concat].
    rewrite !append_assoc. reflexivity.
  - cbn [h_class h_style h_id h_key h_props h_content h_children or_obj truthy].
    rewrite or_val_Some_empty. reflexivity.
Qed.

Lemma render_compositeChild tagName e item :
  tagName <> "" ->
  renderHTMLObject (compositeChild tagName e item) = renderItem tagName e item.
Proof.
  intros Hname. destruct item as [s|b]; [reflexivity|].
  by apply render_singleNode.
Qed.

(** X7.  The HTML of a tag with more than one item nests one element per
    item, the first included, inside the outer element: the outer tag carries
    the class and the unquoted [href] of the first item, a record item
    becomes an inner element of the same tag name and a raw string an empty
    [span]. *)
Theorem render_transform_composite (tagName : string)
    (first second : ContentItem) (rest : list ContentItem)
    (others : ContentTag) (e : option MapLayerMouseEvent) :
  tagName <> "" ->
  exists node,
    transformMixedTagToHTMLObject
      ((tagName, TagArray (first :: second :: rest)) :: others) e = Ok node /\
    renderHTMLObject node =
      "<" +:+ tagName +:+ " "
          +:+ classAttrOf (or_obj (item_field cb_class first) [])
          +:+ "    " +:+ hrefAttrOf first +:+ ">"
          +:+ join "" (map (renderItem tagName e) (first :: second :: rest))
          +:+ "</" +:+ tagName +:+ ">".
Proof.
  intros Hname. eexists. split; [apply transform_many|].
  rewrite renderHTMLObject_unfold. cbn [h_tag].
  rewrite (truthy_nonempty _ Hname).
  unfold classAttr, styleAttr, idAttr, keyAttr, propsAttr, classAttrOf,
    hrefAttrOf, renderHTMLObjects.
  cbn [h_class h_style h_id h_key h_props h_content h_children or_obj or_str].
  rewrite map_map.
  rewrite (map_ext _ (renderItem tagName e))
    by (intros item; by apply render_compositeChild).
  destruct (truthy (item_field cb_href first)) as [href|]; unfold renderProp, join;
    cbn [map fst snd String.concat]; rewrite ?append_assoc; reflexivity.
Qed.

Lemma render_transform_composite_witness :
  exists node,
    transformMixedTagToHTMLObject ex_link None = Ok node /\
    renderHTMLObject node =
      "<a class=" +:+ quote +:+ "link" +:+ quote +:+ "    href=https://x>"
        +:+ "<a class=" +:+ quote +:+ "link" +:+ quote +:+ "    ></a>"
        +:+ "<a     >click here</a></a>".
Proof.
  destruct (render_transform_composite "a"
    (ItemObject (mkContentBlock None None None (Some "https://x") None None
                                None (Some ["link"]) None))
    (ItemObject (mkContentBlock None None (Some "click here") None None None
                                None None None)) [] [] None)
    as (node & Hnode & Hrender); [discriminate|].
  exists node. split; [exact Hnode|]. rewrite Hrender. reflexivity.
Defined.

(** ** Renderer *)

Lemma render_untagged node : ~ tagged node -> renderHTMLObject node = "".
Proof.
  unfold tagged. intros Hno. rewrite renderHTMLObject_unfold.
  destruct (truthy (h_tag node)); [by destruct Hno | done].
Qed.

(** X8.  A node without a tag, or with an empty tag, leaves no trace in the
    HTML of a list of nodes: rendering the list and rendering only its tagged
    nodes give the same string. *)
Theorem renderHTMLObjects_skips_untagged (nodes : list HTMLObject) :
  renderHTMLObjects nodes = renderHTMLObjects (filter tagged nodes).
Proof.
  induction nodes as [|node nodes IH]; [reflexivity|].
  rewrite filter_cons. case_decide as Htag.
  - rewrite !renderHTMLObjects_cons. by rewrite IH.
  - rewrite renderHTMLObjects_cons, render_untagged by done. exact IH.
Qed.

(** ** Legend shorthand *)

Lemma render_legendEntry item :
  renderHTMLObject (legendEntry item) = renderLegendEntry item.
Proof.
  unfold legendEntry, renderLegendEntry.
  rewrite renderHTMLObject_unfold. cbn [h_tag truthy truthy_str].
  unfold classAttr, styleAttr, idAttr, keyAttr, propsAttr.
  cbn [h_class h_style h_id h_key h_props h_content h_children or_obj or_str
       truthy map].
  rewrite ?or_val_Some_empty. cbn [or_val toText].
  rewrite !renderHTMLObjects_cons.
  rewrite (renderHTMLObject_unfold
             {| h_tag := Some "span";
                h_content := Some (Str (li_label item)) |}).
  rewrite (renderHTMLObject_unfold
             {| h_tag := Some "span"; h_content := None;
                h_style := Some [("background-color", li_color item)] |}).
  cbn [h_tag truthy truthy_str].
  unfold classAttr, styleAttr, idAttr, keyAttr, propsAttr, renderStyle, join.
  cbn [h_class h_style h_id h_key h_props h_content h_children or_obj
       truthy map fst snd String.concat].
  rewrite ?or_val_Some_empty. cbn [or_val toText].
  vm_compute (clsx ["legend-color"]). vm_compute (clsx ["legend-label"]).
  cbn [truthy_str or_str].
  rewrite !append_assoc. reflexivity.
Qed.

Lemma renderHTMLObjects_map {A : Type} (f : A -> HTMLObject) (l : list A) :
  renderHTMLObjects (map f l) = join "" (map (fun x => renderHTMLObject (f x)) l).
Proof. unfold renderHTMLObjects. by rewrite map_map. Qed.

(** X9.  The HTML of a legend: a [div] of class [menu-item] that holds the
    [h3] heading when the title is non-empty and a [ul] with one [li] per
    item, in the order of the items; each [li] holds the swatch [span], whose
    inline style sets the background color, and the label [span]. *)
Theorem render_legend (l : Legend) (items : list LegendItem) :
  lg_items l = Some items ->
  exists node,
    parseLegend (SLegend l) = Ok node /\
    renderHTMLObject node =
      "<div class=" +:+ quote +:+ "menu-item" +:+ quote +:+ "    >"
        +:+ renderLegendHeading l
        +:+ "<ul     >" +:+ join "" (map renderLegendEntry items)
        +:+ "</ul></div>".
Proof.
  intros Hitems. unfold parseLegend. rewrite Hitems.
  eexists. split; [reflexivity|].
  rewrite renderHTMLObject_unfold. cbn [h_tag truthy truthy_str].
  unfold classAttr, styleAttr, idAttr, keyAttr, propsAttr.
  cbn [h_class h_style h_id h_key h_props h_content h_children or_obj or_str
       truthy map].
  rewrite ?or_val_Some_empty. cbn [or_val toText].
  vm_compute (clsx ["menu-item"]). cbn [truthy_str].
  rewrite renderHTMLObjects_app, renderHTMLObjects_cons.
  rewrite (renderHTMLObject_unfold {| h_tag := Some "ul" |}).
  cbn [h_tag truthy truthy_str].
  unfold classAttr, styleAttr, idAttr, keyAttr, propsAttr.
  cbn [h_class h_style h_id h_key h_props h_content h_children or_obj or_str
       truthy map].
  rewrite ?or_val_Some_empty. cbn [or_val toText].
  rewrite renderHTMLObjects_map.
  rewrite (map_ext _ renderLegendEntry) by apply render_legendEntry.
  unfold renderLegendHeading.
  destruct (truthy (lg_title l)) as [title|] eqn:Htitle.
  - rewrite renderHTMLObjects_cons.
    rewrite (renderHTMLObject_unfold {| h_tag := Some "h3" |}).
    cbn [h_tag truthy truthy_str].
    unfold classAttr, styleAttr, idAttr, keyAttr, propsAttr.
    cbn [h_class h_style h_id h_key h_props h_content h_children or_obj
         truthy map].
    rewrite ?or_val_Some_empty. cbn [or_val toText].
    vm_compute (clsx []). cbn [truthy_str].
    vm_compute (renderHTMLObjects []). vm_compute (join " " []).
    rewrite !append_assoc. reflexivity.
  - vm_compute (clsx []). cbn [truthy_str].
    vm_compute (renderHTMLObjects []). vm_compute (join " " []).
    rewrite ?append_assoc. reflexivity.
Qed.

Lemma render_legend_witness :
  exists node,
    parseLegend (SLegend ex_legend) = Ok node /\
    renderHTMLObject node =
      "<div class=" +:+ quote +:+ "menu-item" +:+ quote
        +:+ "    ><h3     >Key</h3><ul     ><li     ><span class=" +:+ quote
        +:+ "legend-color" +:+ quote +:+ " style=" +:+ quote
        +:+ "background-color: #f00" +:+ quote +:+ "   ></span><span class="
        +:+ quote +:+ "legend-label" +:+ quote
        +:+ "    >Fire</span></li></ul></div>".
Proof.
  destruct (render_legend ex_legend [mkLegendItem "#f00" "Fire"] eq_refl)
    as (node & Hnode & Hrender).
  exists node. split; [exact Hnode|]. rewrite Hrender. reflexivity.
Defined.

(** X10.  A shorthand with a legend that has an [items] array yields exactly
    one node, the legend node; every other key of the shorthand is ignored. *)
Theorem parseShorthand_legend_only (data data' : gmap string ShorthandValue) :
  (forall l items,
     data !! "legend" = Some (SLegend l) -> lg_items l = Some items ->
     exists node, parseLegend (SLegend l) = Ok node /\
                  parseShorthand data = Ok [node]) /\
  (data !! "legend" = data' !! "legend" ->
   parseShorthand data = parseShorthand data').
Proof.
  unfold parseShorthand. split.
  - intros l items -> Hitems. simpl. unfold parseLegend. rewrite Hitems.
    eexists. split; reflexivity.
  - by intros ->.
Qed.

Lemma parseShorthand_legend_only_witness :
  exists node,
    parseLegend (SLegend ex_legend) = Ok node /\
    parseShorthand {[ "legend" := SLegend ex_legend; "note" := SString "x" ]}
      = Ok [node] /\
    parseShorthand {[ "legend" := SLegend ex_legend; "note" := SString "x" ]}
      = parseShorthand {[ "legend" := SLegend ex_legend ]}.
Proof.
  destruct (proj1 (parseShorthand_legend_only
              {[ "legend" := SLegend ex_legend; "note" := SString "x" ]}
              {[ "legend" := SLegend ex_legend ]})
              ex_legend [mkLegendItem "#f00" "Fire"])
    as (node & Hnode & Hparse); [reflexivity | reflexivity |].
  exists node. split; [exact Hnode|]. split; [exact Hparse|].
  apply (proj2 (parseShorthand_legend_only
              {[ "legend" := SLegend ex_legend; "note" := SString "x" ]}
              {[ "legend" := SLegend ex_legend ]})).
  reflexivity.
Defined.

(** ** [parseYAMLBlock] *)

(** X11.  [parseYAMLBlock] returns nodes in two cases only: for an object
    with a [tag] key, which is returned as it is as the only node, and for a
    block of type [content] whose [content] is an array, which is transformed
    tag by tag without an event context. *)
Theorem parseYAMLBlock_results (data : YamlData) (nodes : list HTMLObject) :
  parseYAMLBlock data = Ok nodes <->
  (exists node, data = YNode node /\ is_Some (h_tag node) /\ nodes = [node]) \/
  (exists content,
     data = YBlock (Some "content") (Some content) /\
     transformMixedBlockToHTMLObject content None = Ok nodes).
Proof.
  unfold parseYAMLBlock, transformMixedBlockToHTMLObject. split.
  - destruct data as [|s|elements|node|type content]; simpl; try done.
    + destruct (h_tag node) as [t|] eqn:Htag; simpl; [|done].
      intros [= <-]. left. exists node. by rewrite Htag.
    + case_bool_decide as Htype; simpl; [|done].
      destruct content as [content|]; simpl; [|done].
      intros Hmap. right. exists content. by subst type.
  - intros [(node & -> & [t Htag] & ->)|(content & -> & Hmap)]; simpl.
    + by rewrite Htag.
    + exact Hmap.
Qed.

(** X12.  What [parseYAMLBlock] refuses: [null] with a [TypeError]; every
    scalar, every array (also an array of well-formed nodes), every object
    without a [tag] key that is not a content block with the
    invalid-structure error. *)
Theorem parseYAMLBlock_rejects :
  let invalid := Throw (Error
    "Invalid YAML structure: must match HTMLObject or MixedBlock schema") in
  parseYAMLBlock YNull = Throw TypeError /\
  (forall s, parseYAMLBlock (YScalar s) = invalid) /\
  (forall elements, parseYAMLBlock (YArray elements) = invalid) /\
  (forall node, h_tag node = None -> parseYAMLBlock (YNode node) = invalid) /\
  (forall type content,
     type <> Some "content" \/ content = None ->
     parseYAMLBlock (YBlock type content) = invalid).
Proof.
  unfold parseYAMLBlock. repeat split; try done.
  - intros node Htag. simpl. by rewrite Htag.
  - intros type content [Htype| ->]; simpl.
    + by rewrite bool_decide_false.
    + by rewrite andb_false_r.
Qed.

Lemma parseYAMLBlock_rejects_witness :
  parseYAMLBlock (YArray [span (Str "x")]) =
    Throw (Error
      "Invalid YAML structure: must match HTMLObject or MixedBlock schema") /\
  parseYAMLBlock (YBlock (Some "map") (Some [ex_link])) =
    Throw (Error
      "Invalid YAML structure: must match HTMLObject or MixedBlock schema").
Proof.
  split.
  - apply (proj1 (proj2 (proj2 parseYAMLBlock_rejects))).
  - apply (proj2 (proj2 (proj2 (proj2 parseYAMLBlock_rejects)))).
    left. discriminate.
Defined.

(** ** [parseMixedContent] *)

Lemma mapM_result_app {A B : Type} (f : A -> result B) (l1 l2 : list A)
    (k1 k2 : list B) :
  mapM f l1 = Ok k1 -> mapM f l2 = Ok k2 -> mapM f (l1 ++ l2) = Ok (k1 ++ k2).
Proof.
  rewrite !mapM_result_Forall2. apply Forall2_app.
Qed.

Lemma mapM_result_map {A B C : Type} (f : B -> result C) (g : A -> B)
    (l : list A) :
  mapM f (map g l) = mapM (fun x => f (g x)) l.
Proof.
  induction l as [|x l IH]; [reflexivity|]. simpl. by rewrite IH.
Qed.

Lemma mapM_result_ext {A B : Type} (f g : A -> result B) (l : list A) :
  (forall x, f x = g x) -> mapM f l = mapM g l.
Proof.
  intros Hfg. induction l as [|x l IH]; [reflexivity|].
  simpl. by rewrite Hfg, IH.
Qed.

Lemma mapM_result_cases {A B : Type} (f : A -> result B) (l : list A) :
  (forall x err, f x = Throw err -> err = TypeError) ->
  (Forall (fun x => exists y, f x = Ok y) l /\ exists k, mapM f l = Ok k) \/
  (Exists (fun x => f x = Throw TypeError) l /\ mapM f l = Throw TypeError).
Proof.
  intros Htype. induction l as [|x l IH].
  - left. split; [constructor | by exists []].
  - simpl. destruct (f x) as [y|err] eqn:Hx; simpl.
    + destruct IH as [[Hall [k ->]]|[Hsome ->]]; simpl.
      * left. split; [constructor; eauto | by eexists].
      * right. split; [by right | done].
    + pose proof (Htype x err Hx) as ->. right. split; [by left | done].
Qed.

Lemma mixedItem_cases tagName item :
  (exists s, item = MixedString s /\ mixedItem tagName item = Throw TypeError) \/
  (exists b classList text,
     item = MixedObject b classList /\ mixedItem tagName item = Ok text).
Proof.
  destruct item as [s|b classList]; [left; by exists s|]. right.
  exists b, classList. unfold mixedItem.
  destruct (cb_str b); [by eexists|].
  destruct (bool_decide (tagName = "a")), (cb_href b), (cb_text b),
    (bool_decide (tagName = "img")), (cb_src b); by eexists.
Qed.

Lemma parseMixedTag_cases tag :
  (has_raw_item tag /\ parseMixedTag tag = Throw TypeError) \/
  (~ has_raw_item tag /\ exists html, parseMixedTag tag = Ok html).
Proof.
  destruct tag as [|[tagName value] others].
  { right. split; [intros (? & ? & ? & ? & _); discriminate | by eexists]. }
  unfold parseMixedTag. case_bool_decide as Hframe.
  { right. split; [|by eexists].
    intros (? & ? & ? & [= -> _ _] & Hne & _). done. }
  destruct value as [s|items].
  { right. split; [|by eexists].
    intros (? & ? & ? & [=] & _). }
  destruct (mapM_result_cases (mixedItem tagName) items)
    as [[Hall [parts Hparts]]|[Hsome Hthrow]].
  { intros item err Herr.
    destruct (mixedItem_cases tagName item)
      as [(s & -> & Hs)|(b & c & text & -> & Hok)]; congruence. }
  - right. split; [|rewrite Hparts; by eexists].
    intros (? & ? & ? & [= <- <- <-] & _ & s & Hin).
    apply (proj1 (Forall_forall _ _) Hall) in Hin as [y Hy]. discriminate.
  - left. split; [|by rewrite Hthrow].
    apply Exists_exists in Hsome as (item & Hin & Hitem).
    exists tagName, items, others. repeat split; [done|].
    destruct item as [s|b c]; [by exists s|].
    destruct (mixedItem_cases tagName (MixedObject b c))
      as [(s & [=] & _)|(? & ? & text & _ & Hok)]; congruence.
Qed.

(** X13.  [parseMixedContent] fails exactly when some tag of the block has,
    under a first key other than [iframe], an array with a raw string among
    its items; the failure is a [TypeError] and no HTML is returned.  On
    every other block it returns a string. *)
Theorem parseMixedContent_throws_iff (tags : list (list (string * MixedValue))) :
  (Exists has_raw_item tags <->
   parseMixedContent (Some tags) = Throw TypeError) /\
  (~ Exists has_raw_item tags <->
   exists html, parseMixedContent (Some tags) = Ok html).
Proof.
  unfold parseMixedContent.
  destruct (mapM_result_cases parseMixedTag tags)
    as [[Hall [parts Hparts]]|[Hsome Hthrow]].
  { intros tag err Herr.
    destruct (parseMixedTag_cases tag) as [[_ H]|[_ [html H]]]; congruence. }
  - assert (~ Exists has_raw_item tags) as Hnone.
    { intros Hsome. apply Exists_exists in Hsome as (tag & Hin & Hraw).
      apply (proj1 (Forall_forall _ _) Hall) in Hin as [html Hhtml].
      destruct (parseMixedTag_cases tag) as [[_ H]|[H _]]; [congruence|done]. }
    rewrite Hparts. simpl. split; split; try done.
    intros _. by eexists.
  - assert (Exists has_raw_item tags) as Hraw.
    { apply Exists_exists in Hsome as (tag & Hin & Htag).
      apply Exists_exists. exists tag. split; [done|].
      destruct (parseMixedTag_cases tag) as [[H _]|[_ [html H]]];
        [done|congruence]. }
    rewrite Hthrow. simpl. split; split; try done.
    intros [html Hhtml]. discriminate.
Qed.

Lemma parseMixedContent_throws_iff_witness :
  parseMixedContent (Some [[("p", MixedArray [MixedString "hello"])]]) =
    Throw TypeError /\
  exists html,
    parseMixedContent (Some [[("p", MixedText "hello")]]) = Ok html.
Proof.
  split.
  - apply (proj1 (proj1 (parseMixedContent_throws_iff
             [[("p", MixedArray [MixedString "hello"])]]))).
    left. exists "p", [MixedString "hello"], [].
    split; [reflexivity|]. split; [discriminate|].
    exists "hello". by left.
  - apply (proj1 (proj2 (parseMixedContent_throws_iff
             [[("p", MixedText "hello")]]))).
    intros Hsome. apply Exists_cons in Hsome as [Hraw|Hsome].
    + destruct Hraw as (? & ? & ? & [=] & _).
    + by apply Exists_nil in Hsome.
Defined.

Lemma mixedItem_clearUnread tagName item :
  mixedItem tagName (clearUnread item) = mixedItem tagName item.
Proof. by destruct item. Qed.

Lemma parseMixedTag_clearUnread tag :
  parseMixedTag (clearUnreadTag tag) = parseMixedTag tag.
Proof.
  destruct tag as [|[tagName value] others]; [reflexivity|].
  unfold clearUnreadTag, parseMixedTag. cbn [map fst snd].
  destruct value as [s|[|[s|b classList] items]]; try reflexivity.
  rewrite (mapM_result_map (mixedItem tagName) clearUnread).
  rewrite (mapM_result_ext _ (mixedItem tagName))
    by apply mixedItem_clearUnread.
  reflexivity.
Qed.

(** X14.  [parseMixedContent] never reads the fields [property], [else] and
    [class] of an item (it interpolates no feature property): clearing them
    in every item of every tag leaves the result unchanged. *)
Theorem parseMixedContent_ignores_property
    (block : option (list (list (string * MixedValue)))) :
  parseMixedContent (map clearUnreadTag <$> block) = parseMixedContent block.
Proof.
  destruct block as [tags|]; [|reflexivity]. simpl.
  rewrite (mapM_result_map parseMixedTag clearUnreadTag).
  by rewrite (mapM_result_ext _ parseMixedTag)
    by apply parseMixedTag_clearUnread.
Qed.

Lemma join_app_nonempty (sep : string) (l1 l2 : list string) :
  l1 <> [] -> l2 <> [] ->
  join sep (l1 ++ l2) = join sep l1 +:+ sep +:+ join sep l2.
Proof.
  intros H1 H2. induction l1 as [|x l1 IH]; [done|].
  destruct l1 as [|y l1].
  - destruct l2 as [|z l2]; [done|]. reflexivity.
  - change (join sep ((x :: y :: l1) ++ l2))
      with (x +:+ sep +:+ join sep ((y :: l1) ++ l2)).
    rewrite IH by done.
    change (join sep (x :: y :: l1)) with (x +:+ sep +:+ join sep (y :: l1)).
    by rewrite !append_assoc.
Qed.

(** X15.  The HTML of a block is the HTML of its tags joined by single
    spaces: two non-empty blocks that each render give, appended, the two
    strings with one space between them, and the empty block gives the empty
    string. *)
Theorem parseMixedContent_app (tags tags' : list (list (string * MixedValue)))
    (html html' : string) :
  tags <> [] -> tags' <> [] ->
  parseMixedContent (Some tags) = Ok html ->
  parseMixedContent (Some tags') = Ok html' ->
  parseMixedContent (Some (tags ++ tags')) = Ok (html +:+ " " +:+ html') /\
  parseMixedContent (Some []) = Ok "".
Proof.
  intros Hne Hne'. unfold parseMixedContent.
  destruct (mapM parseMixedTag tags) as [parts|] eqn:Hparts; simpl; [|done].
  destruct (mapM parseMixedTag tags') as [parts'|] eqn:Hparts'; simpl; [|done].
  intros [= <-] [= <-]. split; [|reflexivity].
  rewrite (mapM_result_app _ _ _ _ _ Hparts Hparts'). simpl.
  rewrite join_app_nonempty; [done|..].
  - apply mapM_result_Forall2, Forall2_length in Hparts.
    destruct parts, tags; simpl in *; congruence.
  - apply mapM_result_Forall2, Forall2_length in Hparts'.
    destruct parts', tags'; simpl in *; congruence.
Qed.

Lemma parseMixedContent_app_witness :
  parseMixedContent
    (Some ([[("p", MixedArray [MixedObject
               (mkContentBlock None None (Some "one") None None None None
                               None None) None])]] ++
           [[("h2", MixedText "two")]])) =
  Ok ("<p  >one</p>" +:+ " " +:+ "<h2  >two</h2>").
Proof.
  apply (parseMixedContent_app
           [[("p", MixedArray [MixedObject
               (mkContentBlock None None (Some "one") None None None None
                               None None) None])]]
           [[("h2", MixedText "two")]]); try discriminate; reflexivity.
Defined.

(** ** Layer materializer: what a call leaves alone *)

Lemma register_prefix source layer w :
  w_sources w `prefix_of` w_sources (register source layer w) /\
  w_layers w `prefix_of` w_layers (register source layer w).
Proof.
  rewrite register_sources, register_layers. split; by eexists.
Qed.

Lemma materializeOne_prefix visibility w layer :
  w_sources w `prefix_of` w_sources (materializeOne visibility w layer) /\
  w_layers w `prefix_of` w_layers (materializeOne visibility w layer).
Proof.
  destruct (materializeOne_registry visibility w layer) as [Hgeo Hsync].
  destruct (decide (ml_data_type layer = geojson)) as [Htype|Htype].
  - destruct (Hgeo Htype) as [-> ->]. done.
  - destruct (Hsync Htype) as [-> ->]. apply register_prefix.
Qed.

Lemma materialize_prefix visibility layers w :
  w_sources w `prefix_of` w_sources (foldl (materializeOne visibility) w layers) /\
  w_layers w `prefix_of` w_layers (foldl (materializeOne visibility) w layers).
Proof.
  revert w. induction layers as [|layer layers IH]; intros w; [done|].
  simpl. destruct (IH (materializeOne visibility w layer)) as [Hs Hl].
  destruct (materializeOne_prefix visibility w layer) as [Hs1 Hl1].
  split; by etrans.
Qed.

Lemma getLayer_prefix w w' id l :
  w_layers w `prefix_of` w_layers w' ->
  getLayer w id = Some l -> getLayer w' id = Some l.
Proof.
  intros [more Hmore] Hget. unfold getLayer in *.
  by rewrite Hmore, find_app, Hget.
Qed.

Lemma getSource_prefix w w' id s :
  w_sources w `prefix_of` w_sources w' ->
  getSource w id = Some s -> getSource w' id = Some s.
Proof.
  intros [more Hmore] Hget. unfold getSource in *.
  rewrite Hmore, find_app.
  destruct (find _ (w_sources w)); [done | discriminate].
Qed.

(** X16.  [loadMapLayers] and the fetch callbacks only ever append to the
    map's registry: the sources and layers that were there stay, in place
    and unchanged, so that a layer the user has toggled keeps its
    visibility, and what is looked up under an id before is found after. *)
Theorem registry_only_grows (layers : LayerGroup) (visibility : bool)
    (k : nat) (data : FeatureCollection) (w : World) :
  exists w1 w2,
    loadMapLayers layers visibility w = Ok w1 /\
    fetchResolved k data w1 = Ok w2 /\
    w_sources w `prefix_of` w_sources w1 /\
    w_layers w `prefix_of` w_layers w1 /\
    w_sources w1 `prefix_of` w_sources w2 /\
    w_layers w1 `prefix_of` w_layers w2 /\
    (forall id l, getLayer w id = Some l -> getLayer w2 id = Some l) /\
    (forall id s, getSource w id = Some s -> getSource w2 id = Some s).
Proof.
  eexists.
  assert (exists w2, fetchResolved k data
            (foldl (materializeOne visibility)
               (foldl (fun w layer => addToggle layer w) w layers) layers)
            = Ok w2 /\
          w_sources (foldl (materializeOne visibility)
               (foldl (fun w layer => addToggle layer w) w layers) layers)
            `prefix_of` w_sources w2 /\
          w_layers (foldl (materializeOne visibility)
               (foldl (fun w layer => addToggle layer w) w layers) layers)
            `prefix_of` w_layers w2) as (w2 & Hfetch & Hs2 & Hl2).
  { generalize (foldl (materializeOne visibility)
               (foldl (fun w layer => addToggle layer w) w layers) layers).
    intros w1. unfold fetchResolved.
    destruct (w_fetches w1 !! k) as [[layer vis]|]; [|by exists w1].
    destruct (geojsonLoaded_Ok layer vis data
                (set_fetches (fun l => delete k l) w1))
      as (l & _ & _ & _ & ->).
    eexists. split; [reflexivity|].
    apply (register_prefix _ l (set_fetches (fun l => delete k l) w1)). }
  exists w2. split; [apply loadMapLayers_eq|]. split; [exact Hfetch|].
  destruct (addToggles_frame layers w) as (Hs & Hl & _).
  destruct (materialize_prefix visibility layers
              (foldl (fun w layer => addToggle layer w) w layers)) as [Hs1 Hl1].
  rewrite Hs in Hs1. rewrite Hl in Hl1.
  split; [exact Hs1|]. split; [exact Hl1|].
  split; [exact Hs2|]. split; [exact Hl2|]. split.
  - intros id l Hget. eapply getLayer_prefix; [|exact Hget]. by etrans.
  - intros id s Hget. eapply getSource_prefix; [|exact Hget]. by etrans.
Qed.

Lemma load_menu layers visibility w :
  exists w',
    loadMapLayers layers visibility w = Ok w' /\
    w_menu w' = (fun children => children ++ togglesOf layers) <$> w_menu w.
Proof.
  eexists. split; [apply loadMapLayers_eq|].
  by rewrite materialize_menu, addToggles_menu.
Qed.

(** X17.  One control is appended to the menu for each specification with
    [toggle = true], in the order of the group, labelled with the [label] of
    the specification or else its [id]; nothing is appended when the page has
    no menu element.  A second call appends the same controls again: the
    menu then holds two controls for every toggled layer. *)
Theorem controls_appended_per_call (layers : LayerGroup)
    (visibility visibility' : bool) (w : World) :
  exists w1 w2,
    loadMapLayers layers visibility w = Ok w1 /\
    loadMapLayers layers visibility' w1 = Ok w2 /\
    w_menu w1 = (fun children => children ++ togglesOf layers) <$> w_menu w /\
    w_menu w2 = (fun children => children ++ togglesOf layers ++ togglesOf layers)
                  <$> w_menu w /\
    length (togglesOf layers) =
      length (filter (fun layer => ml_toggle layer = Some true) layers) /\
    Forall (fun b => exists layer,
              layer ∈ layers /\ ml_toggle layer = Some true /\
              tb_layer b = ml_id layer /\
              tb_textContent b = default (ml_id layer) (ml_label layer))
           (togglesOf layers).
Proof.
  destruct (load_menu layers visibility w) as (w1 & Hload1 & Hmenu1).
  destruct (load_menu layers visibility' w1) as (w2 & Hload2 & Hmenu2).
  exists w1, w2. split; [exact Hload1|]. split; [exact Hload2|].
  split; [exact Hmenu1|]. split.
  { rewrite Hmenu2, Hmenu1. destruct (w_menu w); simpl; [|done].
    by rewrite app_assoc. }
  assert (forall layer : MapLayer,
            truthy_bool (ml_toggle layer) = true <-> ml_toggle layer = Some true)
    as Htoggle.
  { intros layer. by destruct (ml_toggle layer) as [[|]|]. }
  unfold togglesOf. split.
  - rewrite length_map. f_equal. apply list_filter_iff. intros layer.
    apply Htoggle.
  - apply Forall_fmap, Forall_forall. intros layer Hin.
    apply list_elem_of_filter in Hin as [Hon Hin].
    exists layer. repeat split; [done | by apply Htoggle].
Qed.

(** *** Event wiring *)

Lemma wire_listeners popup id events w :
  w_listeners (foldl (fun w event => on (me_type event) id
                                        (ShowPopup popup event) w) w events) =
  w_listeners w ++
  map (fun event => (me_type event, id, ShowPopup popup event)) events.
Proof.
  revert w. induction events as [|event events IH]; intros w; simpl.
  - by rewrite app_nil_r.
  - rewrite IH. simpl. by rewrite <- app_assoc.
Qed.

Lemma wireEvents_listeners layer w :
  w_listeners (wireEvents layer w) =
    w_listeners w ++ listenersOf (length (w_popups w)) [layer] /\
  w_popups (wireEvents layer w) =
    w_popups w ++ replicate (length (withEvents [layer])) None.
Proof.
  unfold wireEvents, withEvents. rewrite filter_cons, filter_nil. simpl.
  destruct (ml_mouseEvent layer) as [events|].
  - rewrite decide_True by done. simpl.
    rewrite wire_listeners, app_nil_r. split; [done|].
    by destruct (wire_frame (length (w_popups w)) (ml_id layer) events
                   (set_popups (fun l => l ++ [None]) w))
      as (_ & _ & _ & _ & ->).
  - rewrite decide_False by (intros [? ?]; done).
    simpl. by rewrite !app_nil_r.
Qed.

Lemma materializeOne_listeners visibility w layer :
  w_listeners (materializeOne visibility w layer) =
    w_listeners w ++ listenersOf (length (w_popups w)) [layer] /\
  w_popups (materializeOne visibility w layer) =
    w_popups w ++ replicate (length (withEvents [layer])) None.
Proof.
  unfold materializeOne.
  match goal with
  | |- context [wireEvents layer ?w1] =>
      destruct (wireEvents_listeners layer w1) as [-> ->];
      assert (w_listeners w1 = w_listeners w /\ w_popups w1 = w_popups w)
        as [-> ->]
  end; [|done].
  destruct (ml_data_type layer); try done.
  all: by destruct (register_rest (sourceOf layer [])
                      (layerOf layer visibility) w) as (-> & -> & _).
Qed.

Lemma listenersOf_app popup layers layers' :
  listenersOf popup (layers ++ layers') =
  listenersOf popup layers ++
  listenersOf (popup + length (withEvents layers)) layers'.
Proof.
  revert popup. induction layers as [|layer layers IH]; intros popup; simpl.
  - by rewrite Nat.add_0_r.
  - unfold withEvents. rewrite filter_cons.
    destruct (ml_mouseEvent layer) as [events|].
    + rewrite decide_True by done. rewrite IH, <- app_assoc. simpl.
      do 3 f_equal. unfold withEvents. lia.
    + rewrite decide_False by (intros [? ?]; done). apply IH.
Qed.

Lemma materialize_listeners visibility layers w :
  w_listeners (foldl (materializeOne visibility) w layers) =
    w_listeners w ++ listenersOf (length (w_popups w)) layers /\
  w_popups (foldl (materializeOne visibility) w layers) =
    w_popups w ++ replicate (length (withEvents layers)) None.
Proof.
  revert w. induction layers as [|layer layers IH]; intros w.
  - simpl. by rewrite !app_nil_r.
  - simpl foldl.
    destruct (IH (materializeOne visibility w layer)) as [-> ->].
    destruct (materializeOne_listeners visibility w layer) as [-> ->].
    change (layer :: layers) with ([layer] ++ layers).
    rewrite listenersOf_app, length_app, length_replicate.
    unfold withEvents. rewrite filter_app, length_app, replicate_add.
    by rewrite <- !app_assoc.
Qed.

Lemma length_listenersOf popup popup' layers :
  length (listenersOf popup layers) = length (listenersOf popup' layers).
Proof.
  revert popup popup'.
  induction layers as [|layer layers IH]; intros popup popup'; [done|].
  simpl. destruct (ml_mouseEvent layer) as [events|]; [|apply IH].
  rewrite !length_app, !length_map. f_equal. apply IH.
Qed.

Lemma load_listeners layers visibility w :
  exists w',
    loadMapLayers layers visibility w = Ok w' /\
    w_listeners w' =
      w_listeners w ++ listenersOf (length (w_popups w)) layers /\
    w_popups w' = w_popups w ++ replicate (length (withEvents layers)) None.
Proof.
  eexists. split; [apply loadMapLayers_eq|].
  destruct (addToggles_frame layers w) as (_ & _ & Hl & Hp & _).
  destruct (materialize_listeners visibility layers
              (foldl (fun w layer => addToggle layer w) w layers)) as [-> ->].
  by rewrite Hl, Hp.
Qed.

(** X18.  Event wiring is repeated by every call: [loadMapLayers] attaches
    one listener per event binding of each layer, in order, under the
    binding's type and the layer's id, and creates one popup per layer that
    has bindings; it looks at no listener already attached, so a second call
    on the same map attaches every listener again, bound to new popups. *)
Theorem listeners_attached_per_call (layers : LayerGroup)
    (visibility visibility' : bool) (w : World) :
  exists w1 w2,
    loadMapLayers layers visibility w = Ok w1 /\
    loadMapLayers layers visibility' w1 = Ok w2 /\
    w_listeners w1 =
      w_listeners w ++ listenersOf (length (w_popups w)) layers /\
    w_listeners w2 =
      w_listeners w ++ listenersOf (length (w_popups w)) layers
        ++ listenersOf (length (w_popups w) + length (withEvents layers)) layers /\
    length (w_popups w2) =
      length (w_popups w) + 2 * length (withEvents layers) /\
    length (w_listeners w2) =
      length (w_listeners w) + 2 * length (listenersOf 0 layers).
Proof.
  destruct (load_listeners layers visibility w) as (w1 & Hload1 & Hl1 & Hp1).
  destruct (load_listeners layers visibility' w1) as (w2 & Hload2 & Hl2 & Hp2).
  exists w1, w2. split; [exact Hload1|]. split; [exact Hload2|].
  split; [exact Hl1|].
  assert (length (w_popups w1) =
          length (w_popups w) + length (withEvents layers)) as Hlen.
  { by rewrite Hp1, length_app, length_replicate. }
  split; [|split].
  - by rewrite Hl2, Hl1, Hlen, <- app_assoc.
  - rewrite Hp2, length_app, length_replicate, Hlen. lia.
  - rewrite Hl2, Hl1, !length_app.
    rewrite (length_listenersOf (length (w_popups w)) 0).
    rewrite (length_listenersOf (length (w_popups w1)) 0). lia.
Qed.

(** *** What is registered *)

Lemma getSource_register source layer w :
  getSource (register source layer w) (l_id layer) =
  match getSource w (l_id layer) with
  | Some s => Some s
  | None => Some source
  end.
Proof.
  unfold getSource at 1. rewrite register_sources, find_app.
  destruct (getSource w (l_id layer)) as [s|] eqn:Hget.
  - unfold getSource in Hget.
    destruct (find _ (w_sources w)) as [p|]; [|discriminate].
    simpl in *. congruence.
  - pose proof Hget as Hnone. unfold getSource in Hget.
    destruct (find _ (w_sources w)); [discriminate|].
    apply getSource_None in Hnone. rewrite Hnone. simpl.
    by rewrite bool_decide_true.
Qed.

(** X19.  The source registered for a raster, image or vector specification
    under a free id, and the defaults it is built with: a missing [url] is
    the empty string; a tile size that is missing or [0] is 256; a missing
    minimum zoom is 0; a maximum zoom that is missing or [0] is 22; missing
    image coordinates are the empty list. *)
Theorem source_defaults (layer : MapLayer) (visibility : bool) (w : World) :
  getSource w (ml_id layer) = None ->
  ml_data_type layer <> geojson ->
  exists w' source,
    registerLayer layer visibility w = Ok w' /\
    getSource w' (ml_id layer) = Some source /\
    (ml_data_type layer = raster ->
       exists size,
         source = RasterSource [default "" (ml_url layer)] size /\
         (ml_tileSize layer = None \/ ml_tileSize layer = Some 0%Z ->
            size = 256%Z) /\
         (forall z, ml_tileSize layer = Some z -> z <> 0%Z -> size = z)) /\
    (ml_data_type layer = image ->
       source = ImageSource (default "" (ml_url layer))
                            (default [] (ml_coordinates layer))) /\
    (ml_data_type layer = vector ->
       exists lo hi,
         source = VectorSource [default "" (ml_url layer)] lo hi /\
         lo = default 0%Z (ml_minzoom layer) /\
         (ml_maxzoom layer = None \/ ml_maxzoom layer = Some 0%Z ->
            hi = 22%Z) /\
         (forall z, ml_maxzoom layer = Some z -> z <> 0%Z -> hi = z)).
Proof.
  intros Hfree Htype.
  exists (register (sourceOf layer []) (layerOf layer visibility) w),
         (sourceOf layer []).
  split; [by apply registerLayer_register|]. split.
  { change (ml_id layer) with (l_id (layerOf layer visibility)).
    rewrite getSource_register. simpl. by rewrite Hfree. }
  assert (forall n d z, n = Some z -> z <> 0%Z -> or_num n d = z) as Hgiven.
  { intros n d z -> Hz. simpl. by rewrite (proj2 (Z.eqb_neq z 0) Hz). }
  unfold sourceOf. repeat split; intros Hkind; rewrite Hkind.
  - exists (or_num (ml_tileSize layer) 256). rewrite or_str_empty.
    split; [done|]. split; [|by intros z; apply Hgiven].
    by intros [-> | ->].
  - by rewrite or_str_empty; destruct (ml_coordinates layer).
  - exists (or_num (ml_minzoom layer) 0), (or_num (ml_maxzoom layer) 22).
    rewrite or_str_empty. split; [done|]. split; [|split].
    + destruct (ml_minzoom layer) as [z|]; simpl; [|done].
      destruct (Z.eqb_spec z 0); congruence.
    + by intros [-> | ->].
    + by intros z; apply Hgiven.
Qed.

Lemma source_defaults_witness :
  (exists w',
     registerLayer ex_tiles false ex_world = Ok w' /\
     getSource w' "tiles" = Some (RasterSource [""] 256%Z)) /\
  (exists w',
     registerLayer ex_vector false ex_world = Ok w' /\
     getSource w' "roads" =
       Some (VectorSource ["https://v/{z}/{x}/{y}.pbf"] 0%Z 22%Z)).
Proof.
  split.
  - destruct (source_defaults ex_tiles false ex_world eq_refl)
      as (w' & source & Hreg & Hget & Hraster & _); [discriminate|].
    destruct (Hraster eq_refl) as (size & -> & Hsize & _).
    exists w'. split; [exact Hreg|].
    change (ml_id ex_tiles) with "tiles" in Hget. rewrite Hget.
    rewrite Hsize by (by right). reflexivity.
  - destruct (source_defaults ex_vector false ex_world eq_refl)
      as (w' & source & Hreg & Hget & _ & _ & Hvector); [discriminate|].
    destruct (Hvector eq_refl) as (lo & hi & -> & -> & Hhi & _).
    exists w'. split; [exact Hreg|].
    change (ml_id ex_vector) with "roads" in Hget. rewrite Hget.
    rewrite Hhi by (by right). reflexivity.
Defined.

Lemma repairGeometry_spec feature :
  is_Some (gf_geometry (repairGeometry feature)) /\
  gf_properties (repairGeometry feature) = gf_properties feature /\
  (forall g, gf_geometry feature = Some g ->
     repairGeometry feature = feature) /\
  (gf_geometry feature = None ->
     gf_geometry (repairGeometry feature) =
       Some (mkGeometry "Point"
               [NumberOf (gf_properties feature !! "longitude");
                NumberOf (gf_properties feature !! "latitude")])).
Proof.
  unfold repairGeometry.
  destruct (gf_geometry feature) as [g|] eqn:Hg; simpl.
  - rewrite Hg. split; [by eexists|]. split; [done|]. split; [|done].
    intros g' _. by destruct feature; simpl in *; subst.
  - split; [by eexists|]. split; [done|]. split; done.
Qed.

(** X20.  The fetch callback of a geojson layer registers, under a free id,
    the fetched features in their order with every missing geometry filled
    in: a feature that has a geometry is passed on unchanged, a feature
    without one gets a [Point] built from its [longitude] and [latitude]
    properties, and no feature loses or changes a property.  Repairing is
    idempotent. *)
Theorem geojson_features_repaired (layer : MapLayer) (visibility : bool)
    (data : FeatureCollection) (w : World) :
  getSource w (ml_id layer) = None ->
  exists w' features,
    geojsonLoaded layer visibility data w = Ok w' /\
    getSource w' (ml_id layer) = Some (GeoJSONSource features) /\
    Forall2 (fun feature repaired =>
               is_Some (gf_geometry repaired) /\
               gf_properties repaired = gf_properties feature /\
               (is_Some (gf_geometry feature) -> repaired = feature) /\
               (gf_geometry feature = None ->
                  gf_geometry repaired =
                    Some (mkGeometry "Point"
                      [NumberOf (gf_properties feature !! "longitude");
                       NumberOf (gf_properties feature !! "latitude")])))
            data features /\
    map repairGeometry features = features.
Proof.
  intros Hfree.
  destruct (geojsonLoaded_Ok layer visibility data w) as (l & Hid & _ & _ & ->).
  eexists _, (map repairGeometry data). split; [reflexivity|]. split.
  { rewrite <- Hid, getSource_register, Hid. by rewrite Hfree. }
  split.
  - apply Forall2_fmap_r, Forall_Forall2_diag, Forall_forall.
    intros feature _.
    destruct (repairGeometry_spec feature) as (Hsome & Hprops & Hkeep & Hfill).
    repeat split; try done. intros [g Hg]. by apply (Hkeep g).
  - rewrite map_map. apply map_ext. intros feature.
    destruct (repairGeometry_spec feature) as ([g Hg] & _ & _ & _).
    by apply (proj1 (proj2 (proj2 (repairGeometry_spec
                                     (repairGeometry feature)))) g).
Qed.

Lemma geojson_features_repaired_witness :
  exists w',
    geojsonLoaded ex_geojson false [ex_bare; ex_located] ex_world = Ok w' /\
    getSource w' "parks" =
      Some (GeoJSONSource
        [mkGeoFeature
           (Some (mkGeometry "Point"
                    [NumberOf (Some "-87.6"); NumberOf (Some "41.8")]))
           {[ "longitude" := "-87.6"; "latitude" := "41.8" ]};
         ex_located]).
Proof.
  destruct (geojson_features_repaired ex_geojson false [ex_bare; ex_located]
              ex_world eq_refl) as (w' & features & Hload & Hget & _ & _).
  exists w'. split; [exact Hload|].
  vm_compute in Hload. injection Hload as <-. reflexivity.
Defined.

(** *** Fetches leave the other specifications alone *)

Lemma register_same_registry source layer w w' :
  w_sources w' = w_sources w -> w_layers w' = w_layers w ->
  w_sources (register source layer w') = w_sources (register source layer w) /\
  w_layers (register source layer w') = w_layers (register source layer w).
Proof.
  intros Hs Hl. rewrite !register_sources, !register_layers.
  destruct (registry_ext w w' Hs Hl) as [-> ->]. by rewrite Hs, Hl.
Qed.

Lemma materialize_withoutFetch visibility layers w w' :
  w_sources w' = w_sources w -> w_layers w' = w_layers w ->
  w_sources (foldl (materializeOne visibility) w' (withoutFetch layers)) =
    w_sources (foldl (materializeOne visibility) w layers) /\
  w_layers (foldl (materializeOne visibility) w' (withoutFetch layers)) =
    w_layers (foldl (materializeOne visibility) w layers).
Proof.
  revert w w'. induction layers as [|layer layers IH]; intros w w' Hs Hl.
  { done. }
  unfold withoutFetch. rewrite filter_cons. simpl foldl.
  destruct (materializeOne_registry visibility w layer) as [Hgeo Hsync].
  case_decide as Htype.
  - simpl foldl. apply IH.
    + destruct (materializeOne_registry visibility w' layer) as [_ Hsync'].
      destruct (Hsync Htype) as [-> _]. destruct (Hsync' Htype) as [-> _].
      by apply register_same_registry.
    + destruct (materializeOne_registry visibility w' layer) as [_ Hsync'].
      destruct (Hsync Htype) as [_ ->]. destruct (Hsync' Htype) as [_ ->].
      by apply register_same_registry.
  - assert (ml_data_type layer = geojson) as Hfetch.
    { by destruct (decide (ml_data_type layer = geojson)). }
    destruct (Hgeo Hfetch) as [Hs1 Hl1].
    apply IH; congruence.
Qed.

Lemma materialize_no_fetch visibility (layers : list MapLayer) w :
  Forall (fun layer => ml_data_type layer <> geojson) layers ->
  w_fetches (foldl (materializeOne visibility) w layers) = w_fetches w.
Proof.
  intros Hsync. revert w.
  induction Hsync as [|layer rest Htype _ IH]; intros w; [done|].
  simpl. rewrite IH, materializeOne_fetches.
  rewrite decide_False by done. apply app_nil_r.
Qed.

(** X21.  The specifications that need a fetch play no part in what
    [loadMapLayers] registers at once: the raster, image and vector
    specifications of a group are registered as if the geojson ones were not
    in the group, whatever becomes of the fetches. *)
Theorem fetches_do_not_hold_up_registration (layers : LayerGroup)
    (visibility : bool) (w : World) :
  exists w1 w2,
    loadMapLayers layers visibility w = Ok w1 /\
    loadMapLayers (withoutFetch layers) visibility w = Ok w2 /\
    w_sources w1 = w_sources w2 /\ w_layers w1 = w_layers w2 /\
    w_fetches w2 = w_fetches w.
Proof.
  do 2 eexists. split; [apply loadMapLayers_eq|].
  split; [apply loadMapLayers_eq|].
  destruct (addToggles_frame layers w) as (Hs & Hl & _).
  destruct (addToggles_frame (withoutFetch layers) w) as (Hs' & Hl' & _ & _ & Hf).
  destruct (materialize_withoutFetch visibility layers
              (foldl (fun w layer => addToggle layer w) w layers)
              (foldl (fun w layer => addToggle layer w) w (withoutFetch layers)))
    as [-> ->]; [congruence | congruence |].
  split; [done|]. split; [done|].
  rewrite <- Hf. apply materialize_no_fetch.
  apply Forall_forall. intros layer Hin.
  by apply list_elem_of_filter in Hin as [? _].
Qed.

(** *** Clicks *)

Lemma getLayer_setLayoutProperty_other id v w id' :
  id' <> id -> getLayer (setLayoutProperty id v w) id' = getLayer w id'.
Proof.
  intros Hne. rewrite getLayer_setLayoutProperty.
  destruct (getLayer w id') as [l|] eqn:Hget; [|done]. simpl.
  pose proof (find_some _ _ Hget) as [_ Hid].
  apply bool_decide_eq_true in Hid.
  rewrite bool_decide_false by congruence. done.
Qed.

(** X22.  A click on a control acts on the layer of that control and on that
    control only: the sources, the listeners, the popups and the fetches stay
    as they are, a layer with another id is not touched, no other control of
    the menu changes (so a second control for the same layer is left showing
    the old state), and a click on a position where the menu has no control
    does nothing. *)
Theorem click_is_local (i : nat) (w : World) :
  w_sources (clickToggle i w) = w_sources w /\
  w_listeners (clickToggle i w) = w_listeners w /\
  w_popups (clickToggle i w) = w_popups w /\
  w_fetches (clickToggle i w) = w_fetches w /\
  (forall children b id,
     w_menu w = Some children -> children !! i = Some b ->
     id <> tb_layer b -> getLayer (clickToggle i w) id = getLayer w id) /\
  (forall children j,
     w_menu w = Some children -> j <> i ->
     exists children',
       w_menu (clickToggle i w) = Some children' /\
       children' !! j = children !! j) /\
  ((forall children, w_menu w = Some children -> children !! i = None) ->
   clickToggle i w = w).
Proof.
  unfold clickToggle.
  destruct (w_menu w) as [children|] eqn:Hmenu.
  2: { split_and!; try done; intros; congruence. }
  destruct (children !! i) as [b|] eqn:Hb.
  2: { split_and!; try done.
       all: try (intros children0 b0 id [= <-] Hb0; congruence).
       all: try (intros children0 j [= <-] Hne; by exists children). }
  assert (forall v cls,
    let w' := set_menu (fun _ => Some (<[i :=
                 mkToggleButton (tb_textContent b) cls (tb_layer b)]> children))
                (setLayoutProperty (tb_layer b) v w) in
    (forall children0 b0 id,
       Some children = Some children0 -> children0 !! i = Some b0 ->
       id <> tb_layer b0 -> getLayer w' id = getLayer w id) /\
    (forall children0 j,
       Some children = Some children0 -> j <> i ->
       exists children', w_menu w' = Some children' /\
                         children' !! j = children0 !! j) /\
    ((forall children0, Some children = Some children0 ->
        children0 !! i = None) -> w' = w)) as Hboth.
  { intros v cls w'. split_and!.
    - intros children0 b0 id [= <-] Hb0 Hne.
      rewrite Hb in Hb0. injection Hb0 as <-.
      unfold w'. by rewrite getLayer_set_menu, getLayer_setLayoutProperty_other.
    - intros children0 j [= <-] Hne. eexists. split; [reflexivity|].
      by apply list_lookup_insert_ne.
    - intros Hnone. specialize (Hnone children eq_refl). congruence. }
  case_bool_decide; (split_and!; [done..| | |]); apply Hboth.
Qed.

Lemma click_is_local_witness :
  exists w1 w2,
    loadMapLayers [ex_shown] false ex_world = Ok w1 /\
    loadMapLayers [ex_shown] false w1 = Ok w2 /\
    w_menu (clickToggle 0 w2) =
      Some [mkToggleButton "relief" "" "relief";
            mkToggleButton "relief" "active" "relief"] /\
    getLayoutProperty (clickToggle 0 w2) "relief" = Some none /\
    clickToggle 5 w2 = w2.
Proof.
  do 2 eexists. split; [vm_compute; reflexivity|].
  split; [vm_compute; reflexivity|].
  split; [reflexivity|]. split; [reflexivity|].
  apply (proj2 (proj2 (proj2 (proj2 (proj2 (proj2 (click_is_local 5 _))))))).
  intros children [= <-]. reflexivity.
Defined.

(** X23.  Two clicks on a control bring the layer back to where it was: when
    the layer of the control is registered with a layout visibility, that
    visibility is the same after the second click, and it differs after the
    first. *)
Theorem two_clicks_restore_visibility (i : nat) (w : World)
    (children : list ToggleButton) (b : ToggleButton) (v : Visibility) :
  w_menu w = Some children -> children !! i = Some b ->
  getLayoutProperty w (tb_layer b) = Some v ->
  getLayoutProperty (clicks 1 i w) (tb_layer b) <> Some v /\
  getLayoutProperty (clicks 2 i w) (tb_layer b) = Some v.
Proof.
  intros Hmenu Hb Hv.
  assert (is_Some (getLayer w (tb_layer b))) as Hsome.
  { unfold getLayoutProperty in Hv.
    destruct (getLayer w (tb_layer b)); [by eexists | discriminate]. }
  assert (forall w0 children0 b0,
            w_menu w0 = Some children0 -> children0 !! i = Some b0 ->
            is_Some (getLayer w0 (tb_layer b0)) ->
            getLayoutProperty (clickToggle i w0) (tb_layer b0) =
              Some (if bool_decide (getLayoutProperty w0 (tb_layer b0)
                                    = Some visible)
                    then none else visible)) as Hclick.
  { intros w0 children0 b0 Hmenu0 Hb0 Hsome0. unfold clickToggle.
    rewrite Hmenu0, Hb0. case_bool_decide.
    - unfold getLayoutProperty at 1. rewrite getLayer_set_menu.
      by apply getLayoutProperty_setLayoutProperty.
    - unfold getLayoutProperty at 1. rewrite getLayer_set_menu.
      by apply getLayoutProperty_setLayoutProperty. }
  destruct (clickToggle_agrees w i children b Hmenu Hb Hsome)
    as (b' & Hmenu' & Hid' & Hsome' & _).
  assert (<[i := b']> children !! i = Some b') as Hb'.
  { apply list_lookup_insert_eq. by eapply lookup_lt_Some. }
  unfold clicks. simpl.
  pose proof (Hclick w children b Hmenu Hb Hsome) as H1.
  rewrite <- Hid' in Hsome'.
  pose proof (Hclick (clickToggle i w) _ b' Hmenu' Hb' Hsome') as H2.
  rewrite Hid' in H2. rewrite H2, H1, Hv.
  destruct v; simpl; split; congruence.
Qed.

Lemma two_clicks_restore_visibility_witness :
  exists w1,
    loadMapLayers [ex_shown] false ex_world = Ok w1 /\
    getLayoutProperty (clicks 1 0 w1) "relief" <> Some visible /\
    getLayoutProperty (clicks 2 0 w1) "relief" = Some visible.
Proof.
  eexists. split; [vm_compute; reflexivity|].
  apply (two_clicks_restore_visibility 0 _
           [mkToggleButton "relief" "active" "relief"]
           (mkToggleButton "relief" "active" "relief") visible);
    reflexivity.
Defined.

(** ** Initial layout of the layers a call registers *)

Lemma initialLayout_intro (visibility : bool) (layer : MapLayer)
    (l : LayerSpecification) :
  l_id l = ml_id layer ->
  l_visibility l = Some (if visibility then visible
                         else if truthy_bool (ml_visible layer)
                              then visible else none) ->
  l_paint l = or_obj (ml_paint layer) [] ->
  initialLayout visibility layer l.
Proof.
  intros Hid Hvis Hpaint. unfold initialLayout.
  rewrite Hvis, Hpaint. split; [exact Hid|]. repeat split.
  - by intros ->.
  - by intros -> ->.
  - intros -> Hvisible. by destruct (ml_visible layer) as [[|]|].
  - by intros paint ->.
  - by intros ->.
Qed.

Lemma layerOf_initialLayout (visibility : bool) (layer : MapLayer) :
  initialLayout visibility layer (layerOf layer visibility).
Proof. by apply initialLayout_intro. Qed.

(** The layers the second pass appends, each built from a specification of
    the group that needs no fetch. *)
Lemma materialize_new_layers visibility layers w :
  exists new,
    w_layers (foldl (materializeOne visibility) w layers) = w_layers w ++ new /\
    Forall (fun l => exists layer,
              layer ∈ layers /\ ml_data_type layer <> geojson /\
              l = layerOf layer visibility) new.
Proof.
  revert w. induction layers as [|layer layers IH]; intros w.
  { exists []. split; [by rewrite app_nil_r | constructor]. }
  simpl foldl.
  destruct (IH (materializeOne visibility w layer)) as (new & Hnew & Hall).
  assert (Forall (fun l => exists layer0,
            layer0 ∈ layer :: layers /\ ml_data_type layer0 <> geojson /\
            l = layerOf layer0 visibility) new) as Hall'.
  { eapply Forall_impl; [exact Hall|].
    intros l (layer0 & Hin & Htype & Hl). exists layer0.
    split; [by right | done]. }
  destruct (materializeOne_registry visibility w layer) as [Hgeo Hsync].
  destruct (decide (ml_data_type layer = geojson)) as [Htype|Htype].
  - destruct (Hgeo Htype) as [_ Hl]. exists new. by rewrite Hnew, Hl.
  - destruct (Hsync Htype) as [_ Hl].
    rewrite Hnew, Hl, register_layers, <- app_assoc.
    eexists. split; [reflexivity|].
    apply Forall_app. split; [|exact Hall'].
    destruct (layersUnder w _); constructor; [|constructor].
    exists layer. split; [left | done].
Qed.

Lemma getLayer_register_other source layer w id :
  l_id layer <> id -> getLayer (register source layer w) id = getLayer w id.
Proof.
  intros Hid. unfold getLayer. rewrite register_layers, find_app.
  destruct (find _ (w_layers w)); [done|].
  destruct (layersUnder w (l_id layer)); [|done].
  simpl. by rewrite bool_decide_false.
Qed.

Lemma getLayer_register_free source layer w :
  getLayer w (l_id layer) = None ->
  getLayer (register source layer w) (l_id layer) = Some layer.
Proof.
  intros Hfree. pose proof Hfree as Hunder. apply getLayer_None in Hunder.
  unfold getLayer in *. rewrite register_layers, find_app, Hfree, Hunder.
  simpl. by rewrite bool_decide_true.
Qed.

(** With one specification per id, the layer found under the id of a
    specification that needs no fetch is the one built from it. *)
Lemma materialize_getLayer visibility layers w layer :
  NoDup (ml_id <$> layers) -> layer ∈ layers ->
  ml_data_type layer <> geojson -> getLayer w (ml_id layer) = None ->
  getLayer (foldl (materializeOne visibility) w layers) (ml_id layer) =
    Some (layerOf layer visibility).
Proof.
  intros Hnodup Hin Htype. revert w.
  induction layers as [|other layers IH]; intros w Hfree; [by inversion Hin|].
  rewrite fmap_cons in Hnodup. apply NoDup_cons in Hnodup as [Hfresh Hnodup].
  simpl foldl.
  destruct (materializeOne_registry visibility w other) as [Hgeo Hsync].
  apply elem_of_cons in Hin as [->|Hin].
  - eapply getLayer_prefix; [apply materialize_prefix|].
    destruct (Hsync Htype) as [_ Hl].
    rewrite (getLayer_ext _ _ _ Hl).
    by apply (getLayer_register_free (sourceOf other [])
                (layerOf other visibility)).
  - apply IH; [done..|].
    assert (ml_id other <> ml_id layer) as Hid.
    { intros Heq. apply Hfresh. rewrite Heq.
      by apply (list_elem_of_fmap_2 ml_id). }
    destruct (decide (ml_data_type other = geojson)) as [Hother|Hother].
    + destruct (Hgeo Hother) as [_ Hl]. by rewrite (getLayer_ext _ _ _ Hl).
    + destruct (Hsync Hother) as [_ Hl]. rewrite (getLayer_ext _ _ _ Hl).
      by rewrite (getLayer_register_other (sourceOf other [])
                    (layerOf other visibility)).
Qed.

Lemma materialize_fetches_eq visibility layers w :
  w_fetches (foldl (materializeOne visibility) w layers) =
  w_fetches w ++
  map (fun layer => (layer, visibility))
      (filter (fun layer => ml_data_type layer = geojson) layers).
Proof.
  revert w. induction layers as [|layer layers IH]; intros w.
  { simpl. by rewrite app_nil_r. }
  simpl foldl. rewrite IH, materializeOne_fetches, filter_cons.
  case_decide; simpl; by rewrite <- app_assoc.
Qed.

Lemma getLayer_new w w' new id l :
  w_layers w' = w_layers w ++ new -> getLayer w id = None ->
  getLayer w' id = Some l -> l ∈ new.
Proof.
  unfold getLayer. intros -> Hfree. rewrite find_app, Hfree. intros Hfind.
  apply find_some in Hfind as [Hin _]. by apply list_elem_of_In.
Qed.

(** The callback of a fetch registers the layer with the visibility argument
    of the call that started the fetch. *)
Lemma fetchResolved_initialLayout k layer vis data w1 :
  w_fetches w1 !! k = Some (layer, vis) ->
  getLayer w1 (ml_id layer) = None ->
  exists w2 l,
    fetchResolved k data w1 = Ok w2 /\
    w_layers w2 = w_layers w1 ++ [l] /\
    initialLayout vis layer l.
Proof.
  intros Hk Hfree. unfold fetchResolved. rewrite Hk.
  destruct (geojsonLoaded_Ok layer vis data
              (set_fetches (fun l => delete k l) w1))
    as (l & Hid & Hvis & Hpaint & ->).
  eexists _, l. split; [reflexivity|]. split.
  - rewrite register_layers. simpl. rewrite Hid.
    apply getLayer_None in Hfree. unfold layersUnder in *. simpl.
    by rewrite Hfree.
  - by apply initialLayout_intro.
Qed.

(** C7.  Every layer a call of the materializer registers gets as its initial
    layout visibility [visible] when the caller's [visibility] argument is
    true, and otherwise [visible] exactly when the specification's [visible]
    field is true and [none] when it is not; its paint is the specification's
    paint object, or the empty object when the specification has none.  The
    layers of the raster, image and vector specifications are registered by
    the call itself; the layer of a geojson specification is registered by
    the callback of the fetch the call starts, which carries the argument of
    that call. *)
Theorem initial_visibility_and_paint (layers : LayerGroup) (visibility : bool)
    (w : World) :
  exists w' new,
    loadMapLayers layers visibility w = Ok w' /\
    w_layers w' = w_layers w ++ new /\
    Forall (fun l => exists layer,
              layer ∈ layers /\ ml_data_type layer <> geojson /\
              initialLayout visibility layer l) new /\
    (NoDup (ml_id <$> layers) ->
     forall layer, layer ∈ layers -> ml_data_type layer <> geojson ->
       getLayer w (ml_id layer) = None ->
       exists l, l ∈ new /\ getLayer w' (ml_id layer) = Some l /\
                 initialLayout visibility layer l) /\
    w_fetches w' =
      w_fetches w ++
      map (fun layer => (layer, visibility))
          (filter (fun layer => ml_data_type layer = geojson) layers) /\
    (forall k layer vis data w1,
       w_fetches w1 !! k = Some (layer, vis) ->
       getLayer w1 (ml_id layer) = None ->
       exists w2 l,
         fetchResolved k data w1 = Ok w2 /\
         w_layers w2 = w_layers w1 ++ [l] /\
         initialLayout vis layer l).
Proof.
  destruct (addToggles_frame layers w) as (_ & Hl & _ & _ & Hf).
  set (w0 := foldl (fun w layer => addToggle layer w) w layers) in *.
  destruct (materialize_new_layers visibility layers w0) as (new & Hnew & Hall).
  exists (foldl (materializeOne visibility) w0 layers), new.
  split; [apply loadMapLayers_eq|]. rewrite Hl in Hnew.
  split; [exact Hnew|]. split; [|split; [|split]].
  - eapply Forall_impl; [exact Hall|].
    intros l (layer & Hin & Htype & ->). exists layer.
    split; [done|]. split; [done|]. apply layerOf_initialLayout.
  - intros Hnodup layer Hin Htype Hfree.
    assert (getLayer w0 (ml_id layer) = None) as Hfree0
      by by rewrite (getLayer_ext _ _ _ Hl).
    pose proof (materialize_getLayer visibility layers w0 layer Hnodup Hin
                  Htype Hfree0) as Hget.
    exists (layerOf layer visibility). split; [|split].
    + by eapply getLayer_new.
    + exact Hget.
    + apply layerOf_initialLayout.
  - by rewrite materialize_fetches_eq, Hf.
  - apply fetchResolved_initialLayout.
Qed.

Lemma initial_visibility_and_paint_witness :
  exists w' l,
    loadMapLayers [ex_raster; ex_geojson] true ex_world = Ok w' /\
    getLayer w' "relief" = Some l /\
    ml_visible ex_raster = Some false /\
    l_visibility l = Some visible /\ l_paint l = [] /\
    exists w2 l',
      fetchResolved 0 [] w' = Ok w2 /\
      w_layers w2 = w_layers w' ++ [l'] /\
      l_id l' = "parks" /\ l_visibility l' = Some visible /\
      l_paint l' = [("fill-color", "#0a0")].
Proof.
  destruct (initial_visibility_and_paint [ex_raster; ex_geojson] true ex_world)
    as (w' & new & Hload & _ & _ & Hfirst & Hfetches & Hcallback).
  destruct (Hfirst ltac:(apply (bool_decide_unpack _); vm_compute; exact I)
              ex_raster
              ltac:(left) ltac:(discriminate) eq_refl)
    as (l & _ & Hget & _ & Hvis & _ & _ & _ & Hpaint).
  destruct (Hcallback 0 ex_geojson true [] w') as (w2 & l' & Hw2 & Hl' & Hlayout).
  { by rewrite Hfetches. }
  { vm_compute in Hload. injection Hload as <-. reflexivity. }
  destruct Hlayout as (Hid & Hvis' & _ & _ & Hpaint' & _).
  exists w', l. split; [exact Hload|]. split; [exact Hget|].
  split; [reflexivity|]. split; [by apply Hvis|]. split; [by apply Hpaint|].
  exists w2, l'. split; [exact Hw2|]. split; [exact Hl'|].
  split; [exact Hid|]. split; [by apply Hvis' | by apply Hpaint'].
Defined.

(** ** Popups *)

Lemma mapM_bind_Ok {A B C : Type} (f : A -> result B) (g : B -> C)
    (l : list A) :
  mapM (fun x => y ← f x; Ok (g y)) l = ys ← mapM f l; Ok (map g ys).
Proof.
  induction l as [|x l IH]; [reflexivity|].
  simpl. rewrite IH. destruct (f x) as [y|]; simpl; [|done].
  by destruct (mapM f l).
Qed.

Lemma transformMixedBlock_empty_items content e :
  Exists empty_items content ->
  transformMixedBlockToHTMLObject content e = Throw TypeError.
Proof.
  unfold transformMixedBlockToHTMLObject.
  induction 1 as [tag content Hempty|tag content _ IH]; simpl.
  - destruct (transform_cases tag e) as [[_ ->]|[Hfull _]]; done.
  - destruct (transform_cases tag e) as [[_ ->]|[_ (node & -> & _)]];
      [done|]. simpl. by rewrite IH.
Qed.

Lemma runListener_ShowPopup id e popup event w :
  runListener id e (ShowPopup popup event) w =
  nodes ← transformMixedBlockToHTMLObject (me_content event) (Some e);
  Ok (let w1 := showPopup popup (lngLat e) (renderHTMLObjects nodes) w in
      if bool_decide (me_type event = mousemove)
      then on mouseleave id (RemovePopup popup) w1 else w1).
Proof.
  unfold runListener, transformMixedBlockToHTMLObject.
  rewrite (mapM_bind_Ok _ renderHTMLObject).
  by destruct (mapM _ (me_content event)).
Qed.

Lemma forEachM_singleton {A S : Type} (body : A -> S -> result S) x s :
  forEachM body [x] s = body x s.
Proof. simpl. by destruct (body x s). Qed.

(** X24.  When the only listener for an event type on a layer is the popup
    handler of a binding, an event of that type shows the binding's popup at
    the event's coordinates with, as its HTML, the binding's content
    transformed with the event as context and rendered, tag after tag; the
    map's registry and the menu are not touched, and a [mouseleave] listener is
    attached exactly when the binding's type is [mousemove].  When a tag of
    the content has an empty array the handler throws a [TypeError]
    instead. *)
Theorem popup_shows_rendered_content (type : EventType) (id : string)
    (popup : nat) (event : MapEvent) (e : MapLayerMouseEvent) (w : World) :
  filter (fun reg => fst reg = (type, id)) (w_listeners w) =
    [(type, id, ShowPopup popup event)] ->
  (forall nodes,
     transformMixedBlockToHTMLObject (me_content event) (Some e) = Ok nodes ->
     exists w',
       fire type id e w = Ok w' /\
       w_popups w' =
         <[popup := Some (lngLat e, renderHTMLObjects nodes)]> (w_popups w) /\
       w_sources w' = w_sources w /\ w_layers w' = w_layers w /\
       w_menu w' = w_menu w /\
       w_listeners w' =
         w_listeners w ++
         (if bool_decide (me_type event = mousemove)
          then [(mouseleave, id, RemovePopup popup)] else [])) /\
  (Exists empty_items (me_content event) ->
   fire type id e w = Throw TypeError).
Proof.
  intros Hlisteners. unfold fire. rewrite Hlisteners, forEachM_singleton.
  cbn [snd]. rewrite runListener_ShowPopup. split.
  - intros nodes ->. simpl. eexists. split; [reflexivity|].
    case_bool_decide; simpl; repeat split; by rewrite ?app_nil_r.
  - intros Hempty.
    by rewrite (transformMixedBlock_empty_items _ _ Hempty).
Qed.

Lemma popup_shows_rendered_content_witness :
  exists w1 w2,
    loadMapLayers [ex_clickable] false ex_world = Ok w1 /\
    fire click "relief" ex_lake w1 = Ok w2 /\
    w_popups w2 = [Some ((0%Q, 0%Q), "<p     >Lake Park</p>")] /\
    w_listeners w2 = w_listeners w1.
Proof.
  eexists. 
  assert (exists w2,
    fire click "relief" ex_lake
      (foldl (materializeOne false)
         (foldl (fun w layer => addToggle layer w) ex_world [ex_clickable])
         [ex_clickable]) = Ok w2 /\
    w_popups w2 = [Some ((0%Q, 0%Q), "<p     >Lake Park</p>")] /\
    w_listeners w2 =
      w_listeners (foldl (materializeOne false)
         (foldl (fun w layer => addToggle layer w) ex_world [ex_clickable])
         [ex_clickable])) as (w2 & Hfire & Hpopups & Hlisteners).
  { destruct (proj1 (popup_shows_rendered_content click "relief" 0
        (mkMapEvent click [[("p", TagArray [ex_name_item])]]) ex_lake
        (foldl (materializeOne false)
           (foldl (fun w layer => addToggle layer w) ex_world [ex_clickable])
           [ex_clickable]) eq_refl)
        [singleNode "p" (Some ex_lake) ex_name_item])
      as (w2 & Hfire & Hpopups & _ & _ & _ & Hlisteners); [reflexivity|].
    exists w2. split; [exact Hfire|]. split.
    - rewrite Hpopups. reflexivity.
    - rewrite Hlisteners. reflexivity. }
  exists w2. split; [apply loadMapLayers_eq|]. by repeat split.
Defined.

(** *** Hover *)

Lemma removals_run id e popup k w :
  forEachM (fun reg w => runListener id e (snd reg) w)
    (replicate k (mouseleave, id, RemovePopup popup)) w =
  Ok (Nat.iter k (removePopup popup) w).
Proof.
  revert w. induction k as [|k IH]; intros w; [reflexivity|].
  simpl replicate. simpl forEachM. rewrite IH. f_equal.
  clear IH. induction k as [|k IH]; [reflexivity|].
  simpl. by rewrite IH.
Qed.

Lemma removals_frame popup k w :
  w_listeners (Nat.iter k (removePopup popup) w) = w_listeners w /\
  length (w_popups (Nat.iter k (removePopup popup) w)) = length (w_popups w) /\
  (0 < k -> popup < length (w_popups w) ->
   w_popups (Nat.iter k (removePopup popup) w) !! popup = Some None).
Proof.
  induction k as [|k (IHl & IHn & _)]; [repeat split; lia|].
  simpl. split; [exact IHl|]. split.
  - by rewrite length_insert.
  - intros _ Hlt. apply list_lookup_insert_eq. by rewrite IHn.
Qed.

Lemma hover_moves n id popup event e nodes k w :
  me_type event = mousemove ->
  transformMixedBlockToHTMLObject (me_content event) (Some e) = Ok nodes ->
  popup < length (w_popups w) ->
  w_listeners w = (mousemove, id, ShowPopup popup event)
                    :: replicate k (mouseleave, id, RemovePopup popup) ->
  exists w',
    mousemoves n id e w = Ok w' /\
    w_listeners w' = (mousemove, id, ShowPopup popup event)
                       :: replicate (k + n) (mouseleave, id, RemovePopup popup) /\
    length (w_popups w') = length (w_popups w) /\
    (0 < n ->
     w_popups w' !! popup = Some (Some (lngLat e, renderHTMLObjects nodes))).
Proof.
  intros Htype Hnodes. revert k w.
  induction n as [|n IH]; intros k w Hlt Hlisteners.
  - exists w. rewrite Nat.add_0_r. repeat split; [done | lia].
  - simpl. unfold fire. rewrite Hlisteners.
    rewrite filter_cons, decide_True by done.
    rewrite filter_replicate_False by (simpl; congruence).
    rewrite forEachM_singleton. cbn [snd].
    rewrite runListener_ShowPopup, Hnodes. simpl.
    rewrite Htype, bool_decide_true by done.
    set (w1 := on mouseleave id (RemovePopup popup)
                 (showPopup popup (lngLat e) (renderHTMLObjects nodes) w)).
    assert (w_popups w1 =
            <[popup := Some (lngLat e, renderHTMLObjects nodes)]> (w_popups w))
      as Hpopups by reflexivity.
    destruct (IH (S k) w1) as (w' & Hmoves & Hl' & Hn' & Hshown).
    { by rewrite Hpopups, length_insert. }
    { unfold w1. simpl. rewrite Hlisteners. simpl. f_equal.
      apply (replicate_snoc k). }
    exists w'. split; [exact Hmoves|]. split.
    { rewrite Hl'. do 2 f_equal. lia. }
    split; [by rewrite Hn', Hpopups, length_insert|].
    intros _. destruct n as [|n]; [|apply Hshown; lia].
    simpl in Hmoves. injection Hmoves as <-.
    rewrite Hpopups. by apply list_lookup_insert_eq.
Qed.

(** X25.  Hover tracking: for a layer with one [mousemove] binding, a
    [mousemove] on the layer shows the popup with the rendered content, and a
    [mouseleave] that follows, after any number of [mousemove] events, hides
    it again; before the first [mousemove] the popup is not shown. *)
Theorem hover_shows_then_hides (layer : MapLayer) (event : MapEvent)
    (e e' : MapLayerMouseEvent) (nodes : list HTMLObject)
    (visibility : bool) (w : World) (n : nat) :
  ml_mouseEvent layer = Some [event] ->
  me_type event = mousemove ->
  transformMixedBlockToHTMLObject (me_content event) (Some e) = Ok nodes ->
  w_listeners w = [] ->
  0 < n ->
  exists w1 w2 w3,
    loadMapLayers [layer] visibility w = Ok w1 /\
    w_popups w1 !! length (w_popups w) = Some None /\
    mousemoves n (ml_id layer) e w1 = Ok w2 /\
    w_popups w2 !! length (w_popups w) =
      Some (Some (lngLat e, renderHTMLObjects nodes)) /\
    fire mouseleave (ml_id layer) e' w2 = Ok w3 /\
    w_popups w3 !! length (w_popups w) = Some None.
Proof.
  intros Hevents Htype Hnodes Hnone Hn.
  destruct (load_listeners [layer] visibility w) as (w1 & Hload & Hl1 & Hp1).
  assert (w_listeners w1 =
          (mousemove, ml_id layer, ShowPopup (length (w_popups w)) event)
            :: replicate 0 (mouseleave, ml_id layer,
                            RemovePopup (length (w_popups w)))) as Hl1'.
  { rewrite Hl1, Hnone. simpl. rewrite Hevents. simpl. by rewrite Htype. }
  assert (w_popups w1 = w_popups w ++ [None]) as Hp1'.
  { rewrite Hp1. unfold withEvents. rewrite filter_cons, filter_nil.
    rewrite decide_True by (rewrite Hevents; by eexists). done. }
  assert (length (w_popups w) < length (w_popups w1)) as Hlt.
  { rewrite Hp1', length_app. simpl. lia. }
  destruct (hover_moves n (ml_id layer) (length (w_popups w)) event e nodes 0 w1
              Htype Hnodes Hlt Hl1') as (w2 & Hmoves & Hl2 & Hn2 & Hshown).
  exists w1, w2, (Nat.iter n (removePopup (length (w_popups w))) w2).
  split; [exact Hload|]. split.
  { rewrite Hp1'. by apply list_lookup_middle. }
  split; [exact Hmoves|]. split; [by apply Hshown|]. split.
  - unfold fire. rewrite Hl2.
    rewrite filter_cons, decide_False by (simpl; congruence).
    rewrite filter_replicate_True by done.
    simpl. apply removals_run.
  - apply removals_frame; [done|]. by rewrite Hn2.
Qed.

Lemma hover_shows_then_hides_witness :
  exists w1 w2 w3,
    loadMapLayers [ex_hover] false ex_world = Ok w1 /\
    mousemoves 2 "relief" ex_lake w1 = Ok w2 /\
    w_popups w2 = [Some ((0%Q, 0%Q), "<p     >Lake Park</p>")] /\
    fire mouseleave "relief" ex_pointer w2 = Ok w3 /\
    w_popups w3 = [None].
Proof.
  destruct (hover_shows_then_hides ex_hover
              (mkMapEvent mousemove [[("p", TagArray [ex_name_item])]])
              ex_lake ex_pointer [singleNode "p" (Some ex_lake) ex_name_item]
              false ex_world 2)
    as (w1 & w2 & w3 & Hload & _ & Hmoves & _ & Hleave & _);
    [reflexivity | reflexivity | reflexivity | reflexivity | lia |].
  exists w1, w2, w3. split; [exact Hload|]. split; [exact Hmoves|].
  vm_compute in Hload. injection Hload as <-.
  vm_compute in Hmoves. injection Hmoves as <-.
  split; [reflexivity|]. split; [exact Hleave|].
  vm_compute in Hleave. injection Hleave as <-. reflexivity.
Defined.
